(** * Statistics and reporting core of the personal task tracker

    A shallow embedding of [controllers/stats_controller.go] together with
    the parts of [utils/utils.go] and of the [models] package it uses, and
    the properties of the reporting core proved on that embedding.

    Conventions of the embedding.
    - A Go [time.Time] is the number of nanoseconds on the civil time line
      of one location whose offset never changes (the server's zone, UTC);
      [time.Duration] is a number of nanoseconds.
    - Go's [int], [int64] and [uint] are [Z]; the counts of this program are
      list lengths and stay far from the 64-bit bounds.
    - A [float64] rate is the rational number it rounds ([Q]): the reports
      only convert two counts, divide them and multiply by 100. Rounding
      is monotone and 0, 1 and 100 are floats, so a bound by 0 or by 100
      shown here holds of the rounded value too.
    - The MySQL store behind gorm is a list of rows per table; a query never
      fails (the handlers ignore query errors). *)

From Stdlib Require Import ZArith QArith List String Ascii Bool Lia.
From Stdlib Require Import DecimalString DecimalN DecimalPos.
Import ListNotations.

Local Open Scope Z_scope.

(** A property of the [n] integers from [z] on, decided by running it. *)
Fixpoint allFrom (f : Z -> bool) (n : nat) (z : Z) : bool :=
  match n with
  | O => true
  | S k => f z && allFrom f k (z + 1)
  end.

(* ================================================================== *)
(** * The standard library's [time] package *)
(* ================================================================== *)

Module GoTime.

(** Nanoseconds on the civil time line, 0 being 1970-01-01 00:00:00. *)
Abbreviation Time := Z (only parsing).
Abbreviation Duration := Z (only parsing).

Definition Nanosecond : Duration := 1.
Definition Second : Duration := 1000000000.
Definition Minute : Duration := 60 * Second.
Definition Hour : Duration := 60 * Minute.

Definition secondsPerMinute := 60.
Definition secondsPerHour := 3600.
Definition secondsPerDay := 86400.
Definition nsPerDay : Z := secondsPerDay * Second.

Definition daysPer400Years := 146097.
Definition daysPer100Years := 36524.
Definition daysPer4Years := 1461.

(** Days from 0001-01-01 (a Monday, the start of a 400-year cycle, as
    the package's absolute epoch is) to 1970-01-01. *)
Definition unixEpochDays := 719162.

(** [time.Weekday]: Sunday is 0. *)
Definition Sunday := 0.
Definition Monday := 1.
Definition Saturday := 6.

Definition isLeap (year : Z) : bool :=
  (year mod 4 =? 0) && (negb (year mod 100 =? 0) || (year mod 400 =? 0)).

(** [daysBefore[m]]: days in a non-leap year before month [m+1]. *)
Definition daysBefore (m : Z) : Z :=
  nth (Z.to_nat m) [0; 31; 59; 90; 120; 151; 181; 212; 243; 273; 304; 334; 365] 0.

(** [daysIn(m, year)]: the length of a month. *)
Definition daysIn (m year : Z) : Z :=
  if (m =? 2) && isLeap year then 29 else daysBefore m - daysBefore (m - 1).

(** [norm(hi, lo, base)]: [lo] brought into [0, base), carrying into [hi]. *)
Definition norm (hi lo base : Z) : Z * Z := (hi + lo / base, lo mod base).

(** [daysSinceEpoch(year)]: days from the epoch to January 1 of [year]. *)
Definition daysSinceEpoch (year : Z) : Z :=
  let y := year - 1 in
  let n := y / 400 in
  let y := y - 400 * n in
  let d := daysPer400Years * n in
  let n := y / 100 in
  let y := y - 100 * n in
  let d := d + daysPer100Years * n in
  let n := y / 4 in
  let y := y - 4 * n in
  let d := d + daysPer4Years * n in
  d + 365 * y.

(** Days from the epoch to the given day; the month is already in 1..12,
    the day is any integer. *)
Definition absDays (year month day : Z) : Z :=
  let d := daysSinceEpoch year in
  let d := d + daysBefore (month - 1) in
  let d := if isLeap year && (3 <=? month) then d + 1 else d in
  d + (day - 1).

(** [time.Date(year, month, day, hour, min, sec, nsec, loc)]. *)
Definition Date (year month day hour min sec nsec : Z) : Time :=
  let m := month - 1 in
  let '(year, m) := norm year m 12 in
  let month := m + 1 in
  let '(sec, nsec) := norm sec nsec 1000000000 in
  let '(min, sec) := norm min sec 60 in
  let '(hour, min) := norm hour min 60 in
  let '(day, hour) := norm day hour 24 in
  let d := absDays year month day in
  let abs := d * secondsPerDay in
  let abs := abs + (hour * secondsPerHour + min * secondsPerMinute + sec) in
  let unix := abs - unixEpochDays * secondsPerDay in
  unix * Second + nsec.

(** Whole days from the epoch to the instant [t]. *)
Definition absDay (t : Time) : Z := t / nsPerDay + unixEpochDays.

(** The year and the day within it of a day count ([absDate], first half). *)
Definition yearDay (d : Z) : Z * Z :=
  let n := d / daysPer400Years in
  let y := 400 * n in
  let d := d - daysPer400Years * n in
  let n := d / daysPer100Years in
  let n := n - Z.shiftr n 2 in
  let y := y + 100 * n in
  let d := d - daysPer100Years * n in
  let n := d / daysPer4Years in
  let y := y + 4 * n in
  let d := d - daysPer4Years * n in
  let n := d / 365 in
  let n := n - Z.shiftr n 2 in
  let y := y + n in
  let d := d - 365 * n in
  (y + 1, d).

(** Month and day of the month from the day of the year ([absDate],
    second half). *)
Definition monthDay (leap : bool) (yday : Z) : Z * Z :=
  if leap && (yday =? 31 + 29 - 1) then (2, 29)
  else
    let day := if leap && (31 + 29 - 1 <? yday) then yday - 1 else yday in
    let month := day / 31 in
    let end_ := daysBefore (month + 1) in
    let '(month, begin) :=
      if end_ <=? day then (month + 1, end_) else (month, daysBefore month) in
    (month + 1, day - begin + 1).

Definition absDate (d : Z) : Z * Z * Z :=
  let '(year, yday) := yearDay d in
  let '(month, day) := monthDay (isLeap year) yday in
  (year, month, day).

Definition Year (t : Time) : Z := fst (fst (absDate (absDay t))).
Definition Month (t : Time) : Z := snd (fst (absDate (absDay t))).
Definition Day (t : Time) : Z := snd (absDate (absDay t)).

Definition Weekday (t : Time) : Z := (absDay t + Monday) mod 7.

(** The clock fields of [t.Clock()] and [t.Nanosecond()]. *)
Definition daySeconds (t : Time) : Z := (t mod nsPerDay) / Second.
Definition ClockHour (t : Time) : Z := daySeconds t / secondsPerHour.
Definition ClockMin (t : Time) : Z := (daySeconds t mod secondsPerHour) / secondsPerMinute.
Definition ClockSec (t : Time) : Z := daySeconds t mod secondsPerMinute.
Definition Nanos (t : Time) : Z := t mod Second.

Definition Add (t : Time) (d : Duration) : Time := t + d.

Definition AddDate (t : Time) (years months days : Z) : Time :=
  Date (Year t + years) (Month t + months) (Day t + days)
       (ClockHour t) (ClockMin t) (ClockSec t) (Nanos t).

(** ** Formatting and parsing *)

Definition isDigit (c : ascii) : bool :=
  (48 <=? Z.of_nat (nat_of_ascii c)) && (Z.of_nat (nat_of_ascii c) <=? 57).

Definition digitVal (c : ascii) : Z := Z.of_nat (nat_of_ascii c) - 48.

(** The decimal digits of a non-negative integer, without padding. *)
Definition itoa (u : Z) : string := NilZero.string_of_uint (N.to_uint (Z.to_N u)).

Fixpoint zeros (n : nat) : string :=
  match n with
  | O => EmptyString
  | S k => String "0" (zeros k)
  end.

(** [appendInt(b, x, width)]: a minus sign for a negative [x], then its
    digits padded with zeros to [width]. *)
Definition appendInt (x : Z) (width : nat) : string :=
  let sign := if x <? 0 then "-"%string else EmptyString in
  let digits := itoa (Z.abs x) in
  (sign ++ zeros (width - String.length digits) ++ digits)%string.

(** [t.Format("2006-01-02")]. *)
Definition FormatDate (t : Time) : string :=
  (appendInt (Year t) 4 ++ "-" ++ appendInt (Month t) 2 ++ "-" ++ appendInt (Day t) 2)%string.

(** [t.Format("2006-01")]. *)
Definition FormatMonth (t : Time) : string :=
  (appendInt (Year t) 4 ++ "-" ++ appendInt (Month t) 2)%string.

(** The [error] of a failed [time.Parse]: the layout and the value. *)
Inductive ParseError := mkParseError (layout value : string).

(** [time.Parse("2006-01", value)]: four digits of year, a hyphen, two
    digits of month in 1..12, and nothing after; the result is the first
    instant of the month. *)
Definition ParseMonth (value : string) : Time + ParseError :=
  let bad := inr (mkParseError "2006-01" value) in
  match value with
  | String y1 (String y2 (String y3 (String y4 rest))) =>
      if isDigit y1 && isDigit y2 && isDigit y3 && isDigit y4 then
        let year := ((digitVal y1 * 10 + digitVal y2) * 10 + digitVal y3) * 10 + digitVal y4 in
        match rest with
        | String "-" (String m1 (String m2 rest)) =>
            if isDigit m1 && isDigit m2 then
              let month := digitVal m1 * 10 + digitVal m2 in
              if (month <=? 0) || (12 <? month) then bad
              else
                match rest with
                | EmptyString => inl (Date year month 1 0 0 0 0)
                | _ => bad
                end
            else bad
        | _ => bad
        end
      else bad
  | _ => bad
  end.

(** ** Checks of one 400-year cycle, run by the proofs *)

(** Reading back the digits [appendInt] writes. *)
Definition decodeU (s : string) : option N :=
  option_map N.of_uint (NilEmpty.uint_of_string s).

Definition cycleDayOk (d : Z) : bool :=
  let '(y, m, dd) := absDate d in
  (absDays y m dd =? d) && (1 <=? m) && (m <=? 12) && (1 <=? dd) && (dd <=? daysIn m y).

Definition cycleDateOk (y m dd : Z) : bool :=
  if dd <=? daysIn m y then
    let '(y', m', dd') := absDate (absDays y m dd) in
    (y' =? y) && (m' =? m) && (dd' =? dd)
  else true.

End GoTime.

(* ================================================================== *)
(** * The standard library's [strconv.Atoi] *)
(* ================================================================== *)

Module Strconv.

(** The digit loop: [n = n*10 + int(ch - '0')], failing on a byte that is
    no decimal digit. *)
Fixpoint digits (n : Z) (s : string) : option Z :=
  match s with
  | EmptyString => Some n
  | String ch s' =>
      if GoTime.isDigit ch then digits (n * 10 + GoTime.digitVal ch) s' else None
  end.

(** [strconv.Atoi(s)]: an optional sign, at least one decimal digit, and a
    value that fits the 64-bit [int]; [None] stands for the error. *)
Definition Atoi (s : string) : option Z :=
  let '(neg, body) :=
    match s with
    | String "-" s' => (true, s')
    | String "+" s' => (false, s')
    | _ => (false, s)
    end in
  match body with
  | EmptyString => None
  | _ =>
      match digits 0 body with
      | None => None
      | Some n =>
          let n := if neg then - n else n in
          if (- 2 ^ 63 <=? n) && (n <=? 2 ^ 63 - 1) then Some n else None
      end
  end.

End Strconv.

(* ================================================================== *)
(** * The [models] package *)
(* ================================================================== *)

Module Models.
Import GoTime.

(** The rows of the three tables, with the columns the reports read.
    A pointer field ([*time.Time], [*uint]) and [gorm.DeletedAt] are
    nullable columns. *)
Module Category.
Record t := mk {
  ID : Z;
  Name : string;
  UserID : Z;
  DeletedAt : option Time
}.
End Category.

Module Project.
Record t := mk {
  ID : Z;
  Name : string;
  Status : string;
  UserID : Z;
  DeletedAt : option Time
}.
End Project.

Module Task.
Record t := mk {
  ID : Z;
  Title : string;
  Status : string;
  Priority : string;
  DueDate : option Time;
  CompletedAt : option Time;
  UserID : Z;
  CategoryID : option Z;
  ProjectID : option Z;
  CreatedAt : Time;
  DeletedAt : option Time
}.
End Task.

Module StatsOverview.
Record t := mk {
  TotalTasks : Z;
  PendingTasks : Z;
  InProgressTasks : Z;
  CompletedTasks : Z;
  TotalProjects : Z;
  ActiveProjects : Z;
  TotalCategories : Z
}.
End StatsOverview.

Module DailyStats.
Record t := mk {
  Date : string;
  TasksCreated : Z;
  TasksCompleted : Z
}.
End DailyStats.

(** The reports the other handlers assemble ([gin.H] maps and local
    structs of [stats_controller.go]), one record per shape; a
    [float64] is a [Q]. *)
Module WeeklyStats.
Record t := mk {
  Week : string;
  TasksCreated : Z;
  TasksCompleted : Z
}.
End WeeklyStats.

Module ProductivityDay.
Record t := mk {
  date : string;
  created : Z;
  completed : Z;
  efficiency : Q
}.
End ProductivityDay.

Module CategoryEfficiency.
Record t := mk {
  category_name : string;
  total_tasks : Z;
  completed_tasks : Z;
  completion_rate : Q
}.
End CategoryEfficiency.

Module ProductivityStats.
Record t := mk {
  overview_total_tasks : Z;
  overview_completed_tasks : Z;
  overview_completion_rate : Q;
  overview_overdue_tasks : Z;
  priority_distribution_low : Z;
  priority_distribution_medium : Z;
  priority_distribution_high : Z;
  priority_distribution_urgent : Z;
  priority_completion_rates : list (string * Q);
  avg_completion_time_hours : Q;
  recent_productivity : list ProductivityDay.t;
  category_efficiency : list CategoryEfficiency.t;
  today_total_tasks : Z;
  today_completed_tasks : Z;
  today_completion_rate : Q
}.
End ProductivityStats.

Module DailyTrend.
Record t := mk {
  Day : Z;
  Created : Z;
  Completed : Z
}.
End DailyTrend.

Module ProjectProgress.
Record t := mk {
  project_name : string;
  total_tasks : Z;
  completed : Z;
  progress : Q
}.
End ProjectProgress.

Module MonthlyReport.
Record t := mk {
  month : string;
  summary_tasks_created : Z;
  summary_tasks_completed : Z;
  summary_tasks_in_progress : Z;
  summary_completion_rate : Q;
  daily_trends : list DailyTrend.t;
  project_progress : list ProjectProgress.t
}.
End MonthlyReport.

Inductive Payload :=
| OverviewData (o : StatsOverview.t)
| DailyData (l : list DailyStats.t)
| WeeklyData (l : list WeeklyStats.t)
| ProductivityData (p : ProductivityStats.t)
| MonthlyData (r : MonthlyReport.t).

(** [models.Response], the envelope [c.JSON] writes; the HTTP status of
    the reply is its [Code]. [Error] holds the error whose text the
    envelope carries. *)
Module Response.
Record t := mk {
  Code : Z;
  Message : string;
  Data : option Payload;
  Error : option ParseError;
  Timestamp : Time
}.
End Response.

End Models.

(* ================================================================== *)
(** * The store: MySQL conditions and aggregates *)
(* ================================================================== *)

Module SQL.
Import GoTime.

(** The value of a condition: [None] is SQL's UNKNOWN, what a comparison
    with NULL gives. A row is selected when its condition is TRUE. *)
Definition tv := option bool.

Definition holds (v : tv) : bool :=
  match v with
  | Some true => true
  | _ => false
  end.

Definition and (a b : tv) : tv :=
  match a, b with
  | Some false, _ => Some false
  | _, Some false => Some false
  | Some true, Some true => Some true
  | _, _ => None
  end.

Class Eqb (A : Type) := eqb : A -> A -> bool.
#[global] Instance Eqb_Z : Eqb Z := Z.eqb.
#[global] Instance Eqb_string : Eqb string := String.eqb.

(** A column against a parameter of the statement, which is never NULL. *)
Definition eq {A} `{Eqb A} (col : option A) (v : A) : tv :=
  option_map (fun x => eqb x v) col.
Definition ne {A} `{Eqb A} (col : option A) (v : A) : tv :=
  option_map (fun x => negb (eqb x v)) col.
Definition lt (col : option Time) (v : Time) : tv :=
  option_map (fun x => x <? v) col.
Definition le (col : option Time) (v : Time) : tv :=
  option_map (fun x => x <=? v) col.
Definition ge (col : option Time) (v : Time) : tv :=
  option_map (fun x => v <=? x) col.

Definition is_null {A} (col : option A) : tv :=
  match col with
  | None => Some true
  | Some _ => Some false
  end.
Definition is_not_null {A} (col : option A) : tv :=
  match col with
  | None => Some false
  | Some _ => Some true
  end.

(** [DATE(col)], compared with a ['YYYY-MM-DD'] parameter. *)
Definition DATE (col : option Time) : option string := option_map FormatDate col.

(** [TIMESTAMPDIFF(HOUR, a, b)]: the whole hours from [a] to [b], the
    fraction dropped. *)
Definition TIMESTAMPDIFF_HOUR (a b : option Time) : option Z :=
  match a, b with
  | Some x, Some y => Some (Z.quot (y - x) Hour)
  | _, _ => None
  end.

Fixpoint non_null {A} (l : list (option A)) : list A :=
  match l with
  | [] => []
  | Some x :: l' => x :: non_null l'
  | None :: l' => non_null l'
  end.

Definition sum (l : list Z) : Z := fold_right Z.add 0 l.

(** [AVG(expr)] over the selected rows: NULL when no row has a value. *)
Definition AVG (l : list (option Z)) : option Q :=
  match non_null l with
  | [] => None
  | vs => Some (inject_Z (sum vs) / inject_Z (Z.of_nat (List.length vs)))%Q
  end.

(** [COUNT( * )] over the selected rows. *)
Definition COUNT {R} (rows : list R) : Z := Z.of_nat (List.length rows).

End SQL.

Declare Scope sql_scope.
Delimit Scope sql_scope with sql.
Notation "a 'AND' b" := (SQL.and a b) (at level 72, left associativity) : sql_scope.
Notation "c == v" := (SQL.eq c v) (at level 70, no associativity) : sql_scope.
Notation "c != v" := (SQL.ne c v) (at level 70, no associativity) : sql_scope.
Notation "c < v" := (SQL.lt c v) : sql_scope.
Notation "c <= v" := (SQL.le c v) : sql_scope.
Notation "c >= v" := (SQL.ge c v) : sql_scope.

(* ================================================================== *)
(** * Requests: the store, the clock and the gin context *)
(* ================================================================== *)

Module Gin.
Import GoTime Models.

Record Store := {
  tasks : list Task.t;
  projects : list Project.t;
  categories : list Category.t
}.

(** What a handler runs against: the store, and the wall clock as the
    sequence of its readings, [ticks] of them already taken. *)
Record World := {
  store : Store;
  clock : nat -> Time;
  ticks : nat
}.

Definition M (A : Type) : Type := World -> A * World.

Definition ret {A} (a : A) : M A := fun w => (a, w).
Definition bind {A B} (m : M A) (k : A -> M B) : M B :=
  fun w => let '(a, w') := m w in k a w'.

(** [time.Now()]: the next reading of the clock. *)
Definition Now : M Time :=
  fun w => (clock w (ticks w),
            {| store := store w; clock := clock w; ticks := S (ticks w) |}).

(** The only write the task controller makes to a row's fields, kept to
    show what a handler that is not read-only looks like here:
    [tc.DB.Save(&task)]. *)
Definition SaveTask (t : Task.t) : M unit :=
  fun w =>
    let st := store w in
    let rows :=
      map (fun r => if Task.ID r =? Task.ID t then t else r) (tasks st) in
    (tt, {| store := {| tasks := rows; projects := projects st;
                        categories := categories st |};
            clock := clock w; ticks := ticks w |}).

(** The request: the [user_id] key the auth middleware set, and the URL
    query. *)
Record Context := {
  user_id : option Z;
  query : list (string * string)
}.

Fixpoint GetQuery (q : list (string * string)) (key : string) : option string :=
  match q with
  | [] => None
  | (k, v) :: q' => if String.eqb k key then Some v else GetQuery q' key
  end.

Definition DefaultQuery (c : Context) (key defaultValue : string) : string :=
  match GetQuery (query c) key with
  | Some value => value
  | None => defaultValue
  end.

(** A [for] loop over the values of [l] in order, its body updating the
    variables [s] the loop assigns. *)
Fixpoint forRange {I S} (l : list I) (body : I -> S -> M S) (s : S) : M S :=
  match l with
  | [] => ret s
  | i :: l' => bind (body i s) (forRange l' body)
  end.

(** The values of [i] in [for i := from; i >= 0; i--]. *)
Definition downTo0 (from : Z) : list Z :=
  map Z.of_nat (rev (seq 0 (Z.to_nat (from + 1)))).

(** The values of [i] in [for i := lo; i <= hi; i++]. *)
Definition upTo (lo hi : Z) : list Z :=
  map (fun k => lo + Z.of_nat k) (seq 0 (Z.to_nat (hi - lo + 1))).

(** ** Reasoning about a run *)

(** [Q] holds of the result and the final world of [m] run from [w]. *)
Definition post {A} (m : M A) (w : World) (Q : A -> World -> Prop) : Prop :=
  Q (fst (m w)) (snd (m w)).

(** Two worlds a handler cannot tell apart: the same store, and the same
    clock readings from now on. *)
Definition sameView (w1 w2 : World) : Prop :=
  store w1 = store w2 /\
  forall k, clock w1 (ticks w1 + k)%nat = clock w2 (ticks w2 + k)%nat.

(** [m] reads the store and the clock and writes nothing: its result
    depends on the view only, and the store is left as it was. *)
Definition ReadOnly {A} (m : M A) : Prop :=
  (forall w, store (snd (m w)) = store w) /\
  (forall w1 w2, sameView w1 w2 ->
     fst (m w1) = fst (m w2) /\ sameView (snd (m w1)) (snd (m w2))).

End Gin.

Notation "x <- m ;; k" := (Gin.bind m (fun x => k))
  (at level 61, m at next level, right associativity).

(* ================================================================== *)
(** * gorm: the statements the reports issue *)
(* ================================================================== *)

Module Gorm.
Import GoTime Models Gin.

(** The columns of [tasks], [projects] and [categories] as a condition
    reads them: a Go value field is never NULL, a pointer field may be. *)
Module tasks.
Definition user_id (r : Task.t) : option Z := Some (Task.UserID r).
Definition status (r : Task.t) : option string := Some (Task.Status r).
Definition priority (r : Task.t) : option string := Some (Task.Priority r).
Definition due_date (r : Task.t) : option Time := Task.DueDate r.
Definition completed_at (r : Task.t) : option Time := Task.CompletedAt r.
Definition category_id (r : Task.t) : option Z := Task.CategoryID r.
Definition project_id (r : Task.t) : option Z := Task.ProjectID r.
Definition created_at (r : Task.t) : option Time := Some (Task.CreatedAt r).
Definition deleted_at (r : Task.t) : option Time := Task.DeletedAt r.
End tasks.

Module projects.
Definition user_id (r : Project.t) : option Z := Some (Project.UserID r).
Definition status (r : Project.t) : option string := Some (Project.Status r).
Definition deleted_at (r : Project.t) : option Time := Project.DeletedAt r.
End projects.

Module categories.
Definition user_id (r : Category.t) : option Z := Some (Category.UserID r).
Definition deleted_at (r : Category.t) : option Time := Category.DeletedAt r.
End categories.

(** A statement built from a model with a [gorm.DeletedAt] field selects
    live rows only: gorm adds [deleted_at IS NULL] to its condition. *)
Definition scoped {R} (deleted_at : R -> option Time) (cond : R -> SQL.tv)
    (r : R) : bool :=
  SQL.holds (cond r AND SQL.is_null (deleted_at r))%sql.

(** [DB.Model(&models.Task{}).Where(cond, args...).Count(&n)]. *)
Definition CountTasks (cond : Task.t -> SQL.tv) : M Z :=
  fun w => (SQL.COUNT (filter (scoped tasks.deleted_at cond) (tasks (store w))), w).

Definition CountProjects (cond : Project.t -> SQL.tv) : M Z :=
  fun w => (SQL.COUNT (filter (scoped projects.deleted_at cond) (projects (store w))), w).

Definition CountCategories (cond : Category.t -> SQL.tv) : M Z :=
  fun w => (SQL.COUNT (filter (scoped categories.deleted_at cond) (categories (store w))), w).

(** [DB.Where(cond, args...).Find(&rows)], in the order of the table. *)
Definition FindProjects (cond : Project.t -> SQL.tv) : M (list Project.t) :=
  fun w => (filter (scoped projects.deleted_at cond) (projects (store w)), w).

Definition FindCategories (cond : Category.t -> SQL.tv) : M (list Category.t) :=
  fun w => (filter (scoped categories.deleted_at cond) (categories (store w)), w).

(** [DB.Raw(sql, args...)] of a [SELECT ... FROM tasks WHERE cond]: the
    statement is sent as written, so no condition is added to it. *)
Definition RawSelectTasks (cond : Task.t -> SQL.tv) : M (list Task.t) :=
  fun w => (filter (fun r => SQL.holds (cond r)) (tasks (store w)), w).

(** [Scan(&dst)] of a one-column row into a [float64] field: a NULL
    leaves the field as it was. *)
Definition Scan (dst : Q) (v : option Q) : Q :=
  match v with
  | Some x => x
  | None => dst
  end.

End Gorm.

(* ================================================================== *)
(** * [utils/utils.go] *)
(* ================================================================== *)

Module Utils.
Import GoTime Models Gin.

Definition StatusOK := 200.
Definition StatusBadRequest := 400.

Definition SuccessResponse (data : Payload) : M Response.t :=
  now <- Now ;;
  ret (Response.mk StatusOK "success" (Some data) None now).

Definition ErrorResponse (code : Z) (message : string) (err : option ParseError)
    : M Response.t :=
  now <- Now ;;
  ret (Response.mk code message None err now).

Definition GetUserID (c : Context) : Z :=
  match user_id c with
  | None => 0
  | Some userID => userID
  end.

Definition Contains (slice : list string) (item : string) : bool :=
  existsb (fun s => String.eqb s item) slice.

Definition IsValidTaskStatus (status : string) : bool :=
  Contains ["pending"; "in_progress"; "completed"]%string status.

Definition IsValidTaskPriority (priority : string) : bool :=
  Contains ["low"; "medium"; "high"; "urgent"]%string priority.

(** Called on a string here, which it returns. *)
Definition SafeStringConvert (value : string) : string := value.

Definition SafeIntConvert (value : string) : option Z :=
  if String.eqb value "" then Some 0 else Strconv.Atoi value.

End Utils.

(* ================================================================== *)
(** * [controllers/stats_controller.go] *)
(* ================================================================== *)

Module StatsController.
Import GoTime Models Gin Gorm Utils.

Definition float64 (n : Z) : Q := inject_Z n.

(** The rate every report derives from two counts:
    [if total > 0 { rate = float64(completed) / float64(total) * 100 }]
    over an initial [0.0]. *)
Definition completionRate (completed total : Z) : Q :=
  if 0 <? total then (float64 completed / float64 total * 100)%Q else 0%Q.

(** The daily efficiency of [GetProductivityStats]. *)
Definition efficiencyOf (created completed : Z) : Q :=
  if 0 <? created then (float64 completed / float64 created * 100)%Q
  else if 0 <? completed then 100%Q
  else 0%Q.

Definition GetOverview (c : Context) : M Response.t :=
  let userID := GetUserID c in
  TotalTasks <- CountTasks (fun r => tasks.user_id r == userID)%sql ;;
  PendingTasks <- CountTasks
    (fun r => tasks.user_id r == userID AND tasks.status r == "pending"%string)%sql ;;
  InProgressTasks <- CountTasks
    (fun r => tasks.user_id r == userID AND tasks.status r == "in_progress"%string)%sql ;;
  CompletedTasks <- CountTasks
    (fun r => tasks.user_id r == userID AND tasks.status r == "completed"%string)%sql ;;
  TotalProjects <- CountProjects (fun r => projects.user_id r == userID)%sql ;;
  ActiveProjects <- CountProjects
    (fun r => projects.user_id r == userID AND projects.status r == "active"%string)%sql ;;
  TotalCategories <- CountCategories (fun r => categories.user_id r == userID)%sql ;;
  SuccessResponse
    (OverviewData
       (StatsOverview.mk TotalTasks PendingTasks InProgressTasks CompletedTasks
          TotalProjects ActiveProjects TotalCategories)).

(** The [days] parameter: 7 unless the query gives an integer in 1..30. *)
Definition daysParam (c : Context) : Z :=
  let daysStr := DefaultQuery c "days" "7" in
  let days := 7 in
  let d := SafeStringConvert daysStr in
  if negb (String.eqb d "") then
    match SafeIntConvert d with
    | Some parsed => if (0 <? parsed) && (parsed <=? 30) then parsed else days
    | None => days
    end
  else days.

Definition GetDailyStats (c : Context) : M Response.t :=
  let userID := GetUserID c in
  let days := daysParam c in
  dailyStats <- forRange (downTo0 (days - 1))
    (fun i dailyStats =>
       now <- Now ;;
       let date := AddDate now 0 0 (- i) in
       let dateStr := FormatDate date in
       tasksCreated <- CountTasks
         (fun r => tasks.user_id r == userID
                   AND SQL.DATE (tasks.created_at r) == dateStr)%sql ;;
       tasksCompleted <- CountTasks
         (fun r => tasks.user_id r == userID
                   AND SQL.DATE (tasks.completed_at r) == dateStr)%sql ;;
       ret (dailyStats ++ [DailyStats.mk dateStr tasksCreated tasksCompleted]))
    [] ;;
  SuccessResponse (DailyData dailyStats).

(** The [weeks] parameter: 4 unless the query gives an integer in 1..12. *)
Definition weeksParam (c : Context) : Z :=
  let weeksStr := DefaultQuery c "weeks" "4" in
  let weeks := 4 in
  let w := SafeStringConvert weeksStr in
  if negb (String.eqb w "") then
    match SafeIntConvert w with
    | Some parsed => if (0 <? parsed) && (parsed <=? 12) then parsed else weeks
    | None => weeks
    end
  else weeks.

(** [weekStart] and [weekEnd] of the weekly loop, for its [i] and the
    clock reading [now] of that iteration. *)
Definition weekStartOf (now : Time) (i : Z) : Time :=
  AddDate now 0 0 (- Weekday now + 1 - i * 7).

Definition weekEndOf (weekStart : Time) : Time := AddDate weekStart 0 0 6.

(** The separator of the week label: a space, U+81F3 in UTF-8, a space. *)
Definition weekSep : string := " 至 ".

Definition GetWeeklyStats (c : Context) : M Response.t :=
  let userID := GetUserID c in
  let weeks := weeksParam c in
  weeklyStats <- forRange (downTo0 (weeks - 1))
    (fun i weeklyStats =>
       now <- Now ;;
       let weekStart := weekStartOf now i in
       let weekEnd := weekEndOf weekStart in
       let weekStr := (FormatDate weekStart ++ weekSep ++ FormatDate weekEnd)%string in
       tasksCreated <- CountTasks
         (fun r => tasks.user_id r == userID
                   AND tasks.created_at r >= weekStart
                   AND tasks.created_at r <= Add weekEnd (24 * Hour))%sql ;;
       tasksCompleted <- CountTasks
         (fun r => tasks.user_id r == userID
                   AND tasks.completed_at r >= weekStart
                   AND tasks.completed_at r <= Add weekEnd (24 * Hour))%sql ;;
       ret (weeklyStats ++ [WeeklyStats.mk weekStr tasksCreated tasksCompleted]))
    [] ;;
  SuccessResponse (WeeklyData weeklyStats).

(** [priorityCompletionRates[priority] = rate] on the map as a list of
    its entries. *)
Fixpoint mapSet (m : list (string * Q)) (k : string) (v : Q) : list (string * Q) :=
  match m with
  | [] => [(k, v)]
  | (k', v') :: m' => if String.eqb k' k then (k, v) :: m' else (k', v') :: mapSet m' k v
  end.

Definition GetProductivityStats (c : Context) : M Response.t :=
  let userID := GetUserID c in
  totalTasks <- CountTasks (fun r => tasks.user_id r == userID)%sql ;;
  completedTasks <- CountTasks
    (fun r => tasks.user_id r == userID AND tasks.status r == "completed"%string)%sql ;;
  let completionRate_ := completionRate completedTasks totalTasks in
  lowPriority <- CountTasks
    (fun r => tasks.user_id r == userID AND tasks.priority r == "low"%string)%sql ;;
  mediumPriority <- CountTasks
    (fun r => tasks.user_id r == userID AND tasks.priority r == "medium"%string)%sql ;;
  highPriority <- CountTasks
    (fun r => tasks.user_id r == userID AND tasks.priority r == "high"%string)%sql ;;
  urgentPriority <- CountTasks
    (fun r => tasks.user_id r == userID AND tasks.priority r == "urgent"%string)%sql ;;
  let priorities := ["low"; "medium"; "high"; "urgent"]%string in
  priorityCompletionRates <- forRange priorities
    (fun priority priorityCompletionRates =>
       total <- CountTasks
         (fun r => tasks.user_id r == userID AND tasks.priority r == priority)%sql ;;
       completed <- CountTasks
         (fun r => tasks.user_id r == userID AND tasks.priority r == priority
                   AND tasks.status r == "completed"%string)%sql ;;
       let rate := completionRate completed total in
       ret (mapSet priorityCompletionRates priority rate))
    [] ;;
  completedRows <- RawSelectTasks
    (fun r => tasks.user_id r == userID AND tasks.status r == "completed"%string
              AND SQL.is_not_null (tasks.completed_at r))%sql ;;
  let hours := SQL.AVG
    (map (fun r => SQL.TIMESTAMPDIFF_HOUR (tasks.created_at r) (tasks.completed_at r))
         completedRows) in
  let avgCompletionTime := Scan 0%Q hours in
  recentProductivity <- forRange (downTo0 6)
    (fun i recentProductivity =>
       now <- Now ;;
       let date := AddDate now 0 0 (- i) in
       let dateStr := FormatDate date in
       created <- CountTasks
         (fun r => tasks.user_id r == userID
                   AND SQL.DATE (tasks.created_at r) == dateStr)%sql ;;
       completed <- CountTasks
         (fun r => tasks.user_id r == userID
                   AND SQL.DATE (tasks.completed_at r) == dateStr)%sql ;;
       let efficiency := efficiencyOf created completed in
       ret (recentProductivity ++ [ProductivityDay.mk dateStr created completed efficiency]))
    [] ;;
  categories_ <- FindCategories (fun r => categories.user_id r == userID)%sql ;;
  categoryStats <- forRange categories_
    (fun category categoryStats =>
       total <- CountTasks
         (fun r => tasks.user_id r == userID
                   AND tasks.category_id r == Category.ID category)%sql ;;
       completed <- CountTasks
         (fun r => tasks.user_id r == userID
                   AND tasks.category_id r == Category.ID category
                   AND tasks.status r == "completed"%string)%sql ;;
       let rate := completionRate completed total in
       ret (categoryStats ++ [CategoryEfficiency.mk (Category.Name category) total completed rate]))
    [] ;;
  now <- Now ;;
  overdueTasks <- CountTasks
    (fun r => tasks.user_id r == userID AND tasks.status r != "completed"%string
              AND tasks.due_date r < now)%sql ;;
  let today := FormatDate now in
  todayTasks <- CountTasks
    (fun r => tasks.user_id r == userID AND SQL.DATE (tasks.due_date r) == today)%sql ;;
  todayCompleted <- CountTasks
    (fun r => tasks.user_id r == userID AND SQL.DATE (tasks.due_date r) == today
              AND tasks.status r == "completed"%string)%sql ;;
  SuccessResponse
    (ProductivityData
       (ProductivityStats.mk totalTasks completedTasks completionRate_ overdueTasks
          lowPriority mediumPriority highPriority urgentPriority
          priorityCompletionRates avgCompletionTime recentProductivity categoryStats
          todayTasks todayCompleted (completionRate todayCompleted todayTasks))).

(** The message of the reply to a malformed [month]. *)
Definition monthFormatMessage : string := "月份格式错误，应为 YYYY-MM".

Definition GetMonthlyReport (c : Context) : M Response.t :=
  let userID := GetUserID c in
  now <- Now ;;
  let monthStr := DefaultQuery c "month" (FormatMonth now) in
  match ParseMonth monthStr with
  | inr err => ErrorResponse StatusBadRequest monthFormatMessage (Some err)
  | inl month =>
      let monthStart := Date (Year month) (Month month) 1 0 0 0 0 in
      let monthEnd := Add (AddDate monthStart 0 1 0) (- Second) in
      tasksCreated <- CountTasks
        (fun r => tasks.user_id r == userID
                  AND tasks.created_at r >= monthStart
                  AND tasks.created_at r <= monthEnd)%sql ;;
      tasksCompleted <- CountTasks
        (fun r => tasks.user_id r == userID
                  AND tasks.completed_at r >= monthStart
                  AND tasks.completed_at r <= monthEnd)%sql ;;
      tasksInProgress <- CountTasks
        (fun r => tasks.user_id r == userID AND tasks.status r == "in_progress"%string
                  AND tasks.created_at r >= monthStart
                  AND tasks.created_at r <= monthEnd)%sql ;;
      let daysInMonth := Day monthEnd in
      dailyTrends <- forRange (upTo 1 daysInMonth)
        (fun day dailyTrends =>
           let dayStart := Date (Year month) (Month month) day 0 0 0 0 in
           let dayEnd := Add dayStart (24 * Hour - Second) in
           created <- CountTasks
             (fun r => tasks.user_id r == userID
                       AND tasks.created_at r >= dayStart
                       AND tasks.created_at r <= dayEnd)%sql ;;
           completed <- CountTasks
             (fun r => tasks.user_id r == userID
                       AND tasks.completed_at r >= dayStart
                       AND tasks.completed_at r <= dayEnd)%sql ;;
           ret (dailyTrends ++ [DailyTrend.mk day created completed]))
        [] ;;
      projects_ <- FindProjects (fun r => projects.user_id r == userID)%sql ;;
      projectProgress <- forRange projects_
        (fun project projectProgress =>
           total <- CountTasks
             (fun r => tasks.project_id r == Project.ID project
                       AND tasks.user_id r == userID)%sql ;;
           completed <- CountTasks
             (fun r => tasks.project_id r == Project.ID project
                       AND tasks.user_id r == userID
                       AND tasks.status r == "completed"%string)%sql ;;
           let progress := completionRate completed total in
           ret (projectProgress ++ [ProjectProgress.mk (Project.Name project) total completed progress]))
        [] ;;
      SuccessResponse
        (MonthlyData
           (MonthlyReport.mk monthStr tasksCreated tasksCompleted tasksInProgress
              (completionRate tasksCompleted tasksCreated)
              dailyTrends projectProgress))
  end.

End StatsController.

(* ================================================================== *)
(** * Vocabulary of the statements *)
(* ================================================================== *)

Module Spec.
Import GoTime Models Gin Gorm Utils StatsController.

(** A soft-deleted row is no task of its owner any more. *)
Definition liveTask (t : Task.t) : bool :=
  match Task.DeletedAt t with None => true | Some _ => false end.

(** What stays of the world while a handler runs: the store and the clock;
    [n] readings were taken since [w]. *)
Definition after (w : World) (n : nat) (w' : World) : Prop :=
  store w' = store w /\ clock w' = clock w /\ ticks w' = (ticks w + n)%nat.

(** A rate is [sound] when it is the completion rate of a part of a whole. *)
Definition soundRate (rate : Q) (completed total : Z) : Prop :=
  rate = completionRate completed total /\ 0 <= completed <= total.

(** What [GetProductivityStats] puts in its report, field by field. *)
Definition productivityOf (c : Context) (w : World) (p : ProductivityStats.t) : Prop :=
  let uid := GetUserID c in
  let rows := tasks (store w) in
  soundRate (ProductivityStats.overview_completion_rate p)
    (ProductivityStats.overview_completed_tasks p)
    (ProductivityStats.overview_total_tasks p)
  /\ Forall (fun kv => exists completed total, soundRate (snd kv) completed total)
       (ProductivityStats.priority_completion_rates p)
  /\ ProductivityStats.avg_completion_time_hours p =
     Scan 0%Q (SQL.AVG
       (map (fun r => SQL.TIMESTAMPDIFF_HOUR (tasks.created_at r) (tasks.completed_at r))
          (filter (fun r => SQL.holds
             (tasks.user_id r == uid AND tasks.status r == "completed"%string
              AND SQL.is_not_null (tasks.completed_at r))%sql) rows)))
  /\ List.length (ProductivityStats.recent_productivity p) = 7%nat
  /\ Forall (fun e =>
        ProductivityDay.efficiency e =
          efficiencyOf (ProductivityDay.created e) (ProductivityDay.completed e)
        /\ 0 <= ProductivityDay.created e /\ 0 <= ProductivityDay.completed e)
       (ProductivityStats.recent_productivity p)
  /\ Forall (fun e =>
        soundRate (CategoryEfficiency.completion_rate e)
          (CategoryEfficiency.completed_tasks e) (CategoryEfficiency.total_tasks e))
       (ProductivityStats.category_efficiency p)
  /\ ProductivityStats.overview_overdue_tasks p =
     SQL.COUNT (filter (scoped tasks.deleted_at
       (fun r => tasks.user_id r == uid AND tasks.status r != "completed"%string
                 AND tasks.due_date r < clock w (ticks w + 7)%nat)%sql) rows)
  /\ soundRate (ProductivityStats.today_completion_rate p)
       (ProductivityStats.today_completed_tasks p)
       (ProductivityStats.today_total_tasks p).

(** The label of a calendar day, given as its count of days from the
    epoch: the format of its first instant. *)
Definition isoDate (absday : Z) : string :=
  FormatDate ((absday - unixEpochDays) * nsPerDay).

(** The daily report for [n] days ending on the day [today]: [n] entries,
    the [k]-th labelled with the day [n - 1 - k] days before [today], and
    no label twice. *)
Definition dailyLabels (today n : Z) (l : list DailyStats.t) : Prop :=
  List.length l = Z.to_nat n
  /\ (forall k, (k < Z.to_nat n)%nat ->
        nth_error (map DailyStats.Date l) k
        = Some (isoDate (today - (n - 1 - Z.of_nat k))))
  /\ NoDup (map DailyStats.Date l).

(** The entries of a loop that reads the clock once per iteration: the
    entry of the [k]-th value comes from the [k]-th reading on. *)
Fixpoint withClock {I X} (f : Time -> I -> X) (clk : nat -> Time) (k : nat)
    (l : list I) : list X :=
  match l with
  | [] => []
  | i :: l' => f (clk k) i :: withClock f clk (S k) l'
  end.

(** The live tasks of [owner] whose [col] falls on the day [dateStr]. *)
Definition countOn (rows : list Task.t) (owner : Z)
    (col : Task.t -> option Time) (dateStr : string) : Z :=
  SQL.COUNT (filter (scoped tasks.deleted_at
    (fun r => tasks.user_id r == owner AND SQL.DATE (col r) == dateStr)%sql) rows).

(** The entry of the daily report for the loop index [i] at the reading
    [now]. *)
Definition dailyStatsOf (rows : list Task.t) (owner : Z) (now : Time) (i : Z)
    : DailyStats.t :=
  let dateStr := FormatDate (AddDate now 0 0 (- i)) in
  DailyStats.mk dateStr
    (countOn rows owner tasks.created_at dateStr)
    (countOn rows owner tasks.completed_at dateStr).

(** The entry of the weekly report for the loop index [i] at the reading
    [now]: the label of the window, and the counts over the range the
    statements use. *)
Definition weeklyStatsOf (rows : list Task.t) (owner : Z) (now : Time) (i : Z)
    : WeeklyStats.t :=
  let weekStart := weekStartOf now i in
  let weekEnd := weekEndOf weekStart in
  WeeklyStats.mk (FormatDate weekStart ++ weekSep ++ FormatDate weekEnd)%string
    (SQL.COUNT (filter (scoped tasks.deleted_at
       (fun r => tasks.user_id r == owner
                 AND tasks.created_at r >= weekStart
                 AND tasks.created_at r <= Add weekEnd (24 * Hour))%sql) rows))
    (SQL.COUNT (filter (scoped tasks.deleted_at
       (fun r => tasks.user_id r == owner
                 AND tasks.completed_at r >= weekStart
                 AND tasks.completed_at r <= Add weekEnd (24 * Hour))%sql) rows)).

(** The window of the [k]-th entry of the weekly report for [n] weeks:
    its start and its end, from the [k]-th reading of the clock. *)
Definition weekWindow (w : World) (n : Z) (k : nat) : Time * Time :=
  let now := clock w (ticks w + k)%nat in
  let weekStart := weekStartOf now (n - 1 - Z.of_nat k) in
  (weekStart, weekEndOf weekStart).

(** A clock that never runs backwards. *)
Definition monotone (clk : nat -> Time) : Prop :=
  forall a b, (a <= b)%nat -> clk a <= clk b.

(** The window of a month: its first instant and the end the handler
    computes, and the entry of one day of the trend. *)
Definition monthStartOf (month : Time) : Time :=
  Date (Year month) (Month month) 1 0 0 0 0.

Definition monthEndOf (month : Time) : Time :=
  Add (AddDate (monthStartOf month) 0 1 0) (- Second).

Definition dayStartOf (month : Time) (day : Z) : Time :=
  Date (Year month) (Month month) day 0 0 0 0.

Definition dayEndOf (month : Time) (day : Z) : Time :=
  Add (dayStartOf month day) (24 * Hour - Second).

(** The live tasks of [owner] whose [col] lies in the closed range. *)
Definition countBetween (rows : list Task.t) (owner : Z)
    (col : Task.t -> option Time) (from to : Time) : Z :=
  SQL.COUNT (filter (scoped tasks.deleted_at
    (fun r => tasks.user_id r == owner AND col r >= from AND col r <= to)%sql) rows).

Definition dailyTrendOf (rows : list Task.t) (owner : Z) (month : Time) (day : Z)
    : DailyTrend.t :=
  DailyTrend.mk day
    (countBetween rows owner tasks.created_at (dayStartOf month day) (dayEndOf month day))
    (countBetween rows owner tasks.completed_at (dayStartOf month day) (dayEndOf month day)).

(** What [GetMonthlyReport] puts in its report for the month [month]. *)
Definition monthlyOf (c : Context) (w : World) (monthStr : string) (month : Time)
    (r : MonthlyReport.t) : Prop :=
  let uid := GetUserID c in
  let rows := tasks (store w) in
  MonthlyReport.month r = monthStr
  /\ MonthlyReport.summary_tasks_created r
     = countBetween rows uid tasks.created_at (monthStartOf month) (monthEndOf month)
  /\ MonthlyReport.summary_tasks_completed r
     = countBetween rows uid tasks.completed_at (monthStartOf month) (monthEndOf month)
  /\ MonthlyReport.summary_completion_rate r
     = completionRate (MonthlyReport.summary_tasks_completed r)
         (MonthlyReport.summary_tasks_created r)
  /\ MonthlyReport.daily_trends r
     = map (dailyTrendOf rows uid month) (upTo 1 (Day (monthEndOf month)))
  /\ Forall (fun e =>
        soundRate (ProjectProgress.progress e)
          (ProjectProgress.completed e) (ProjectProgress.total_tasks e))
       (MonthlyReport.project_progress r).

(** A rate as the specification wants it: a percentage. *)
Definition percentage (rate : Q) : Prop := (0 <= rate <= 100)%Q.

(** Overdue, in the words of the specification: a task of the owner that
    is not completed and whose due date is present and before [now]. *)
Definition overdue (owner : Z) (now : Time) (t : Task.t) : bool :=
  (Task.UserID t =? owner) && liveTask t
  && negb (String.eqb (Task.Status t) "completed")
  && match Task.DueDate t with
     | Some due => due <? now
     | None => false
     end.

(** The completed tasks of an owner with both timestamps, as rows. *)
Definition completedBy (owner : Z) (t : Task.t) : bool :=
  (Task.UserID t =? owner) && String.eqb (Task.Status t) "completed"
  && match Task.CompletedAt t with
     | Some _ => true
     | None => false
     end.

(** [completed_at - created_at] in hours, exactly. *)
Definition hoursTaken (t : Task.t) : Q :=
  match Task.CompletedAt t with
  | Some done => inject_Z (done - Task.CreatedAt t) / inject_Z Hour
  | None => 0
  end%Q.

(** The same in whole hours, the fraction dropped. *)
Definition wholeHoursTaken (t : Task.t) : Z :=
  match Task.CompletedAt t with
  | Some done => Z.quot (done - Task.CreatedAt t) Hour
  | None => 0
  end.

(** The mean of whole numbers, 0 for the empty sample. *)
Definition meanZ (l : list Z) : Q :=
  match l with
  | [] => 0%Q
  | _ => (inject_Z (SQL.sum l) / inject_Z (Z.of_nat (List.length l)))%Q
  end.

Definition Qsum (l : list Q) : Q := fold_right Qplus 0%Q l.

(** The mean of a sample, 0 for the empty one. *)
Definition mean (l : list Q) : Q :=
  match l with
  | [] => 0%Q
  | _ => (Qsum l / inject_Z (Z.of_nat (List.length l)))%Q
  end.

(** The average completion time in the words of the specification: the
    mean of the hours taken by the owner's completed tasks. *)
Definition meanCompletionHours (owner : Z) (rows : list Task.t) : Q :=
  mean (map hoursTaken (filter (fun t => completedBy owner t && liveTask t) rows)).

End Spec.

(* ================================================================== *)
(** * Sample stores and requests *)
(* ================================================================== *)

Module Examples.
Import GoTime Models Gin Gorm Utils StatsController.

Definition at_ (year month day hour min sec : Z) : Time :=
  Date year month day hour min sec 0.

(** A live task of user 1, in no category and no project. *)
Definition task (id : Z) (status : string) (due completed : option Time)
    (created : Time) : Task.t :=
  Task.mk id "task" status "medium" due completed 1 None None created None.

(** The request of user 1 with the given query. *)
Definition request (q : list (string * string)) : Context :=
  {| user_id := Some 1; query := q |}.

(** The store holding [rows] only, and a clock that reads [now]. *)
Definition worldAt (rows : list Task.t) (now : Time) : World :=
  {| store := {| tasks := rows; projects := []; categories := [] |};
     clock := fun _ => now;
     ticks := 0 |}.

(** Sunday 2024-03-03 at 10:00: one task created and completed that
    morning, one older task completed that morning, one older task
    completed the day before. *)
Definition busyRows : list Task.t :=
  [ task 1 "completed" None (Some (at_ 2024 3 3 9 30 0)) (at_ 2024 3 3 8 0 0);
    task 2 "completed" None (Some (at_ 2024 3 3 9 0 0)) (at_ 2024 2 20 8 0 0);
    task 3 "completed" None (Some (at_ 2024 3 2 9 0 0)) (at_ 2024 2 20 8 0 0) ].

Definition busyWorld : World := worldAt busyRows (at_ 2024 3 3 10 0 0).

(** The same world later in a run: five readings of the clock taken. *)
Definition busyWorldLater : World :=
  {| store := store busyWorld; clock := clock busyWorld; ticks := 5 |}.

(** One task, completed ninety minutes after its creation. *)
Definition ninetyMinutes : list Task.t :=
  [ task 1 "completed" None (Some (at_ 2024 3 3 9 30 0)) (at_ 2024 3 3 8 0 0) ].

(** A live task completed after one hour, and a soft-deleted one
    completed after three. *)
Definition deletedRows : list Task.t :=
  [ task 1 "completed" None (Some (at_ 2024 3 3 9 0 0)) (at_ 2024 3 3 8 0 0);
    Task.mk 2 "task" "completed" "medium" None (Some (at_ 2024 3 2 11 0 0)) 1 None None
      (at_ 2024 3 2 8 0 0) (Some (at_ 2024 3 2 12 0 0)) ].

(** Wednesday 2024-03-06 at 10:00, and one task created on the Monday of
    that week at 10:00 sharp. *)
Definition boundaryWorld : World :=
  worldAt [ task 1 "pending" None None (at_ 2024 3 4 10 0 0) ] (at_ 2024 3 6 10 0 0).

(** A clock that passes midnight after its first reading: 2024-03-03 at
    23:59:59.9, then 2024-03-04 at 00:00:00.1. *)
Definition midnightWorld : World :=
  {| store := {| tasks := []; projects := []; categories := [] |};
     clock := fun k =>
       match k with
       | O => at_ 2024 3 3 23 59 59 + 900000000
       | S _ => at_ 2024 3 4 0 0 0 + 100000000
       end;
     ticks := 0 |}.

(** One task created half a second before the end of February 2024. *)
Definition lastSecond : list Task.t :=
  [ task 1 "pending" None None (at_ 2024 2 29 23 59 59 + 500000000) ].

End Examples.

(* ================================================================== *)
(** * Vocabulary of the further statements about the reports *)
(* ================================================================== *)

Module Report.
Import GoTime Models Gin Gorm Utils StatsController Spec.

(** The rows of one owner, table by table, in the order of the table. *)
Definition ownTasks (owner : Z) (st : Store) : list Task.t :=
  filter (fun t => Task.UserID t =? owner) (tasks st).

Definition ownProjects (owner : Z) (st : Store) : list Project.t :=
  filter (fun p => Project.UserID p =? owner) (projects st).

Definition ownCategories (owner : Z) (st : Store) : list Category.t :=
  filter (fun k => Category.UserID k =? owner) (categories st).

(** Two worlds that differ at most in the rows of other owners: the same
    rows of [owner], and the same clock readings from now on. *)
Definition ownView (owner : Z) (w1 w2 : World) : Prop :=
  ownTasks owner (store w1) = ownTasks owner (store w2)
  /\ ownProjects owner (store w1) = ownProjects owner (store w2)
  /\ ownCategories owner (store w1) = ownCategories owner (store w2)
  /\ forall k, clock w1 (ticks w1 + k)%nat = clock w2 (ticks w2 + k)%nat.

(** [m] sees the rows of [owner] only. *)
Definition Isolated {A} (owner : Z) (m : M A) : Prop :=
  forall w1 w2, ownView owner w1 w2 ->
    fst (m w1) = fst (m w2) /\ ownView owner (snd (m w1)) (snd (m w2)).

(** A nullable timestamp that falls on the calendar day [day], a count of
    days from the epoch. *)
Definition onDay (day : Z) (col : option Time) : bool :=
  match col with
  | Some t => absDay t =? day
  | None => false
  end.

(** The live tasks of [owner] whose [col] falls on the day [day]. *)
Definition tasksOnDay (rows : list Task.t) (owner : Z)
    (col : Task.t -> option Time) (day : Z) : Z :=
  Z.of_nat (List.length
    (filter (fun t => (Task.UserID t =? owner) && liveTask t && onDay day (col t)) rows)).

(** The live tasks of [owner] that satisfy [p]. *)
Definition tasksWhere (rows : list Task.t) (owner : Z) (p : Task.t -> bool) : Z :=
  Z.of_nat (List.length
    (filter (fun t => (Task.UserID t =? owner) && liveTask t && p t) rows)).

Definition hasPriority (priority : string) (t : Task.t) : bool :=
  String.eqb (Task.Priority t) priority.

Definition isCompleted (t : Task.t) : bool :=
  String.eqb (Task.Status t) "completed".

(** The live tasks of [owner] that [cond] selects. *)
Definition countWhere (rows : list Task.t) (cond : Task.t -> SQL.tv) : Z :=
  SQL.COUNT (filter (scoped tasks.deleted_at cond) rows).

(** The rate [GetProductivityStats] stores under [priority]. *)
Definition priorityRateOf (rows : list Task.t) (owner : Z) (priority : string) : Q :=
  completionRate
    (countWhere rows
       (fun r => tasks.user_id r == owner AND tasks.priority r == priority
                 AND tasks.status r == "completed"%string)%sql)
    (countWhere rows
       (fun r => tasks.user_id r == owner AND tasks.priority r == priority)%sql).

(** The entry of the productivity trend for the loop index [i] at the
    reading [now]. *)
Definition productivityDayOf (rows : list Task.t) (owner : Z) (now : Time) (i : Z)
    : ProductivityDay.t :=
  let dateStr := FormatDate (AddDate now 0 0 (- i)) in
  let created := countOn rows owner tasks.created_at dateStr in
  let completed := countOn rows owner tasks.completed_at dateStr in
  ProductivityDay.mk dateStr created completed (efficiencyOf created completed).

(** The entry of the category efficiency for one category. *)
Definition categoryEfficiencyOf (rows : list Task.t) (owner : Z) (category : Category.t)
    : CategoryEfficiency.t :=
  let total := countWhere rows
    (fun r => tasks.user_id r == owner
              AND tasks.category_id r == Category.ID category)%sql in
  let completed := countWhere rows
    (fun r => tasks.user_id r == owner
              AND tasks.category_id r == Category.ID category
              AND tasks.status r == "completed"%string)%sql in
  CategoryEfficiency.mk (Category.Name category) total completed
    (completionRate completed total).

Definition inCategory (category : Z) (t : Task.t) : bool :=
  match Task.CategoryID t with
  | Some k => k =? category
  | None => false
  end.

Definition inProject (project : Z) (t : Task.t) : bool :=
  match Task.ProjectID t with
  | Some k => k =? project
  | None => false
  end.

(** The entry of the project progress for one project. *)
Definition projectProgressOf (rows : list Task.t) (owner : Z) (project : Project.t)
    : ProjectProgress.t :=
  let total := countWhere rows
    (fun r => tasks.project_id r == Project.ID project
              AND tasks.user_id r == owner)%sql in
  let completed := countWhere rows
    (fun r => tasks.project_id r == Project.ID project
              AND tasks.user_id r == owner
              AND tasks.status r == "completed"%string)%sql in
  ProjectProgress.mk (Project.Name project) total completed
    (completionRate completed total).

(** The digits [appendInt] writes for a year of the layout ["2006-01"]
    and for a month, read back as [time.Parse] reads them: checks the
    proofs run for the years four digits can hold and for the months. *)
Definition yearDigitsOk (y : Z) : bool :=
  match appendInt y 4 with
  | String y1 (String y2 (String y3 (String y4 EmptyString))) =>
      isDigit y1 && isDigit y2 && isDigit y3 && isDigit y4
      && (((digitVal y1 * 10 + digitVal y2) * 10 + digitVal y3) * 10 + digitVal y4 =? y)
  | _ => false
  end.

Definition monthDigitsOk (m : Z) : bool :=
  match appendInt m 2 with
  | String m1 (String m2 EmptyString) =>
      isDigit m1 && isDigit m2 && (digitVal m1 * 10 + digitVal m2 =? m)
  | _ => false
  end.

(** A nullable timestamp that lies in the closed range. *)
Definition within (from to : Time) (col : option Time) : bool :=
  match col with
  | Some t => (from <=? t) && (t <=? to)
  | None => false
  end.

Definition hasStatus (status : string) (t : Task.t) : bool :=
  String.eqb (Task.Status t) status.

(** The live projects of [owner] that satisfy [p]. *)
Definition projectsWhere (rows : list Project.t) (owner : Z) (p : Project.t -> bool) : Z :=
  Z.of_nat (List.length
    (filter (fun r => (Project.UserID r =? owner)
                      && match Project.DeletedAt r with None => true | Some _ => false end
                      && p r) rows)).

(** The live categories of [owner]. *)
Definition liveCategories (rows : list Category.t) (owner : Z) : Z :=
  Z.of_nat (List.length
    (filter (fun r => (Category.UserID r =? owner)
                      && match Category.DeletedAt r with None => true | Some _ => false end)
       rows)).

End Report.

(* ================================================================== *)
(** * Further sample stores *)
(* ================================================================== *)

Module Samples.
Import GoTime Models Gin Gorm Utils StatsController Examples.

(** The rows of [busyWorld] with a task, a project and a category of
    user 2 among them. *)
Definition sharedWorld : World :=
  {| store :=
       {| tasks := Task.mk 9 "other" "pending" "high" None None 2 None None
                     (at_ 2024 3 3 9 0 0) None :: busyRows;
          projects := [Project.mk 7 "theirs" "active" 2 None];
          categories := [Category.mk 5 "theirs" 2 None] |};
     clock := clock busyWorld;
     ticks := ticks busyWorld |}.

(** Two projects of user 1, one of them soft-deleted, and three tasks in
    the live one, two of them completed; the clock reads 2024-03-03
    10:00. *)
Definition projectWorld : World :=
  {| store :=
       {| tasks :=
            [ Task.mk 1 "a" "completed" "medium" None (Some (at_ 2024 3 2 9 0 0)) 1 None
                (Some 1) (at_ 2024 3 1 8 0 0) None;
              Task.mk 2 "b" "completed" "medium" None (Some (at_ 2024 3 3 9 0 0)) 1 None
                (Some 1) (at_ 2024 3 1 8 0 0) None;
              Task.mk 3 "c" "in_progress" "medium" None None 1 None
                (Some 1) (at_ 2024 3 2 8 0 0) None ];
          projects := [ Project.mk 1 "site" "active" 1 None;
                        Project.mk 2 "old" "archived" 1 (Some (at_ 2024 1 1 0 0 0)) ];
          categories := [] |};
     clock := fun _ => at_ 2024 3 3 10 0 0;
     ticks := 0 |}.

End Samples.

(* ================================================================== *)
(** * Properties *)
(* ================================================================== *)

Lemma allFrom_spec (f : Z -> bool) (n : nat) :
  forall z, allFrom f n z = true ->
  forall k, z <= k < z + Z.of_nat n -> f k = true.
Proof.
  induction n as [|n IH]; intros z H k Hk.
  - simpl in Hk. lia.
  - cbn [allFrom] in H. apply andb_prop in H as [Hz Hrest].
    destruct (Z.eq_dec k z) as [->|Hne]; [exact Hz|].
    apply (IH (z + 1) Hrest). lia.
Qed.

Module CalendarFacts.
Import GoTime.

Lemma isLeap_shift y q : isLeap (y + 400 * q) = isLeap y.
Proof.
  unfold isLeap.
  replace (y + 400 * q) with (y + (100 * q) * 4) at 1 by ring.
  replace (y + 400 * q) with (y + (4 * q) * 100) at 1 by ring.
  replace (y + 400 * q) with (y + q * 400) by ring.
  now rewrite !Z.mod_add by lia.
Qed.

Lemma daysSinceEpoch_shift y q :
  daysSinceEpoch (y + 400 * q) = daysSinceEpoch y + daysPer400Years * q.
Proof.
  unfold daysSinceEpoch. cbv zeta.
  replace (y + 400 * q - 1) with (y - 1 + q * 400) by ring.
  rewrite Z.div_add by lia.
  replace (y - 1 + q * 400 - 400 * ((y - 1) / 400 + q))
    with (y - 1 - 400 * ((y - 1) / 400)) by ring.
  unfold daysPer400Years. ring.
Qed.

Lemma absDays_shift y m d q :
  absDays (y + 400 * q) m d = absDays y m d + daysPer400Years * q.
Proof.
  unfold absDays. cbv zeta.
  rewrite isLeap_shift, daysSinceEpoch_shift.
  destruct (isLeap y && (3 <=? m)); ring.
Qed.

Lemma yearDay_shift d q :
  yearDay (d + daysPer400Years * q) =
  (fst (yearDay d) + 400 * q, snd (yearDay d)).
Proof.
  unfold yearDay. cbv zeta.
  replace (d + daysPer400Years * q) with (d + q * daysPer400Years) by ring.
  rewrite Z.div_add by (unfold daysPer400Years; lia).
  replace (d + q * daysPer400Years - daysPer400Years * (d / daysPer400Years + q))
    with (d - daysPer400Years * (d / daysPer400Years)) by ring.
  cbn [fst snd]. f_equal. ring.
Qed.

Lemma absDate_shift d q :
  absDate (d + daysPer400Years * q) =
  let '(y, m, dd) := absDate d in (y + 400 * q, m, dd).
Proof.
  unfold absDate. rewrite yearDay_shift.
  destruct (yearDay d) as [y yd]. cbn [fst snd].
  rewrite isLeap_shift.
  now destruct (monthDay (isLeap y) yd).
Qed.

Lemma cycle_days_ok : allFrom cycleDayOk (Z.to_nat daysPer400Years) 0 = true.
Proof. vm_cast_no_check (eq_refl true). Qed.

Lemma daysIn_shift m y q : daysIn m (y + 400 * q) = daysIn m y.
Proof. unfold daysIn. now rewrite isLeap_shift. Qed.

(** [absDate] inverts [absDays] and yields a date of the calendar. *)
Lemma absDate_spec d y m dd :
  absDate d = (y, m, dd) ->
  absDays y m dd = d /\ 1 <= m <= 12 /\ 1 <= dd <= daysIn m y.
Proof.
  intros H.
  pose proof (Z.div_mod d daysPer400Years ltac:(discriminate)) as E.
  pose proof (Z.mod_pos_bound d daysPer400Years eq_refl) as B.
  set (q := d / daysPer400Years) in *. set (r := d mod daysPer400Years) in *.
  assert (Hd : d = r + daysPer400Years * q) by lia.
  clearbody q r. clear E. subst d. rewrite absDate_shift in H.
  pose proof (allFrom_spec _ _ _ cycle_days_ok r) as C.
  unfold cycleDayOk in C.
  destruct (absDate r) as [[y0 m0] d0].
  assert (Hy : y = y0 + 400 * q /\ m = m0 /\ dd = d0) by (repeat split; congruence).
  destruct Hy as (-> & -> & ->). clear H.
  rewrite Z2Nat.id in C by discriminate.
  specialize (C ltac:(lia)).
  rewrite !andb_true_iff in C. destruct C as [[[[C1 C2] C3] C4] C5].
  rewrite absDays_shift, daysIn_shift. lia.
Qed.

Lemma month_cases m :
  1 <= m <= 12 ->
  m = 1 \/ m = 2 \/ m = 3 \/ m = 4 \/ m = 5 \/ m = 6 \/ m = 7
  \/ m = 8 \/ m = 9 \/ m = 10 \/ m = 11 \/ m = 12.
Proof. lia. Qed.

Lemma daysIn_bounds m y : 1 <= m <= 12 -> 28 <= daysIn m y <= 31.
Proof.
  intros Hm. unfold daysIn.
  destruct (month_cases m Hm) as [->|[->|[->|[->|[->|[->|[->|[->|[->|[->|[->| ->]]]]]]]]]]];
    destruct (isLeap y); vm_compute; split; discriminate.
Qed.

Lemma cycle_dates_ok :
  allFrom (fun y => allFrom (fun m => allFrom (cycleDateOk y m) 31 1) 12 1) 400 1 = true.
Proof. vm_cast_no_check (eq_refl true). Qed.

(** [absDays] inverts [absDate] on the dates of the calendar. *)
Lemma absDate_absDays y m dd :
  1 <= m <= 12 -> 1 <= dd <= daysIn m y ->
  absDate (absDays y m dd) = (y, m, dd).
Proof.
  intros Hm Hd.
  pose proof (Z.div_mod (y - 1) 400 ltac:(discriminate)) as E.
  pose proof (Z.mod_pos_bound (y - 1) 400 eq_refl) as B.
  set (q := (y - 1) / 400) in *. set (r := (y - 1) mod 400) in *.
  assert (Hy : y = (r + 1) + 400 * q) by lia.
  clearbody q r. clear E. subst y. rewrite daysIn_shift in Hd.
  rewrite absDays_shift, absDate_shift.
  pose proof (daysIn_bounds m (r + 1) Hm) as Hdd.
  pose proof (allFrom_spec _ _ _ cycle_dates_ok (r + 1) ltac:(lia)) as C1.
  cbv beta in C1.
  pose proof (allFrom_spec _ _ _ C1 m ltac:(lia)) as C2.
  pose proof (allFrom_spec _ _ _ C2 dd ltac:(lia)) as C3.
  unfold cycleDateOk in C3.
  destruct (Z.leb_spec dd (daysIn m (r + 1))); [|lia].
  destruct (absDate (absDays (r + 1) m dd)) as [[y0 m0] d0].
  rewrite !andb_true_iff, !Z.eqb_eq in C3. destruct C3 as [[-> ->] ->].
  reflexivity.
Qed.

End CalendarFacts.

Module TimeFacts.
Import GoTime CalendarFacts.

Lemma absDay_add_days t k : absDay (t + k * nsPerDay) = absDay t + k.
Proof.
  unfold absDay. rewrite Z.div_add by discriminate. ring.
Qed.

Lemma absDays_add_day y m d k : absDays y m (d + k) = absDays y m d + k.
Proof. unfold absDays. cbv zeta. destruct (isLeap y && (3 <=? m)); ring. Qed.

(** [Date] on fields that need no normalisation. *)
Lemma Date_normal y m d h mi s ns :
  1 <= m <= 12 -> 0 <= h < 24 -> 0 <= mi < 60 -> 0 <= s < 60 ->
  0 <= ns < 1000000000 ->
  Date y m d h mi s ns =
  (absDays y m d - unixEpochDays) * nsPerDay
  + ((h * secondsPerHour + mi * secondsPerMinute + s) * Second + ns).
Proof.
  intros Hm Hh Hmi Hs Hns. unfold Date, norm. cbv beta iota zeta.
  rewrite (Z.div_small (m - 1) 12), (Z.mod_small (m - 1) 12) by lia.
  rewrite (Z.div_small ns), (Z.mod_small ns) by lia.
  rewrite (Z.add_0_r s).
  rewrite (Z.div_small s), (Z.mod_small s) by lia.
  rewrite (Z.add_0_r mi).
  rewrite (Z.div_small mi), (Z.mod_small mi) by lia.
  rewrite (Z.add_0_r h).
  rewrite (Z.div_small h), (Z.mod_small h) by lia.
  rewrite !Z.add_0_r.
  replace (m - 1 + 1) with m by ring.
  unfold nsPerDay, secondsPerDay, Second. ring.
Qed.

Lemma clock_fields t :
  0 <= ClockHour t < 24 /\ 0 <= ClockMin t < 60 /\ 0 <= ClockSec t < 60
  /\ 0 <= Nanos t < 1000000000
  /\ (ClockHour t * secondsPerHour + ClockMin t * secondsPerMinute + ClockSec t) * Second
     + Nanos t = t mod nsPerDay.
Proof.
  unfold ClockHour, ClockMin, ClockSec, Nanos, daySeconds,
    secondsPerHour, secondsPerMinute, nsPerDay, secondsPerDay, Second.
  change (86400 * 1000000000) with 86400000000000.
  Z.div_mod_to_equations. lia.
Qed.

Lemma time_split t : t = (absDay t - unixEpochDays) * nsPerDay + t mod nsPerDay.
Proof.
  unfold absDay. pose proof (Z.div_mod t nsPerDay ltac:(discriminate)). lia.
Qed.

Lemma date_of_time t : absDays (Year t) (Month t) (Day t) = absDay t.
Proof.
  unfold Year, Month, Day.
  destruct (absDate (absDay t)) as [[y m] d] eqn:E.
  now apply absDate_spec in E.
Qed.

Lemma Month_range t : 1 <= Month t <= 12.
Proof.
  unfold Month. destruct (absDate (absDay t)) as [[y m] d] eqn:E.
  now apply absDate_spec in E.
Qed.

Lemma Day_range t : 1 <= Day t <= daysIn (Month t) (Year t).
Proof.
  unfold Day, Month, Year. destruct (absDate (absDay t)) as [[y m] d] eqn:E.
  now apply absDate_spec in E.
Qed.

(** [t.AddDate(0, 0, k)] moves [t] by [k] days of 24 hours. *)
Lemma AddDate_days t k : AddDate t 0 0 k = t + k * nsPerDay.
Proof.
  unfold AddDate. rewrite !Z.add_0_r.
  destruct (clock_fields t) as (Hh & Hmi & Hs & Hns & Hsum).
  rewrite Date_normal by (auto using Month_range).
  rewrite absDays_add_day, date_of_time, Hsum.
  rewrite (time_split t) at 3. ring.
Qed.

Lemma Weekday_range t : 0 <= Weekday t < 7.
Proof. unfold Weekday. apply Z.mod_pos_bound. reflexivity. Qed.

Lemma Weekday_add_days t k : Weekday (t + k * nsPerDay) = (Weekday t + k) mod 7.
Proof.
  unfold Weekday. rewrite absDay_add_days.
  rewrite Zplus_mod_idemp_l. f_equal. ring.
Qed.

(** The calendar day of [Date y m d ...] for a date of the calendar. *)
Lemma absDay_Date y m d h mi s ns :
  1 <= m <= 12 -> 0 <= h < 24 -> 0 <= mi < 60 -> 0 <= s < 60 ->
  0 <= ns < 1000000000 ->
  absDay (Date y m d h mi s ns) = absDays y m d.
Proof.
  intros. rewrite Date_normal by assumption.
  unfold absDay.
  rewrite Z.div_add_l by discriminate.
  rewrite Z.div_small; [ring|].
  unfold secondsPerHour, secondsPerMinute, nsPerDay, secondsPerDay, Second. lia.
Qed.

Lemma fields_of_day t y m d :
  1 <= m <= 12 -> 1 <= d <= daysIn m y -> absDay t = absDays y m d ->
  Year t = y /\ Month t = m /\ Day t = d.
Proof.
  intros Hm Hd E. unfold Year, Month, Day.
  rewrite E, absDate_absDays by assumption. auto.
Qed.

End TimeFacts.

Module GinFacts.
Import GoTime Models Gin Gorm Utils.

Lemma post_ret {A} (a : A) w Q : Q a w -> post (ret a) w Q.
Proof. exact (fun H => H). Qed.

Lemma post_bind {A B} (m : M A) (k : A -> M B) w Q :
  post m w (fun a w' => post (k a) w' Q) -> post (bind m k) w Q.
Proof.
  unfold post, bind. destruct (m w) as [a w']. exact (fun H => H).
Qed.

Lemma post_Now w Q :
  Q (clock w (ticks w)) {| store := store w; clock := clock w; ticks := S (ticks w) |} ->
  post Now w Q.
Proof. exact (fun H => H). Qed.

Lemma post_CountTasks cond w Q :
  Q (SQL.COUNT (filter (scoped tasks.deleted_at cond) (tasks (store w)))) w ->
  post (CountTasks cond) w Q.
Proof. exact (fun H => H). Qed.

Lemma post_FindCategories cond w Q :
  Q (filter (scoped categories.deleted_at cond) (categories (store w))) w ->
  post (FindCategories cond) w Q.
Proof. exact (fun H => H). Qed.

Lemma post_FindProjects cond w Q :
  Q (filter (scoped projects.deleted_at cond) (projects (store w))) w ->
  post (FindProjects cond) w Q.
Proof. exact (fun H => H). Qed.

Lemma post_RawSelectTasks cond w Q :
  Q (filter (fun r => SQL.holds (cond r)) (tasks (store w))) w ->
  post (RawSelectTasks cond) w Q.
Proof. exact (fun H => H). Qed.

Lemma post_SuccessResponse data w Q :
  Q (Response.mk StatusOK "success" (Some data) None (clock w (ticks w)))
    {| store := store w; clock := clock w; ticks := S (ticks w) |} ->
  post (SuccessResponse data) w Q.
Proof. exact (fun H => H). Qed.

Lemma post_ErrorResponse code msg err w Q :
  Q (Response.mk code msg None err (clock w (ticks w)))
    {| store := store w; clock := clock w; ticks := S (ticks w) |} ->
  post (ErrorResponse code msg err) w Q.
Proof. exact (fun H => H). Qed.

Lemma post_weaken {A} (m : M A) w (Q Q' : A -> World -> Prop) :
  (forall a w', Q a w' -> Q' a w') -> post m w Q -> post m w Q'.
Proof. unfold post. auto. Qed.

(** The loop rule: an invariant of the values already visited, the
    variables of the loop and the world. *)
Lemma post_forRange {I S} (Inv : list I -> S -> World -> Prop)
    (body : I -> S -> M S) :
  forall (l done : list I) (s : S) (w : World),
    Inv done s w ->
    (forall done' i s' w',
       Inv done' s' w' ->
       post (body i s') w' (fun s'' w'' => Inv (done' ++ [i]) s'' w'')) ->
    post (forRange l body s) w (fun s' w' => Inv (done ++ l) s' w').
Proof.
  induction l as [|i l IH]; intros done s w H0 Hstep.
  - cbn. apply post_ret. now rewrite app_nil_r.
  - cbn [forRange]. apply post_bind.
    eapply post_weaken; [|apply (Hstep done i s w H0)].
    intros s' w' H'. cbv beta.
    replace (done ++ i :: l) with ((done ++ [i]) ++ l) by (now rewrite <- app_assoc).
    apply IH; assumption.
Qed.

End GinFacts.

Module SQLFacts.
Import GoTime Models Gin Gorm Utils.

Lemma holds_and a b : SQL.holds (SQL.and a b) = SQL.holds a && SQL.holds b.
Proof. destruct a as [[|]|], b as [[|]|]; reflexivity. Qed.

Lemma holds_eq {A} `{SQL.Eqb A} (x v : A) : SQL.holds (SQL.eq (Some x) v) = SQL.eqb x v.
Proof. unfold SQL.eq. cbn. now destruct (SQL.eqb x v). Qed.

Lemma holds_ne {A} `{SQL.Eqb A} (x v : A) :
  SQL.holds (SQL.ne (Some x) v) = negb (SQL.eqb x v).
Proof. unfold SQL.ne. cbn. now destruct (SQL.eqb x v). Qed.

Lemma holds_is_null {A} (col : option A) :
  SQL.holds (SQL.is_null col) = match col with None => true | Some _ => false end.
Proof. now destruct col. Qed.

Lemma scoped_tasks cond r :
  scoped tasks.deleted_at cond r =
  SQL.holds (cond r) && match Task.DeletedAt r with None => true | Some _ => false end.
Proof. unfold scoped. now rewrite holds_and, holds_is_null. Qed.

(** Adding a conjunct to a condition selects a part of the rows. *)
Lemma count_and_le {R} (del : R -> option Z) (p q : R -> SQL.tv) (l : list R) :
  (List.length (filter (scoped del (fun r => SQL.and (p r) (q r))) l)
   <= List.length (filter (scoped del p) l))%nat.
Proof.
  induction l as [|r l IH]; [constructor|].
  cbn [filter].
  assert (E : forall c, scoped del c r = SQL.holds (c r) && SQL.holds (SQL.is_null (del r))).
  { intros c. unfold scoped. apply holds_and. }
  rewrite !E, holds_and.
  destruct (SQL.holds (p r)), (SQL.holds (q r)), (SQL.holds (SQL.is_null (del r)));
    cbn [andb List.length]; lia.
Qed.

End SQLFacts.

Import GoTime Models Gin Gorm Utils StatsController Spec GinFacts SQLFacts.

Lemma status_partition (uid : Z) (l : list Task.t) :
  (forall t, In t l -> Task.UserID t = uid -> Task.DeletedAt t = None ->
             IsValidTaskStatus (Task.Status t) = true) ->
  SQL.COUNT (filter (scoped tasks.deleted_at
      (fun r => tasks.user_id r == uid AND tasks.status r == "pending"%string)%sql) l)
  + SQL.COUNT (filter (scoped tasks.deleted_at
      (fun r => tasks.user_id r == uid AND tasks.status r == "in_progress"%string)%sql) l)
  + SQL.COUNT (filter (scoped tasks.deleted_at
      (fun r => tasks.user_id r == uid AND tasks.status r == "completed"%string)%sql) l)
  = SQL.COUNT (filter (scoped tasks.deleted_at (fun r => tasks.user_id r == uid)%sql) l).
Proof.
  unfold SQL.COUNT.
  induction l as [|t l IH]; intros Hvalid; [reflexivity|].
  assert (IH' := IH (fun t' Hin => Hvalid t' (or_intror Hin))).
  specialize (Hvalid t (or_introl eq_refl)).
  cbn [filter]. rewrite !scoped_tasks, !holds_and.
  unfold tasks.user_id, tasks.status in IH' |- *. rewrite !holds_eq.
  unfold SQL.eqb, SQL.Eqb_Z, SQL.Eqb_string in IH' |- *.
  destruct (Z.eqb_spec (Task.UserID t) uid) as [Hu|Hu]; cbn [andb]; [|exact IH'].
  destruct (Task.DeletedAt t) as [d|]; [rewrite !andb_false_r; exact IH'|].
  specialize (Hvalid Hu eq_refl).
  unfold IsValidTaskStatus, Contains in Hvalid. cbn [existsb] in Hvalid.
  rewrite !andb_true_r.
  rewrite (String.eqb_sym "pending"), (String.eqb_sym "in_progress"),
    (String.eqb_sym "completed"), orb_false_r in Hvalid.
  destruct (String.eqb_spec (Task.Status t) "pending") as [E1|N1].
  { rewrite E1.
    change (("pending" =? "in_progress")%string) with false.
    change (("pending" =? "completed")%string) with false.
    cbn [List.length]. lia. }
  destruct (String.eqb_spec (Task.Status t) "in_progress") as [E2|N2].
  { rewrite E2.
    change (("in_progress" =? "completed")%string) with false.
    cbn [List.length]. lia. }
  destruct (String.eqb_spec (Task.Status t) "completed") as [E3|N3].
  { cbn [List.length]. lia. }
  discriminate Hvalid.
Qed.

(** C10. Overview: when every live task of the owner has one of the three
    statuses, the pending, in-progress and completed counts add up to the
    total. *)
Theorem overview_status_partition (c : Context) (w : World) :
  (forall t, In t (tasks (store w)) -> Task.UserID t = GetUserID c ->
             Task.DeletedAt t = None -> IsValidTaskStatus (Task.Status t) = true) ->
  exists o,
    Response.Data (fst (GetOverview c w)) = Some (OverviewData o) /\
    StatsOverview.PendingTasks o + StatsOverview.InProgressTasks o
      + StatsOverview.CompletedTasks o = StatsOverview.TotalTasks o.
Proof.
  intros Hvalid. eexists. split; [reflexivity|].
  cbn [StatsOverview.PendingTasks StatsOverview.InProgressTasks
       StatsOverview.CompletedTasks StatsOverview.TotalTasks].
  now apply status_partition.
Qed.

Ltac run1 :=
  lazymatch goal with
  | |- post (bind _ _) _ _ => apply post_bind
  | |- post (CountTasks _) _ _ => apply post_CountTasks
  | |- post (CountProjects _) _ _ => apply post_ret
  | |- post (CountCategories _) _ _ => apply post_ret
  | |- post (FindCategories _) _ _ => apply post_FindCategories
  | |- post (FindProjects _) _ _ => apply post_FindProjects
  | |- post (RawSelectTasks _) _ _ => apply post_RawSelectTasks
  | |- post Now _ _ => apply post_Now
  | |- post (ret _) _ _ => apply post_ret
  | |- post (SuccessResponse _) _ _ => apply post_SuccessResponse
  | |- post (ErrorResponse _ _ _) _ _ => apply post_ErrorResponse
  end; cbv beta; cbn [store clock ticks].

Ltac run := repeat run1.

(** Apply the loop rule with the invariant [Inv] to the loop of the goal. *)
Ltac loop Inv :=
  lazymatch goal with
  | |- post (forRange ?l ?body ?s) ?w0 _ =>
      eapply post_weaken; [|apply (post_forRange Inv body l [] s w0)]
  end.

Lemma after_0 w : after w 0 w.
Proof. unfold after. auto with arith. Qed.

Lemma count_nonneg {R} (l : list R) : 0 <= SQL.COUNT l.
Proof. unfold SQL.COUNT. lia. Qed.

Lemma count_and_bounds (p q : Task.t -> SQL.tv) (l : list Task.t) :
  0 <= SQL.COUNT (filter (scoped tasks.deleted_at (fun r => SQL.and (p r) (q r))) l)
    <= SQL.COUNT (filter (scoped tasks.deleted_at p) l).
Proof.
  unfold SQL.COUNT. pose proof (count_and_le tasks.deleted_at p q l). lia.
Qed.

Lemma mapSet_Forall (P : string * Q -> Prop) m k v :
  Forall P m -> P (k, v) -> Forall P (mapSet m k v).
Proof.
  induction 1 as [|[k' v'] m Hkv Hm IH]; intros Hnew; cbn.
  - now constructor.
  - destruct (String.eqb k' k); constructor; auto.
Qed.

Lemma Forall_snoc {A} (P : A -> Prop) l x : Forall P l -> P x -> Forall P (l ++ [x]).
Proof. intros. apply Forall_app. split; auto. Qed.

Lemma withClock_app {I X} (f : Time -> I -> X) clk (l1 l2 : list I) :
  forall k, withClock f clk k (l1 ++ l2)
            = withClock f clk k l1 ++ withClock f clk (k + List.length l1) l2.
Proof.
  induction l1 as [|i l1 IH]; intros k; cbn.
  - now rewrite Nat.add_0_r.
  - rewrite IH. do 3 f_equal. lia.
Qed.

Lemma withClock_length {I X} (f : Time -> I -> X) clk (l : list I) :
  forall k, List.length (withClock f clk k l) = List.length l.
Proof. induction l as [|i l IH]; intros k; cbn; [reflexivity|now rewrite IH]. Qed.

Lemma withClock_nth_error {I X} (f : Time -> I -> X) clk (l : list I) :
  forall k n, nth_error (withClock f clk k l) n
              = option_map (f (clk (k + n)%nat)) (nth_error l n).
Proof.
  induction l as [|i l IH]; intros k n.
  - now destruct n.
  - destruct n as [|n]; cbn.
    + now rewrite Nat.add_0_r.
    + rewrite IH. do 3 f_equal. lia.
Qed.

Lemma downTo0_length n : 0 <= n -> List.length (downTo0 (n - 1)) = Z.to_nat n.
Proof.
  intros H. unfold downTo0. rewrite length_map, length_rev, length_seq. f_equal. lia.
Qed.

Lemma downTo0_nth_error n k :
  (k < Z.to_nat n)%nat ->
  nth_error (downTo0 (n - 1)) k = Some (n - 1 - Z.of_nat k).
Proof.
  intros H. unfold downTo0.
  replace (n - 1 + 1) with n by ring.
  rewrite nth_error_map, nth_error_rev, length_seq, nth_error_seq.
  destruct (Nat.ltb_spec k (Z.to_nat n)); [|lia].
  destruct (Nat.ltb_spec (Z.to_nat n - S k) (Z.to_nat n)); [|lia].
  cbn [option_map]. f_equal. lia.
Qed.

Lemma productivity_run (c : Context) (w : World) :
  post (GetProductivityStats c) w (fun r w' =>
    store w' = store w /\
    exists p,
      r = Response.mk StatusOK "success" (Some (ProductivityData p)) None
            (clock w (ticks w + 8)%nat)
      /\ productivityOf c w p).
Proof.
  unfold GetProductivityStats. cbv zeta. run.
  (* the priorities *)
  eapply post_weaken;
    [|apply (post_forRange
        (fun (_ : list string) m w' =>
           w' = w /\ Forall (fun kv => exists completed total, soundRate (snd kv) completed total) m)
        _ _ [] [] w)].
  2:{ split; [reflexivity|constructor]. }
  2:{ intros done' pr m w' [-> Hm]. run. split; [reflexivity|].
      apply mapSet_Forall; [exact Hm|]. cbn [snd]. do 2 eexists.
      split; [reflexivity|]. apply (count_and_bounds
        (fun r => tasks.user_id r == GetUserID c AND tasks.priority r == pr)%sql). }
  intros rates w1 [-> Hrates]. cbv beta. run.
  (* the last seven days *)
  eapply post_weaken;
    [|apply (post_forRange
        (fun (done : list Z) acc w' =>
           after w (List.length done) w' /\ List.length acc = List.length done /\
           Forall (fun e =>
             ProductivityDay.efficiency e =
               efficiencyOf (ProductivityDay.created e) (ProductivityDay.completed e)
             /\ 0 <= ProductivityDay.created e /\ 0 <= ProductivityDay.completed e) acc)
        _ _ [] [] w)].
  2:{ split; [apply after_0|]. split; [reflexivity|constructor]. }
  2:{ intros done' i acc w' (Hw & Hlen & Hacc). run.
      destruct Hw as (Hst & Hcl & Htk).
      split; [|split].
      - unfold after. cbn [store clock ticks]. rewrite length_app. cbn. repeat split; auto; lia.
      - rewrite !length_app. cbn. lia.
      - apply Forall_snoc; [exact Hacc|]. cbn. auto using count_nonneg. }
  intros recent w2 (Hw2 & Hlen & Hrecent). cbv beta. run.
  destruct Hw2 as (Hst & Hcl & Htk).
  change (List.length (downTo0 6)) with 7%nat in Htk, Hlen.
  (* the categories *)
  eapply post_weaken;
    [|apply (post_forRange
        (fun (_ : list Category.t) acc w' =>
           w' = w2 /\
           Forall (fun e =>
             soundRate (CategoryEfficiency.completion_rate e)
               (CategoryEfficiency.completed_tasks e) (CategoryEfficiency.total_tasks e)) acc)
        _ _ [] [] w2)].
  2:{ split; [reflexivity|constructor]. }
  2:{ intros done' cat acc w' [-> Hacc]. run. split; [reflexivity|].
      apply Forall_snoc; [exact Hacc|]. cbn. split; [reflexivity|].
      apply (count_and_bounds
        (fun r => tasks.user_id r == GetUserID c AND tasks.category_id r == Category.ID cat)%sql). }
  intros cats w3 [-> Hcats]. cbv beta. run.
  split; [exact Hst|]. eexists. split.
  { rewrite Hcl, Htk. replace (ticks w + 8)%nat with (S (ticks w + 7)) by lia.
    reflexivity. }
  unfold productivityOf. cbv zeta.
  cbn [ProductivityStats.overview_completion_rate ProductivityStats.overview_completed_tasks
       ProductivityStats.overview_total_tasks ProductivityStats.priority_completion_rates
       ProductivityStats.avg_completion_time_hours ProductivityStats.recent_productivity
       ProductivityStats.category_efficiency ProductivityStats.overview_overdue_tasks
       ProductivityStats.today_completion_rate ProductivityStats.today_completed_tasks
       ProductivityStats.today_total_tasks].
  rewrite ?Hst, ?Hcl, ?Htk.
  repeat split; auto using count_nonneg.
  all: try apply (count_and_bounds (fun r => tasks.user_id r == GetUserID c)%sql).
  all: try apply (count_and_bounds
    (fun r => tasks.user_id r == GetUserID c AND SQL.DATE (tasks.due_date r) == _)%sql).
Qed.

Lemma productivity_report (c : Context) (w : World) :
  exists p,
    fst (GetProductivityStats c w) =
      Response.mk StatusOK "success" (Some (ProductivityData p)) None
        (clock w (ticks w + 8)%nat)
    /\ productivityOf c w p.
Proof.
  pose proof (productivity_run c w) as H. unfold post in H.
  destruct H as (_ & p & Hp & Hof). now exists p.
Qed.

Lemma efficiencyOf_cases created completed :
  (0 < created ->
     efficiencyOf created completed = (inject_Z completed / inject_Z created * 100)%Q)
  /\ (created = 0 -> 0 < completed -> efficiencyOf created completed = 100%Q)
  /\ (created = 0 -> completed = 0 -> efficiencyOf created completed = 0%Q).
Proof.
  unfold efficiencyOf, float64. repeat split.
  - intros H. apply Z.ltb_lt in H. now rewrite H.
  - intros -> H. apply Z.ltb_lt in H. now rewrite H.
  - now intros -> ->.
Qed.

(** C2. Each of the seven days of the productivity trend has the efficiency
    completed / created * 100 when something was created, 100 when nothing
    was created and something completed, and 0 when both counts are 0. *)
Theorem daily_efficiency_cases (c : Context) (w : World) :
  exists p,
    Response.Data (fst (GetProductivityStats c w)) = Some (ProductivityData p)
    /\ List.length (ProductivityStats.recent_productivity p) = 7%nat
    /\ Forall (fun e =>
         let created := ProductivityDay.created e in
         let completed := ProductivityDay.completed e in
         0 <= created /\ 0 <= completed
         /\ (0 < created ->
               ProductivityDay.efficiency e
               = (inject_Z completed / inject_Z created * 100)%Q)
         /\ (created = 0 -> 0 < completed -> ProductivityDay.efficiency e = 100%Q)
         /\ (created = 0 -> completed = 0 -> ProductivityDay.efficiency e = 0%Q))
       (ProductivityStats.recent_productivity p).
Proof.
  destruct (productivity_report c w) as (p & Hp & Hof).
  exists p. rewrite Hp. split; [reflexivity|].
  destruct Hof as (_ & _ & _ & Hlen & Hrecent & _).
  split; [exact Hlen|].
  eapply Forall_impl; [|exact Hrecent].
  intros e (He & Hc & Hd). cbv zeta. rewrite He.
  destruct (efficiencyOf_cases (ProductivityDay.created e) (ProductivityDay.completed e))
    as (H1 & H2 & H3).
  auto.
Qed.

(** The condition of the overdue count selects the overdue tasks. *)
Lemma overdue_condition (owner : Z) (now : Time) (t : Task.t) :
  scoped tasks.deleted_at
    (fun r => tasks.user_id r == owner AND tasks.status r != "completed"%string
              AND tasks.due_date r < now)%sql t
  = overdue owner now t.
Proof.
  rewrite scoped_tasks, !holds_and. unfold overdue, liveTask.
  unfold tasks.user_id, tasks.status, tasks.due_date.
  rewrite holds_eq, holds_ne. unfold SQL.eqb, SQL.Eqb_Z, SQL.Eqb_string.
  destruct (Task.UserID t =? owner), (Task.DeletedAt t),
    (String.eqb (Task.Status t) "completed"), (Task.DueDate t) as [due|];
    cbn; try reflexivity; destruct (due <? now); reflexivity.
Qed.

(** C8. The overdue count is the number of the owner's tasks that are not
    completed and whose due date is present and strictly before the
    reading of the clock; a completed task and a task without a due date
    are never among them. *)
Theorem overdue_count (c : Context) (w : World) :
  exists p,
    Response.Data (fst (GetProductivityStats c w)) = Some (ProductivityData p)
    /\ ProductivityStats.overview_overdue_tasks p
       = Z.of_nat (List.length
           (filter (overdue (GetUserID c) (clock w (ticks w + 7)%nat))
              (tasks (store w))))
    /\ (forall t now, Task.Status t = "completed"%string ->
          scoped tasks.deleted_at
            (fun r => tasks.user_id r == GetUserID c
                      AND tasks.status r != "completed"%string
                      AND tasks.due_date r < now)%sql t = false)
    /\ (forall t now, Task.DueDate t = None ->
          scoped tasks.deleted_at
            (fun r => tasks.user_id r == GetUserID c
                      AND tasks.status r != "completed"%string
                      AND tasks.due_date r < now)%sql t = false).
Proof.
  destruct (productivity_report c w) as (p & Hp & Hof).
  exists p. rewrite Hp. split; [reflexivity|].
  destruct Hof as (_ & _ & _ & _ & _ & _ & Hover & _).
  split; [|split].
  - rewrite Hover. unfold SQL.COUNT. f_equal. f_equal.
    apply filter_ext. intros t. apply overdue_condition.
  - intros t now Hs. rewrite overdue_condition. unfold overdue. rewrite Hs.
    cbn. now rewrite andb_false_r.
  - intros t now Hd. rewrite overdue_condition. unfold overdue. rewrite Hd.
    now rewrite andb_false_r.
Qed.

(** The month the request names: the [month] parameter, or the current
    month as the clock gives it. *)
Lemma monthly_run (c : Context) (w : World) :
  let monthStr := DefaultQuery c "month" (FormatMonth (clock w (ticks w))) in
  post (GetMonthlyReport c) w (fun r w' =>
    store w' = store w /\
    match ParseMonth monthStr with
    | inr err =>
        r = Response.mk StatusBadRequest monthFormatMessage None (Some err)
              (clock w (ticks w + 1)%nat)
    | inl month =>
        exists rep,
          r = Response.mk StatusOK "success" (Some (MonthlyData rep)) None
                (clock w (ticks w + 1)%nat)
          /\ monthlyOf c w monthStr month rep
    end).
Proof.
  cbv zeta. unfold GetMonthlyReport. cbv zeta. run.
  replace (S (ticks w)) with (ticks w + 1)%nat by lia.
  destruct (ParseMonth (DefaultQuery c "month" (FormatMonth (clock w (ticks w)))))
    as [month|err].
  2:{ run. split; reflexivity. }
  set (w1 := {| store := store w; clock := clock w; ticks := (ticks w + 1)%nat |}).
  run.
  loop (fun (done : list Z) (acc : list DailyTrend.t) w' =>
          w' = w1 /\ acc = map (dailyTrendOf (tasks (store w)) (GetUserID c) month) done).
  2:{ split; reflexivity. }
  2:{ intros done' day acc w' [-> ->]. run. split; [reflexivity|].
      rewrite map_app. cbn [map].
      unfold dailyTrendOf, countBetween, dayEndOf, dayStartOf.
      unfold w1. cbn [store]. reflexivity. }
  intros trends w2 [-> ->]. cbv beta. cbn [app]. run.
  loop (fun (_ : list Project.t) acc w' =>
          w' = w1 /\
          Forall (fun e =>
            soundRate (ProjectProgress.progress e)
              (ProjectProgress.completed e) (ProjectProgress.total_tasks e)) acc).
  2:{ split; [reflexivity|constructor]. }
  2:{ intros done' pr acc w' [-> Hacc]. run. split; [reflexivity|].
      apply Forall_snoc; [exact Hacc|]. cbn. split; [reflexivity|].
      apply (count_and_bounds
        (fun r => tasks.project_id r == Project.ID pr AND tasks.user_id r == GetUserID c)%sql). }
  intros progress w3 [-> Hprogress]. cbv beta. run.
  split; [reflexivity|]. eexists. split; [reflexivity|].
  unfold monthlyOf. cbv zeta.
  cbn [MonthlyReport.month MonthlyReport.summary_tasks_created
       MonthlyReport.summary_tasks_completed MonthlyReport.summary_completion_rate
       MonthlyReport.daily_trends MonthlyReport.project_progress].
  unfold countBetween, monthEndOf, monthStartOf. unfold w1 in *. cbn [store] in *.
  repeat split; auto.
Qed.

Lemma completionRate_zero n : completionRate n 0 = 0%Q.
Proof. reflexivity. Qed.

Lemma ratio_nonneg a b : 0 <= a -> 0 < b -> (0 <= inject_Z a / inject_Z b * 100)%Q.
Proof.
  intros Ha Hb. destruct b as [|b|b]; try lia.
  unfold Qle, Qdiv, Qmult, Qinv, inject_Z. cbn. lia.
Qed.

Lemma ratio_le_100 a b : a <= b -> 0 < b -> (inject_Z a / inject_Z b * 100 <= 100)%Q.
Proof.
  intros Ha Hb. destruct b as [|b|b]; try lia.
  unfold Qle, Qdiv, Qmult, Qinv, inject_Z. cbn. lia.
Qed.

Lemma completionRate_nonneg completed total :
  0 <= completed -> (0 <= completionRate completed total)%Q.
Proof.
  intros H. unfold completionRate, float64.
  destruct (Z.ltb_spec 0 total); [now apply ratio_nonneg|]. apply Qle_refl.
Qed.

Lemma completionRate_le_100 completed total :
  completed <= total -> (completionRate completed total <= 100)%Q.
Proof.
  intros H. unfold completionRate, float64.
  destruct (Z.ltb_spec 0 total); [now apply ratio_le_100|]. discriminate.
Qed.

Lemma soundRate_percentage rate completed total :
  soundRate rate completed total ->
  percentage rate /\ (total = 0 -> rate = 0%Q).
Proof.
  intros [-> [H0 H1]]. split; [split|].
  - now apply completionRate_nonneg.
  - now apply completionRate_le_100.
  - intros ->. reflexivity.
Qed.

Lemma efficiencyOf_nonneg created completed :
  0 <= completed -> (0 <= efficiencyOf created completed)%Q.
Proof.
  intros H. unfold efficiencyOf, float64.
  destruct (Z.ltb_spec 0 created); [now apply ratio_nonneg|].
  destruct (0 <? completed); discriminate.
Qed.

Lemma efficiencyOf_le_100 created completed :
  (efficiencyOf created completed <= 100)%Q \/ 0 < created < completed.
Proof.
  unfold efficiencyOf, float64.
  destruct (Z.ltb_spec 0 created).
  - destruct (Z.le_gt_cases completed created); [left; now apply ratio_le_100|right; lia].
  - left. destruct (0 <? completed); discriminate.
Qed.


Lemma monthly_report (c : Context) (w : World) (r : MonthlyReport.t) :
  Response.Data (fst (GetMonthlyReport c w)) = Some (MonthlyData r) ->
  exists month,
    ParseMonth (DefaultQuery c "month" (FormatMonth (clock w (ticks w)))) = inl month
    /\ monthlyOf c w (DefaultQuery c "month" (FormatMonth (clock w (ticks w)))) month r.
Proof.
  pose proof (monthly_run c w) as H. cbv zeta in H. unfold post in H.
  destruct H as [_ H].
  destruct (ParseMonth _) as [month|err].
  - destruct H as (rep & -> & Hrep). cbn. intros E. injection E as <-. now exists month.
  - rewrite H. cbn. discriminate.
Qed.


(** ** The average completion time *)

Lemma non_null_map_some {A B} (f : A -> B) (l : list A) :
  SQL.non_null (map (fun x => Some (f x)) l) = map f l.
Proof. induction l as [|x l IH]; cbn; [reflexivity|now rewrite IH]. Qed.

(** The rows the average is taken over, and the whole hours of each. *)
Lemma average_condition (owner : Z) (t : Task.t) :
  SQL.holds (tasks.user_id t == owner AND tasks.status t == "completed"%string
             AND SQL.is_not_null (tasks.completed_at t))%sql
  = completedBy owner t.
Proof.
  rewrite !holds_and. unfold completedBy, tasks.user_id, tasks.status, tasks.completed_at.
  rewrite !holds_eq. unfold SQL.eqb, SQL.Eqb_Z, SQL.Eqb_string.
  now destruct (Task.CompletedAt t).
Qed.

Lemma average_hours (owner : Z) (t : Task.t) :
  completedBy owner t = true ->
  SQL.TIMESTAMPDIFF_HOUR (tasks.created_at t) (tasks.completed_at t)
  = Some (wholeHoursTaken t).
Proof.
  unfold completedBy, wholeHoursTaken, tasks.created_at, tasks.completed_at.
  destruct (Task.CompletedAt t); [reflexivity|].
  rewrite andb_false_r. discriminate.
Qed.

Lemma average_over_rows (c : Context) (w : World) :
  exists p,
    Response.Data (fst (GetProductivityStats c w)) = Some (ProductivityData p)
    /\ ProductivityStats.avg_completion_time_hours p
       = meanZ (map wholeHoursTaken (filter (completedBy (GetUserID c)) (tasks (store w)))).
Proof.
  destruct (productivity_report c w) as (p & Hp & Hof).
  exists p. rewrite Hp. split; [reflexivity|].
  destruct Hof as (_ & _ & Havg & _). rewrite Havg.
  rewrite (filter_ext _ _ (average_condition (GetUserID c))).
  set (rows := filter (completedBy (GetUserID c)) (tasks (store w))).
  assert (E : map (fun r => SQL.TIMESTAMPDIFF_HOUR (tasks.created_at r) (tasks.completed_at r)) rows
              = map (fun r => Some (wholeHoursTaken r)) rows).
  { apply map_ext_in. intros t Ht. apply filter_In in Ht as [_ Ht].
    now apply (average_hours (GetUserID c)). }
  rewrite E. unfold SQL.AVG. rewrite non_null_map_some.
  unfold meanZ, Scan. now destruct (map wholeHoursTaken rows).
Qed.



Lemma daily_run (c : Context) (w : World) :
  let n := List.length (downTo0 (daysParam c - 1)) in
  post (GetDailyStats c) w (fun r w' =>
    store w' = store w /\
    r = Response.mk StatusOK "success"
          (Some (DailyData
             (withClock (dailyStatsOf (tasks (store w)) (GetUserID c))
                (clock w) (ticks w) (downTo0 (daysParam c - 1)))))
          None (clock w (ticks w + n)%nat)).
Proof.
  cbv zeta. unfold GetDailyStats. cbv zeta. run.
  loop (fun (done : list Z) (acc : list DailyStats.t) w' =>
          after w (List.length done) w'
          /\ acc = withClock (dailyStatsOf (tasks (store w)) (GetUserID c))
                     (clock w) (ticks w) done).
  2:{ split; [apply after_0|reflexivity]. }
  2:{ intros done' i acc w' ((Hst & Hcl & Htk) & ->). run. split.
      - unfold after. cbn [store clock ticks]. rewrite length_app. cbn.
        repeat split; auto; lia.
      - rewrite withClock_app. cbn [withClock]. f_equal.
        unfold dailyStatsOf, countOn. cbv zeta. rewrite Hst, Hcl, Htk. reflexivity. }
  intros l w1 ((Hst & Hcl & Htk) & ->). cbv beta. cbn [app] in *. run.
  split; [exact Hst|]. now rewrite Hcl, Htk.
Qed.

Lemma weekly_run (c : Context) (w : World) :
  let n := List.length (downTo0 (weeksParam c - 1)) in
  post (GetWeeklyStats c) w (fun r w' =>
    store w' = store w /\
    r = Response.mk StatusOK "success"
          (Some (WeeklyData
             (withClock (weeklyStatsOf (tasks (store w)) (GetUserID c))
                (clock w) (ticks w) (downTo0 (weeksParam c - 1)))))
          None (clock w (ticks w + n)%nat)).
Proof.
  cbv zeta. unfold GetWeeklyStats. cbv zeta. run.
  loop (fun (done : list Z) (acc : list WeeklyStats.t) w' =>
          after w (List.length done) w'
          /\ acc = withClock (weeklyStatsOf (tasks (store w)) (GetUserID c))
                     (clock w) (ticks w) done).
  2:{ split; [apply after_0|reflexivity]. }
  2:{ intros done' i acc w' ((Hst & Hcl & Htk) & ->). run. split.
      - unfold after. cbn [store clock ticks]. rewrite length_app. cbn.
        repeat split; auto; lia.
      - rewrite withClock_app. cbn [withClock]. f_equal.
        unfold weeklyStatsOf. cbv zeta. rewrite Hst, Hcl, Htk. reflexivity. }
  intros l w1 ((Hst & Hcl & Htk) & ->). cbv beta. cbn [app] in *. run.
  split; [exact Hst|]. now rewrite Hcl, Htk.
Qed.

Lemma monthly_response (c : Context) (w : World) :
  match ParseMonth (DefaultQuery c "month" (FormatMonth (clock w (ticks w)))) with
  | inr err =>
      fst (GetMonthlyReport c w)
      = Response.mk StatusBadRequest monthFormatMessage None (Some err)
          (clock w (ticks w + 1)%nat)
  | inl month =>
      exists rep,
        fst (GetMonthlyReport c w)
        = Response.mk StatusOK "success" (Some (MonthlyData rep)) None
            (clock w (ticks w + 1)%nat)
  end.
Proof.
  pose proof (monthly_run c w) as H. cbv zeta in H. unfold post in H.
  destruct H as [_ H].
  destruct (ParseMonth _) as [month|err]; [|exact H].
  destruct H as (rep & Hrep & _). now exists rep.
Qed.

Lemma DefaultQuery_given (c : Context) key value def :
  GetQuery (query c) key = Some value -> DefaultQuery c key def = value.
Proof. unfold DefaultQuery. now intros ->. Qed.

(** C6. A [month] parameter that does not parse makes the monthly report
    fail with the client error 400 and no data ("2024-13" and "bad" do not
    parse); the monthly report fails in no other case, falling back to no
    default for a malformed month, and no other report ever fails. *)
Theorem month_is_the_only_input_error :
  (forall c w s err,
     GetQuery (query c) "month" = Some s -> ParseMonth s = inr err ->
     fst (GetMonthlyReport c w)
     = Response.mk StatusBadRequest monthFormatMessage None (Some err)
         (clock w (ticks w + 1)%nat))
  /\ (exists e1 e2, ParseMonth "2024-13" = inr e1 /\ ParseMonth "bad" = inr e2)
  /\ (forall c w,
        let monthStr := DefaultQuery c "month" (FormatMonth (clock w (ticks w))) in
        (Response.Code (fst (GetMonthlyReport c w)) = StatusBadRequest
         /\ Response.Data (fst (GetMonthlyReport c w)) = None
         /\ exists err, ParseMonth monthStr = inr err)
        \/ (Response.Code (fst (GetMonthlyReport c w)) = StatusOK
            /\ exists month, ParseMonth monthStr = inl month))
  /\ (forall c w,
        Response.Code (fst (GetOverview c w)) = StatusOK
        /\ Response.Code (fst (GetDailyStats c w)) = StatusOK
        /\ Response.Code (fst (GetWeeklyStats c w)) = StatusOK
        /\ Response.Code (fst (GetProductivityStats c w)) = StatusOK).
Proof.
  split; [|split; [|split]].
  - intros c w s err Hq Hp.
    pose proof (monthly_response c w) as H.
    rewrite (DefaultQuery_given c _ s _ Hq), Hp in H. exact H.
  - do 2 eexists. split; reflexivity.
  - intros c w. cbv zeta. pose proof (monthly_response c w) as H.
    destruct (ParseMonth _) as [month|err].
    + right. destruct H as (rep & ->). split; [reflexivity|now exists month].
    + left. rewrite H. split; [reflexivity|]. split; [reflexivity|now exists err].
  - intros c w. split; [reflexivity|]. split; [|split].
    + pose proof (daily_run c w) as H. cbv zeta in H. unfold post in H.
      destruct H as [_ ->]. reflexivity.
    + pose proof (weekly_run c w) as H. cbv zeta in H. unfold post in H.
      destruct H as [_ ->]. reflexivity.
    + destruct (productivity_report c w) as (p & -> & _). reflexivity.
Qed.

(** ** Read-only handlers *)

Lemma sameView_refl w : sameView w w.
Proof. split; auto. Qed.

Lemma ReadOnly_ret {A} (a : A) : ReadOnly (ret a).
Proof. split; [reflexivity|]. intros w1 w2 H. split; [reflexivity|exact H]. Qed.

Lemma ReadOnly_bind {A B} (m : M A) (k : A -> M B) :
  ReadOnly m -> (forall a, ReadOnly (k a)) -> ReadOnly (bind m k).
Proof.
  intros [Hm1 Hm2] Hk. split.
  - intros w. unfold bind. specialize (Hm1 w). destruct (m w) as [a w'].
    cbn in Hm1. destruct (Hk a) as [Hk1 _]. now rewrite Hk1.
  - intros w1 w2 Hv. unfold bind. specialize (Hm2 w1 w2 Hv).
    destruct (m w1) as [a1 w1'], (m w2) as [a2 w2']. cbn in Hm2.
    destruct Hm2 as [-> Hv']. destruct (Hk a2) as [_ Hk2]. now apply Hk2.
Qed.

Lemma ReadOnly_Now : ReadOnly Now.
Proof.
  split; [reflexivity|]. intros w1 w2 [Hs Hc]. cbn. split.
  - specialize (Hc 0%nat). now rewrite !Nat.add_0_r in Hc.
  - split; [exact Hs|]. cbn. intros k. specialize (Hc (S k)).
    now rewrite <- !plus_n_Sm in Hc.
Qed.

(** A statement that only selects: its result is a function of the store. *)
Lemma ReadOnly_select {A} (f : Store -> A) (m : M A) :
  (forall w, m w = (f (store w), w)) -> ReadOnly m.
Proof.
  intros Hm. split.
  - intros w. now rewrite Hm.
  - intros w1 w2 Hv. rewrite !Hm. cbn. split; [|exact Hv].
    destruct Hv as [-> _]. reflexivity.
Qed.

Lemma ReadOnly_CountTasks cond : ReadOnly (CountTasks cond).
Proof.
  apply (ReadOnly_select
    (fun st => SQL.COUNT (filter (scoped tasks.deleted_at cond) (tasks st)))).
  reflexivity.
Qed.

Lemma ReadOnly_CountProjects cond : ReadOnly (CountProjects cond).
Proof.
  apply (ReadOnly_select
    (fun st => SQL.COUNT (filter (scoped projects.deleted_at cond) (projects st)))).
  reflexivity.
Qed.

Lemma ReadOnly_CountCategories cond : ReadOnly (CountCategories cond).
Proof.
  apply (ReadOnly_select
    (fun st => SQL.COUNT (filter (scoped categories.deleted_at cond) (categories st)))).
  reflexivity.
Qed.

Lemma ReadOnly_FindProjects cond : ReadOnly (FindProjects cond).
Proof.
  apply (ReadOnly_select (fun st => filter (scoped projects.deleted_at cond) (projects st))).
  reflexivity.
Qed.

Lemma ReadOnly_FindCategories cond : ReadOnly (FindCategories cond).
Proof.
  apply (ReadOnly_select
    (fun st => filter (scoped categories.deleted_at cond) (categories st))).
  reflexivity.
Qed.

Lemma ReadOnly_RawSelectTasks cond : ReadOnly (RawSelectTasks cond).
Proof.
  apply (ReadOnly_select (fun st => filter (fun r => SQL.holds (cond r)) (tasks st))).
  reflexivity.
Qed.

Lemma ReadOnly_SuccessResponse data : ReadOnly (SuccessResponse data).
Proof.
  unfold SuccessResponse. apply ReadOnly_bind; [apply ReadOnly_Now|].
  intros t. apply ReadOnly_ret.
Qed.

Lemma ReadOnly_ErrorResponse code msg err : ReadOnly (ErrorResponse code msg err).
Proof.
  unfold ErrorResponse. apply ReadOnly_bind; [apply ReadOnly_Now|].
  intros t. apply ReadOnly_ret.
Qed.

Lemma ReadOnly_forRange {I S} (body : I -> S -> M S) (l : list I) :
  (forall i s, ReadOnly (body i s)) -> forall s, ReadOnly (forRange l body s).
Proof.
  intros Hbody. induction l as [|i l IH]; intros s; cbn [forRange].
  - apply ReadOnly_ret.
  - apply ReadOnly_bind; [apply Hbody|exact IH].
Qed.

Ltac read_only1 :=
  lazymatch goal with
  | |- ReadOnly (bind _ _) => apply ReadOnly_bind; [|intros ?]
  | |- ReadOnly (forRange _ _ _) => apply ReadOnly_forRange; intros ? ?
  | |- ReadOnly (SuccessResponse _) => apply ReadOnly_SuccessResponse
  | |- ReadOnly (ErrorResponse _ _ _) => apply ReadOnly_ErrorResponse
  | |- ReadOnly (CountTasks _) => apply ReadOnly_CountTasks
  | |- ReadOnly (CountProjects _) => apply ReadOnly_CountProjects
  | |- ReadOnly (CountCategories _) => apply ReadOnly_CountCategories
  | |- ReadOnly (FindProjects _) => apply ReadOnly_FindProjects
  | |- ReadOnly (FindCategories _) => apply ReadOnly_FindCategories
  | |- ReadOnly (RawSelectTasks _) => apply ReadOnly_RawSelectTasks
  | |- ReadOnly Now => apply ReadOnly_Now
  | |- ReadOnly (ret _) => apply ReadOnly_ret
  end.

Ltac read_only := repeat read_only1.

Lemma GetOverview_ReadOnly c : ReadOnly (GetOverview c).
Proof. unfold GetOverview. cbv zeta. read_only. Qed.

Lemma GetDailyStats_ReadOnly c : ReadOnly (GetDailyStats c).
Proof. unfold GetDailyStats. cbv zeta. read_only. Qed.

Lemma GetWeeklyStats_ReadOnly c : ReadOnly (GetWeeklyStats c).
Proof. unfold GetWeeklyStats. cbv zeta. read_only. Qed.

Lemma GetProductivityStats_ReadOnly c : ReadOnly (GetProductivityStats c).
Proof. unfold GetProductivityStats. cbv zeta. read_only. Qed.

Lemma GetMonthlyReport_ReadOnly c : ReadOnly (GetMonthlyReport c).
Proof.
  unfold GetMonthlyReport. cbv zeta. apply ReadOnly_bind; [apply ReadOnly_Now|].
  intros t. destruct (ParseMonth _); read_only.
Qed.


Import GoTime CalendarFacts TimeFacts.

(** ** The labels [Format] writes tell the days apart *)

Lemma string_length_append (s1 s2 : string) :
  String.length (s1 ++ s2) = (String.length s1 + String.length s2)%nat.
Proof. induction s1 as [|c s1 IH]; cbn; [reflexivity|now rewrite IH]. Qed.

Lemma append_inj_suffix (s1 s2 t1 t2 : string) :
  String.length t1 = String.length t2 ->
  (s1 ++ t1 = s2 ++ t2)%string -> s1 = s2 /\ t1 = t2.
Proof.
  revert s2. induction s1 as [|c s1 IH]; intros [|c' s2] Hlen E; cbn in E.
  - auto.
  - exfalso. apply (f_equal String.length) in E. cbn in E.
    rewrite string_length_append in E. lia.
  - exfalso. apply (f_equal String.length) in E. cbn in E.
    rewrite string_length_append in E. lia.
  - injection E as -> E. destruct (IH s2 Hlen E) as [-> ->]. auto.
Qed.

Lemma decodeU_zeros k s : decodeU (zeros k ++ s) = decodeU s.
Proof.
  induction k as [|k IH]; [reflexivity|].
  rewrite <- IH. unfold decodeU. cbn [zeros String.append NilEmpty.uint_of_string].
  now destruct (NilEmpty.uint_of_string (zeros k ++ s)).
Qed.

Lemma decodeU_itoa u : 0 <= u -> decodeU (itoa u) = Some (Z.to_N u).
Proof.
  intros _. unfold decodeU, itoa.
  assert (Hnn : N.to_uint (Z.to_N u) <> Decimal.Nil).
  { destruct (Z.to_N u); cbn; [discriminate|apply DecimalPos.Unsigned.to_uint_nonnil]. }
  assert (E : NilZero.string_of_uint (N.to_uint (Z.to_N u))
              = NilEmpty.string_of_uint (N.to_uint (Z.to_N u))).
  { unfold NilZero.string_of_uint. now destruct (N.to_uint (Z.to_N u)). }
  rewrite E, NilEmpty.usu. cbn. now rewrite DecimalN.Unsigned.of_to.
Qed.

Lemma decodeU_minus s : decodeU (String "-" s) = None.
Proof.
  unfold decodeU. cbn [NilEmpty.uint_of_string].
  now destruct (NilEmpty.uint_of_string s).
Qed.

Lemma appendInt_nonneg x width :
  0 <= x -> appendInt x width = (zeros (width - String.length (itoa x)) ++ itoa x)%string.
Proof.
  intros H. unfold appendInt. destruct (Z.ltb_spec x 0); [lia|].
  now rewrite Z.abs_eq by assumption.
Qed.

Lemma appendInt_neg x width :
  x < 0 ->
  appendInt x width
  = String "-" (zeros (width - String.length (itoa (- x))) ++ itoa (- x))%string.
Proof.
  intros H. unfold appendInt. destruct (Z.ltb_spec x 0); [|lia].
  now rewrite Z.abs_neq by lia.
Qed.

Lemma decodeU_appendInt x width :
  decodeU (appendInt x width) = if x <? 0 then None else Some (Z.to_N x).
Proof.
  destruct (Z.ltb_spec x 0).
  - rewrite appendInt_neg by assumption. apply decodeU_minus.
  - rewrite appendInt_nonneg, decodeU_zeros by assumption. now apply decodeU_itoa.
Qed.

Lemma appendInt_inj x y width : appendInt x width = appendInt y width -> x = y.
Proof.
  intros E. pose proof (f_equal decodeU E) as Ed.
  rewrite !decodeU_appendInt in Ed.
  destruct (Z.ltb_spec x 0), (Z.ltb_spec y 0); try discriminate.
  - rewrite !appendInt_neg in E by assumption. injection E as E.
    apply (f_equal decodeU) in E. rewrite !decodeU_zeros, !decodeU_itoa in E by lia.
    injection E as E. lia.
  - injection Ed as Ed. lia.
Qed.

Lemma two_digits_length :
  allFrom (fun x => Nat.eqb (String.length (appendInt x 2)) 2) 31 1 = true.
Proof. vm_compute. reflexivity. Qed.

Lemma appendInt_2_length x : 1 <= x <= 31 -> String.length (appendInt x 2) = 2%nat.
Proof.
  intros H. apply Nat.eqb_eq.
  apply (allFrom_spec _ _ _ two_digits_length x). cbn. lia.
Qed.

Lemma FormatDate_fields t1 t2 :
  FormatDate t1 = FormatDate t2 ->
  Year t1 = Year t2 /\ Month t1 = Month t2 /\ Day t1 = Day t2.
Proof.
  unfold FormatDate. intros E.
  pose proof (Month_range t1) as M1. pose proof (Month_range t2) as M2.
  pose proof (Day_range t1) as D1. pose proof (Day_range t2) as D2.
  pose proof (daysIn_bounds _ (Year t1) M1). pose proof (daysIn_bounds _ (Year t2) M2).
  apply append_inj_suffix in E.
  2:{ rewrite !string_length_append. rewrite !appendInt_2_length by lia. reflexivity. }
  destruct E as [Ey E]. cbn [String.append] in E. injection E as E.
  apply append_inj_suffix in E.
  2:{ cbn [String.length]. rewrite ?string_length_append.
      rewrite !appendInt_2_length by lia. reflexivity. }
  destruct E as [Em E]. cbn [String.append] in E. injection E as E.
  apply appendInt_inj in Ey, Em, E. auto.
Qed.

(** Two instants have the same label exactly when they fall on the same
    calendar day. *)
Lemma FormatDate_same_day t1 t2 : FormatDate t1 = FormatDate t2 <-> absDay t1 = absDay t2.
Proof.
  split.
  - intros E. apply FormatDate_fields in E as (Ey & Em & Ed).
    rewrite <- (date_of_time t1), <- (date_of_time t2). congruence.
  - intros E. unfold FormatDate, Year, Month, Day. now rewrite E.
Qed.

Lemma absDay_day_start d : absDay ((d - unixEpochDays) * nsPerDay) = d.
Proof. unfold absDay. rewrite Z.div_mul by discriminate. ring. Qed.

Lemma FormatDate_isoDate t : FormatDate t = Spec.isoDate (absDay t).
Proof. apply FormatDate_same_day. unfold Spec.isoDate. now rewrite absDay_day_start. Qed.

Lemma isoDate_inj d1 d2 : Spec.isoDate d1 = Spec.isoDate d2 -> d1 = d2.
Proof.
  unfold Spec.isoDate. intros E. apply FormatDate_same_day in E.
  now rewrite !absDay_day_start in E.
Qed.

Import CalendarFacts TimeFacts.

(** ** The [days] parameter *)

Lemma Atoi_empty : Strconv.Atoi "" = None.
Proof. reflexivity. Qed.

Lemma daysParam_given c s n :
  GetQuery (query c) "days" = Some s -> Strconv.Atoi s = Some n ->
  daysParam c = if (0 <? n) && (n <=? 30) then n else 7.
Proof.
  intros Hq Ha. unfold daysParam, SafeStringConvert, SafeIntConvert.
  rewrite (DefaultQuery_given c _ s _ Hq).
  destruct (String.eqb_spec s "") as [->|Hne]; [discriminate|].
  cbn [negb]. now rewrite Ha.
Qed.

Lemma daysParam_range c : 1 <= daysParam c <= 30.
Proof.
  unfold daysParam, SafeStringConvert, SafeIntConvert.
  destruct (negb _); [|lia].
  destruct (String.eqb _ ""); [cbn; lia|].
  destruct (Strconv.Atoi _) as [n|]; [|lia].
  destruct (Z.ltb_spec 0 n), (Z.leb_spec n 30); cbn; lia.
Qed.

Lemma daysParam_default c :
  (forall s n, GetQuery (query c) "days" = Some s -> Strconv.Atoi s = Some n ->
               ~ 1 <= n <= 30) ->
  daysParam c = 7.
Proof.
  intros H. unfold daysParam, SafeStringConvert, SafeIntConvert, DefaultQuery.
  destruct (GetQuery (query c) "days") as [s|] eqn:Hq; [|reflexivity].
  destruct (String.eqb_spec s "") as [->|Hne]; [reflexivity|]. cbn [negb].
  destruct (Strconv.Atoi s) as [n|] eqn:Ha; [|reflexivity].
  specialize (H s n eq_refl Ha).
  destruct (Z.ltb_spec 0 n), (Z.leb_spec n 30); cbn; lia.
Qed.

(** ** The entries of the daily report *)

Lemma dailyStatsOf_Date rows owner now i :
  DailyStats.Date (dailyStatsOf rows owner now i) = isoDate (absDay now - i).
Proof.
  unfold dailyStatsOf. cbn [DailyStats.Date].
  rewrite FormatDate_isoDate, AddDate_days, absDay_add_days. reflexivity.
Qed.

Lemma daily_entries (c : Context) (w : World) (today : Z) :
  (forall k, (ticks w <= k < ticks w + Z.to_nat (daysParam c))%nat ->
             absDay (clock w k) = today) ->
  exists l,
    fst (GetDailyStats c w)
    = Response.mk StatusOK "success" (Some (DailyData l)) None
        (clock w (ticks w + Z.to_nat (daysParam c))%nat)
    /\ dailyLabels today (daysParam c) l.
Proof.
  intros Hday. pose proof (daysParam_range c) as Hr.
  pose proof (daily_run c w) as H. cbv zeta in H. unfold post in H. destruct H as [_ H].
  rewrite downTo0_length in H by lia.
  eexists. split; [exact H|].
  set (N := daysParam c) in *.
  assert (Hnth : forall k, (k < Z.to_nat N)%nat ->
            nth_error (map DailyStats.Date
              (withClock (dailyStatsOf (tasks (store w)) (GetUserID c)) (clock w) (ticks w)
                 (downTo0 (N - 1)))) k
            = Some (isoDate (today - (N - 1 - Z.of_nat k)))).
  { intros k Hk. rewrite nth_error_map, withClock_nth_error, downTo0_nth_error by exact Hk.
    cbn [option_map]. rewrite dailyStatsOf_Date, Hday by lia. reflexivity. }
  split; [|split].
  - rewrite withClock_length. apply downTo0_length. lia.
  - exact Hnth.
  - apply NoDup_nth_error. intros i j Hi E.
    rewrite length_map, withClock_length, downTo0_length in Hi by lia.
    rewrite (Hnth i Hi) in E.
    destruct (Nat.ltb_spec j (Z.to_nat N)) as [Hj|Hj].
    + rewrite (Hnth j Hj) in E. injection E as E. apply isoDate_inj in E. lia.
    + exfalso. symmetry in E.
      assert (Hsome : nth_error (map DailyStats.Date
                (withClock (dailyStatsOf (tasks (store w)) (GetUserID c)) (clock w) (ticks w)
                   (downTo0 (N - 1)))) j <> None) by congruence.
      apply nth_error_Some in Hsome.
      rewrite length_map, withClock_length, downTo0_length in Hsome by lia. lia.
Qed.


(** ** The [weeks] parameter *)

Lemma weeksParam_given c s n :
  GetQuery (query c) "weeks" = Some s -> Strconv.Atoi s = Some n ->
  weeksParam c = if (0 <? n) && (n <=? 12) then n else 4.
Proof.
  intros Hq Ha. unfold weeksParam, SafeStringConvert, SafeIntConvert.
  rewrite (DefaultQuery_given c _ s _ Hq).
  destruct (String.eqb_spec s "") as [->|Hne]; [discriminate|].
  cbn [negb]. now rewrite Ha.
Qed.

Lemma weeksParam_range c : 1 <= weeksParam c <= 12.
Proof.
  unfold weeksParam, SafeStringConvert, SafeIntConvert.
  destruct (negb _); [|lia].
  destruct (String.eqb _ ""); [cbn; lia|].
  destruct (Strconv.Atoi _) as [n|]; [|lia].
  destruct (Z.ltb_spec 0 n), (Z.leb_spec n 12); cbn; lia.
Qed.

(** ** The weekly windows *)

Lemma weekStartOf_eq now i :
  weekStartOf now i = now - (Weekday now - 1 + 7 * i) * nsPerDay.
Proof. unfold weekStartOf. rewrite AddDate_days. ring. Qed.

Lemma weekEndOf_eq ws : weekEndOf ws = ws + 6 * nsPerDay.
Proof. unfold weekEndOf. apply AddDate_days. Qed.

Lemma weekStartOf_Monday now i : Weekday (weekStartOf now i) = Monday.
Proof.
  unfold weekStartOf. rewrite AddDate_days, Weekday_add_days.
  pose proof (Weekday_range now).
  replace (Weekday now + (- Weekday now + 1 - i * 7)) with (1 + (- i) * 7) by ring.
  now rewrite Z.mod_add by discriminate.
Qed.

Lemma weekEndOf_Sunday now i : Weekday (weekEndOf (weekStartOf now i)) = Sunday.
Proof.
  unfold weekEndOf. rewrite AddDate_days, Weekday_add_days, weekStartOf_Monday.
  reflexivity.
Qed.

(** An earlier window, read at an earlier time, ends before a later one
    starts. *)
Lemma week_windows_apart now1 now2 i1 i2 :
  now1 <= now2 -> i2 < i1 ->
  weekEndOf (weekStartOf now1 i1) < weekStartOf now2 i2.
Proof.
  intros Hn Hi. rewrite weekEndOf_eq, !weekStartOf_eq.
  unfold Weekday, absDay, Monday, unixEpochDays, nsPerDay, secondsPerDay, Second.
  change (86400 * 1000000000) with 86400000000000.
  Z.div_mod_to_equations. lia.
Qed.

Lemma weekly_entries (c : Context) (w : World) :
  exists l,
    fst (GetWeeklyStats c w)
    = Response.mk StatusOK "success" (Some (WeeklyData l)) None
        (clock w (ticks w + Z.to_nat (weeksParam c))%nat)
    /\ List.length l = Z.to_nat (weeksParam c)
    /\ forall k, (k < Z.to_nat (weeksParam c))%nat ->
         nth_error l k
         = Some (weeklyStatsOf (tasks (store w)) (GetUserID c)
                   (clock w (ticks w + k)%nat) (weeksParam c - 1 - Z.of_nat k)).
Proof.
  pose proof (weeksParam_range c) as Hr.
  pose proof (weekly_run c w) as H. cbv zeta in H. unfold post in H. destruct H as [_ H].
  rewrite downTo0_length in H by lia.
  eexists. split; [exact H|]. split.
  - rewrite withClock_length. apply downTo0_length. lia.
  - intros k Hk. now rewrite withClock_nth_error, downTo0_nth_error by exact Hk.
Qed.


(** ** The window of a month *)

Lemma year_length :
  allFrom (fun y => daysSinceEpoch (y + 1)
                    =? daysSinceEpoch y + (if isLeap y then 366 else 365)) 400 1 = true.
Proof. vm_compute. reflexivity. Qed.

Lemma daysSinceEpoch_next y :
  daysSinceEpoch (y + 1) = daysSinceEpoch y + (if isLeap y then 366 else 365).
Proof.
  pose proof (Z.div_mod (y - 1) 400 ltac:(discriminate)) as E.
  pose proof (Z.mod_pos_bound (y - 1) 400 eq_refl) as B.
  set (q := (y - 1) / 400) in *. set (r := (y - 1) mod 400) in *.
  assert (Hy : y = (r + 1) + 400 * q) by lia.
  clearbody q r. clear E. subst y.
  replace (r + 1 + 400 * q + 1) with (r + 1 + 1 + 400 * q) by ring.
  rewrite !daysSinceEpoch_shift, isLeap_shift.
  pose proof (allFrom_spec _ _ _ year_length (r + 1) ltac:(lia)) as C.
  cbv beta in C. apply Z.eqb_eq in C. lia.
Qed.

(** Evaluate the table lookups and the comparisons of month numbers. *)
Ltac days_before :=
  repeat match goal with
  | |- context [daysBefore ?k] =>
      let v := eval vm_compute in (daysBefore k) in change (daysBefore k) with v
  | |- context [?a <=? ?b] =>
      let v := eval vm_compute in (a <=? b) in change (a <=? b) with v
  | |- context [?a =? ?b] =>
      let v := eval vm_compute in (a =? b) in change (a =? b) with v
  | |- context [?a mod 12 + 1] =>
      let v := eval vm_compute in (a mod 12 + 1) in change (a mod 12 + 1) with v
  end.

(** The first day of the month after [m] comes [daysIn m y] days after the
    first day of [m]. *)
Lemma next_month_days y m :
  1 <= m <= 12 ->
  absDays (y + m / 12) (m mod 12 + 1) 1 = absDays y m 1 + daysIn m y.
Proof.
  intros Hm. unfold absDays, daysIn. cbv zeta.
  destruct (month_cases m Hm) as [->|[->|[->|[->|[->|[->|[->|[->|[->|[->|[->| ->]]]]]]]]]]].
  12:{ change (12 / 12) with 1. change (12 mod 12 + 1) with 1.
       rewrite daysSinceEpoch_next.
       destruct (isLeap y), (isLeap (y + 1)); days_before; cbn [andb]; lia. }
  all: match goal with
       | |- context [?a / 12] => change (a / 12) with 0
       end; replace (y + 0) with y by ring;
       destruct (isLeap y); days_before; cbn [andb]; lia.
Qed.

(** [Date] at midnight, whatever the month number. *)
Lemma Date_midnight y m d :
  Date y m d 0 0 0 0
  = (absDays (y + (m - 1) / 12) ((m - 1) mod 12 + 1) d - unixEpochDays) * nsPerDay.
Proof.
  unfold Date, norm. cbv beta iota zeta.
  change (0 / 1000000000) with 0. change (0 mod 1000000000) with 0.
  change (0 + 0) with 0. change (0 / 60) with 0. change (0 mod 60) with 0.
  change (0 + 0) with 0. change (0 / 24) with 0. change (0 mod 24) with 0.
  rewrite !Z.add_0_r.
  unfold nsPerDay, secondsPerDay, secondsPerHour, secondsPerMinute, Second. ring.
Qed.

Lemma clock_at_midnight d :
  let t := d * nsPerDay in
  ClockHour t = 0 /\ ClockMin t = 0 /\ ClockSec t = 0 /\ Nanos t = 0.
Proof.
  cbv zeta.
  unfold ClockHour, ClockMin, ClockSec, Nanos, daySeconds,
    secondsPerHour, secondsPerMinute, nsPerDay, secondsPerDay, Second.
  change (86400 * 1000000000) with 86400000000000.
  Z.div_mod_to_equations. lia.
Qed.

Lemma monthStartOf_eq month :
  monthStartOf month
  = (absDays (Year month) (Month month) 1 - unixEpochDays) * nsPerDay.
Proof.
  unfold monthStartOf. pose proof (Month_range month).
  rewrite Date_midnight, Z.div_small, Z.mod_small, Z.add_0_r by lia.
  now replace (Month month - 1 + 1) with (Month month) by ring.
Qed.

Lemma monthStartOf_fields month :
  Year (monthStartOf month) = Year month
  /\ Month (monthStartOf month) = Month month
  /\ Day (monthStartOf month) = 1.
Proof.
  pose proof (Month_range month) as Hm.
  pose proof (daysIn_bounds _ (Year month) Hm).
  apply fields_of_day; [assumption|lia|].
  now rewrite monthStartOf_eq, absDay_day_start.
Qed.

(** The end of the window: one second before the first instant of the next
    month. *)
Lemma monthEndOf_eq month :
  monthEndOf month
  = (absDays (Year month) (Month month) 1 + daysIn (Month month) (Year month)
     - unixEpochDays) * nsPerDay - Second.
Proof.
  unfold monthEndOf, Add, AddDate.
  destruct (monthStartOf_fields month) as (-> & -> & ->).
  pose proof (Month_range month) as Hm.
  rewrite monthStartOf_eq.
  destruct (clock_at_midnight (absDays (Year month) (Month month) 1 - unixEpochDays))
    as (-> & -> & -> & ->).
  rewrite Date_midnight. change (1 + 0) with 1. rewrite Z.add_0_r.
  replace (Month month + 1 - 1) with (Month month) by ring.
  rewrite next_month_days by assumption. ring.
Qed.

Lemma last_second_day month t :
  monthEndOf month <= t < monthEndOf month + Second ->
  absDay t
  = absDays (Year month) (Month month) (daysIn (Month month) (Year month)).
Proof.
  intros Ht. rewrite monthEndOf_eq in Ht.
  replace (daysIn (Month month) (Year month))
    with (1 + (daysIn (Month month) (Year month) - 1)) by ring.
  rewrite absDays_add_day.
  unfold absDay. revert Ht. unfold nsPerDay, secondsPerDay, Second, unixEpochDays.
  change (86400 * 1000000000) with 86400000000000.
  generalize (absDays (Year month) (Month month) 1)
             (daysIn (Month month) (Year month)).
  intros a b Ht. Z.div_mod_to_equations. lia.
Qed.

(** The whole last second of the month belongs to the month. *)
Lemma last_second_fields month t :
  monthEndOf month <= t < monthEndOf month + Second ->
  Year t = Year month /\ Month t = Month month
  /\ Day t = daysIn (Month month) (Year month).
Proof.
  intros Ht. pose proof (Month_range month) as Hm.
  pose proof (daysIn_bounds _ (Year month) Hm).
  apply fields_of_day; [assumption|lia|]. now apply last_second_day.
Qed.

(** The month has as many days as the calendar gives it. *)
Lemma monthEndOf_Day month : Day (monthEndOf month) = daysIn (Month month) (Year month).
Proof.
  apply (last_second_fields month (monthEndOf month)). unfold Second. lia.
Qed.

Lemma ParseMonth_fields s month :
  ParseMonth s = inl month ->
  exists y m, 0 <= y <= 9999 /\ 1 <= m <= 12
              /\ month = Date y m 1 0 0 0 0 /\ Year month = y /\ Month month = m.
Proof.
  unfold ParseMonth.
  destruct s as [|y1 [|y2 [|y3 [|y4 rest]]]]; try discriminate.
  destruct (isDigit y1 && isDigit y2 && isDigit y3 && isDigit y4) eqn:Hy; [|discriminate].
  destruct rest as [|dash [|m1 [|m2 rest]]]; try discriminate;
    try (destruct dash as [[] [] [] [] [] [] [] []]; discriminate).
  destruct (Ascii.eqb_spec dash "-") as [->|Hd].
  2:{ destruct dash as [[] [] [] [] [] [] [] []]; try discriminate. now elim Hd. }
  destruct (isDigit m1 && isDigit m2) eqn:Hm; [|discriminate].
  destruct ((digitVal m1 * 10 + digitVal m2 <=? 0) || (12 <? digitVal m1 * 10 + digitVal m2))
    eqn:Hr; [discriminate|].
  destruct rest; [|discriminate].
  intros E. injection E as <-.
  apply orb_false_iff in Hr as [Hr1 Hr2].
  apply Z.leb_gt in Hr1. apply Z.ltb_ge in Hr2.
  rewrite !andb_true_iff in Hy. destruct Hy as [[[H1 H2] H3] H4].
  assert (Hdig : forall ch, isDigit ch = true -> 0 <= digitVal ch <= 9).
  { intros ch H. unfold isDigit in H. unfold digitVal.
    apply andb_true_iff in H as [Ha Hb]. lia. }
  pose proof (Hdig _ H1). pose proof (Hdig _ H2). pose proof (Hdig _ H3). pose proof (Hdig _ H4).
  set (y := ((digitVal y1 * 10 + digitVal y2) * 10 + digitVal y3) * 10 + digitVal y4) in *.
  set (m := digitVal m1 * 10 + digitVal m2) in *.
  exists y, m. split; [lia|]. split; [lia|]. split; [reflexivity|].
  assert (Hf : Year (Date y m 1 0 0 0 0) = y /\ Month (Date y m 1 0 0 0 0) = m
               /\ Day (Date y m 1 0 0 0 0) = 1).
  { pose proof (daysIn_bounds m y ltac:(lia)).
    apply fields_of_day; [lia|lia|]. apply absDay_Date; lia. }
  destruct Hf as (Hf1 & Hf2 & _). auto.
Qed.

Lemma upTo_length lo hi : List.length (upTo lo hi) = Z.to_nat (hi - lo + 1).
Proof. unfold upTo. now rewrite length_map, length_seq. Qed.

Lemma monthly_given (c : Context) (w : World) (s : string) (month : Time) :
  GetQuery (query c) "month" = Some s -> ParseMonth s = inl month ->
  exists r,
    Response.Data (fst (GetMonthlyReport c w)) = Some (MonthlyData r)
    /\ monthlyOf c w s month r.
Proof.
  intros Hq Hp. pose proof (monthly_run c w) as H. cbv zeta in H. unfold post in H.
  destruct H as [_ H]. rewrite (DefaultQuery_given c _ s _ Hq), Hp in H.
  destruct H as (r & -> & Hr). now exists r.
Qed.

(** The trend of the monthly report has one entry per calendar day of the
    month, numbered from 1: 29 for "2024-02", 28 for "2023-02". *)
Theorem monthly_trend_days :
  (forall c w s month,
     GetQuery (query c) "month" = Some s -> ParseMonth s = inl month ->
     exists r,
       Response.Data (fst (GetMonthlyReport c w)) = Some (MonthlyData r)
       /\ map DailyTrend.Day (MonthlyReport.daily_trends r)
          = upTo 1 (daysIn (Month month) (Year month))
       /\ List.length (MonthlyReport.daily_trends r)
          = Z.to_nat (daysIn (Month month) (Year month)))
  /\ (forall c w, GetQuery (query c) "month" = Some "2024-02"%string ->
        exists r,
          Response.Data (fst (GetMonthlyReport c w)) = Some (MonthlyData r)
          /\ List.length (MonthlyReport.daily_trends r) = 29%nat)
  /\ (forall c w, GetQuery (query c) "month" = Some "2023-02"%string ->
        exists r,
          Response.Data (fst (GetMonthlyReport c w)) = Some (MonthlyData r)
          /\ List.length (MonthlyReport.daily_trends r) = 28%nat).
Proof.
  assert (G : forall c w s month,
     GetQuery (query c) "month" = Some s -> ParseMonth s = inl month ->
     exists r,
       Response.Data (fst (GetMonthlyReport c w)) = Some (MonthlyData r)
       /\ map DailyTrend.Day (MonthlyReport.daily_trends r)
          = upTo 1 (daysIn (Month month) (Year month))
       /\ List.length (MonthlyReport.daily_trends r)
          = Z.to_nat (daysIn (Month month) (Year month))).
  { intros c w s month Hq Hp.
    destruct (monthly_given c w s month Hq Hp) as (r & Hr & Hof).
    exists r. split; [exact Hr|].
    destruct Hof as (_ & _ & _ & _ & Htrend & _).
    rewrite Htrend, monthEndOf_Day. split.
    - rewrite map_map. cbn [dailyTrendOf DailyTrend.Day]. apply map_id.
    - rewrite length_map, upTo_length. f_equal. ring. }
  split; [exact G|]. split.
  - intros c w Hq.
    destruct (G c w "2024-02"%string _ Hq eq_refl) as (r & Hr & _ & Hlen).
    exists r. split; [exact Hr|]. rewrite Hlen. vm_compute. reflexivity.
  - intros c w Hq.
    destruct (G c w "2023-02"%string _ Hq eq_refl) as (r & Hr & _ & Hlen).
    exists r. split; [exact Hr|]. rewrite Hlen. vm_compute. reflexivity.
Qed.

(** The condition of the window counts selects the rows in the closed
    range. *)
Lemma between_condition (owner : Z) (from to : Time) (t : Task.t) :
  scoped tasks.deleted_at
    (fun r => tasks.user_id r == owner AND tasks.created_at r >= from
              AND tasks.created_at r <= to)%sql t
  = (Task.UserID t =? owner) && liveTask t
    && (from <=? Task.CreatedAt t) && (Task.CreatedAt t <=? to).
Proof.
  rewrite scoped_tasks, !holds_and. unfold liveTask, tasks.user_id, tasks.created_at.
  rewrite holds_eq. unfold SQL.eqb, SQL.Eqb_Z, SQL.ge, SQL.le. cbn [option_map].
  destruct (Task.UserID t =? owner), (Task.DeletedAt t),
    (from <=? Task.CreatedAt t), (Task.CreatedAt t <=? to); reflexivity.
Qed.

(** C3, at the failing input. A task created on 2024-02-29 at
    23:59:59.5 lies in February 2024, and the report of "2024-02" counts
    it neither in the month nor in any of its 29 days: the window ends at
    23:59:59 sharp, one second before March, for every month. *)
Theorem month_window_misses_last_second :
  let c := Examples.request [("month", "2024-02")]%string in
  let w := Examples.worldAt Examples.lastSecond (Examples.at_ 2024 3 3 10 0 0) in
  (exists t r,
     tasks (store w) = [t]
     /\ Year (Task.CreatedAt t) = 2024 /\ Month (Task.CreatedAt t) = 2
     /\ Response.Data (fst (GetMonthlyReport c w)) = Some (MonthlyData r)
     /\ MonthlyReport.summary_tasks_created r = 0
     /\ List.length (MonthlyReport.daily_trends r) = 29%nat
     /\ Forall (fun d => DailyTrend.Created d = 0) (MonthlyReport.daily_trends r))
  /\ (forall month t,
        monthEndOf month < t < monthEndOf month + Second ->
        (Year t = Year month /\ Month t = Month month)
        /\ (monthStartOf month <=? t) && (t <=? monthEndOf month) = false).
Proof.
  cbv zeta. split.
  - do 2 eexists.
    split; [reflexivity|].
    split; [vm_compute; reflexivity|].
    split; [vm_compute; reflexivity|].
    split; [vm_compute; reflexivity|].
    split; [vm_compute; reflexivity|].
    split; [vm_compute; reflexivity|].
    vm_compute. repeat constructor.
  - intros month t Ht. split.
    + destruct (last_second_fields month t) as (Hy & Hm & _); [lia|auto].
    + apply andb_false_iff. right. apply Z.leb_gt. lia.
Qed.

(** * The theorems at sample inputs *)

Lemma overview_status_partition_witness :
  exists o,
    Response.Data (fst (GetOverview (Examples.request []) Examples.busyWorld))
      = Some (OverviewData o)
    /\ StatsOverview.PendingTasks o + StatsOverview.InProgressTasks o
       + StatsOverview.CompletedTasks o = StatsOverview.TotalTasks o.
Proof.
  apply (overview_status_partition (Examples.request []) Examples.busyWorld).
  intros t Hin _ _. cbn in Hin.
  destruct Hin as [<-|[<-|[<-|[]]]]; reflexivity.
Defined.





(** * Further facts about the handlers *)


(** The statements of two consecutive weekly windows share one instant:
    the closed range of a window ends, 24 hours after its Sunday, where
    the range of the next window starts, and a task created at that
    instant is counted in both weeks. On a Sunday the most recent window
    starts on the next day. *)
Theorem weekly_ranges_touch :
  (forall now i,
     Add (weekEndOf (weekStartOf now (i + 1))) (24 * Hour) = weekStartOf now i)
  /\ (forall now, Weekday now = Sunday -> weekStartOf now 0 = now + nsPerDay)
  /\ exists l,
       Response.Data
         (fst (GetWeeklyStats (Examples.request [("weeks", "2")]%string)
                 Examples.boundaryWorld))
         = Some (WeeklyData l)
       /\ List.length (tasks (store Examples.boundaryWorld)) = 1%nat
       /\ map WeeklyStats.TasksCreated l = [1; 1].
Proof.
  split; [|split].
  - intros now i. unfold Add. rewrite weekEndOf_eq, !weekStartOf_eq.
    unfold nsPerDay, secondsPerDay, Hour, Minute, Second. ring.
  - intros now H. rewrite weekStartOf_eq, H. unfold Sunday. ring.
  - eexists. split; [vm_compute; reflexivity|].
    split; vm_compute; reflexivity.
Qed.

(** A handler that saves a row is not read-only: the notion is not an
    empty one. *)
Lemma SaveTask_writes :
  exists t w, store (snd (SaveTask t w)) <> store w.
Proof.
  exists (Examples.task 1 "pending" None None 0), Examples.busyWorld.
  vm_compute. discriminate.
Qed.

Import CalendarFacts TimeFacts Report.

(** * The reports see the rows of their owner only *)

Lemma filter_filter_sub {A} (p q : A -> bool) (l : list A) :
  (forall r, p r = true -> q r = true) -> filter p l = filter p (filter q l).
Proof.
  intros H. induction l as [|r l IH]; [reflexivity|]. cbn [filter].
  destruct (p r) eqn:Hp.
  - rewrite (H r Hp). cbn [filter]. rewrite Hp. now f_equal.
  - destruct (q r); [cbn [filter]; rewrite Hp|]; exact IH.
Qed.

Lemma Isolated_ret {A} owner (a : A) : Isolated owner (ret a).
Proof. intros w1 w2 H. split; [reflexivity|exact H]. Qed.

Lemma Isolated_bind {A B} owner (m : M A) (k : A -> M B) :
  Isolated owner m -> (forall a, Isolated owner (k a)) -> Isolated owner (bind m k).
Proof.
  intros Hm Hk w1 w2 Hv. unfold bind. specialize (Hm w1 w2 Hv).
  destruct (m w1) as [a1 w1'], (m w2) as [a2 w2']. cbn in Hm.
  destruct Hm as [-> Hv']. now apply Hk.
Qed.

Lemma Isolated_Now owner : Isolated owner Now.
Proof.
  intros w1 w2 (Ht & Hp & Hk & Hc). cbn. split.
  - specialize (Hc 0%nat). now rewrite !Nat.add_0_r in Hc.
  - repeat split; try assumption. cbn. intros k. specialize (Hc (S k)).
    now rewrite <- !plus_n_Sm in Hc.
Qed.

Lemma Isolated_forRange {I S} owner (body : I -> S -> M S) (l : list I) :
  (forall i s, Isolated owner (body i s)) -> forall s, Isolated owner (forRange l body s).
Proof.
  intros Hbody. induction l as [|i l IH]; intros s; cbn [forRange].
  - apply Isolated_ret.
  - apply Isolated_bind; [apply Hbody|exact IH].
Qed.

Lemma Isolated_SuccessResponse owner data : Isolated owner (SuccessResponse data).
Proof.
  unfold SuccessResponse. apply Isolated_bind; [apply Isolated_Now|].
  intros t. apply Isolated_ret.
Qed.

Lemma Isolated_ErrorResponse owner code msg err :
  Isolated owner (ErrorResponse code msg err).
Proof.
  unfold ErrorResponse. apply Isolated_bind; [apply Isolated_Now|].
  intros t. apply Isolated_ret.
Qed.

(** A selecting statement whose condition holds of rows of the owner
    only. *)
Lemma Isolated_tasks {A} owner (sel : Task.t -> bool) (f : list Task.t -> A) (m : M A) :
  (forall w, m w = (f (filter sel (tasks (store w))), w)) ->
  (forall r, sel r = true -> Task.UserID r = owner) ->
  Isolated owner m.
Proof.
  intros Hm Hsel w1 w2 Hv. rewrite !Hm. cbn. split; [|exact Hv].
  destruct Hv as (Ht & _). unfold ownTasks in Ht.
  rewrite (filter_filter_sub sel (fun t => Task.UserID t =? owner) (tasks (store w1))),
          (filter_filter_sub sel (fun t => Task.UserID t =? owner) (tasks (store w2))).
  - now rewrite Ht.
  - intros r Hr. apply Z.eqb_eq. now apply Hsel.
  - intros r Hr. apply Z.eqb_eq. now apply Hsel.
Qed.

Lemma Isolated_projects {A} owner (sel : Project.t -> bool) (f : list Project.t -> A)
    (m : M A) :
  (forall w, m w = (f (filter sel (projects (store w))), w)) ->
  (forall r, sel r = true -> Project.UserID r = owner) ->
  Isolated owner m.
Proof.
  intros Hm Hsel w1 w2 Hv. rewrite !Hm. cbn. split; [|exact Hv].
  destruct Hv as (_ & Hp & _). unfold ownProjects in Hp.
  rewrite (filter_filter_sub sel (fun t => Project.UserID t =? owner) (projects (store w1))),
          (filter_filter_sub sel (fun t => Project.UserID t =? owner) (projects (store w2))).
  - now rewrite Hp.
  - intros r Hr. apply Z.eqb_eq. now apply Hsel.
  - intros r Hr. apply Z.eqb_eq. now apply Hsel.
Qed.

Lemma Isolated_categories {A} owner (sel : Category.t -> bool) (f : list Category.t -> A)
    (m : M A) :
  (forall w, m w = (f (filter sel (categories (store w))), w)) ->
  (forall r, sel r = true -> Category.UserID r = owner) ->
  Isolated owner m.
Proof.
  intros Hm Hsel w1 w2 Hv. rewrite !Hm. cbn. split; [|exact Hv].
  destruct Hv as (_ & _ & Hk & _). unfold ownCategories in Hk.
  rewrite (filter_filter_sub sel (fun t => Category.UserID t =? owner)
             (categories (store w1))),
          (filter_filter_sub sel (fun t => Category.UserID t =? owner)
             (categories (store w2))).
  - now rewrite Hk.
  - intros r Hr. apply Z.eqb_eq. now apply Hsel.
  - intros r Hr. apply Z.eqb_eq. now apply Hsel.
Qed.

(** The condition of the goal holds of rows of the owner only: one of its
    conjuncts is [user_id = ?]. *)
Ltac own_cond :=
  let r := fresh "r" in
  let H := fresh "H" in
  intros r H; unfold scoped in H; rewrite ?holds_and in H;
  repeat match goal with
  | Hx : _ && _ = true |- _ => apply andb_prop in Hx; destruct Hx
  end;
  match goal with
  | Hx : SQL.holds (SQL.eq (tasks.user_id _) _) = true |- _ =>
      unfold tasks.user_id in Hx; rewrite holds_eq in Hx;
      apply Z.eqb_eq in Hx; exact Hx
  | Hx : SQL.holds (SQL.eq (projects.user_id _) _) = true |- _ =>
      unfold projects.user_id in Hx; rewrite holds_eq in Hx;
      apply Z.eqb_eq in Hx; exact Hx
  | Hx : SQL.holds (SQL.eq (categories.user_id _) _) = true |- _ =>
      unfold categories.user_id in Hx; rewrite holds_eq in Hx;
      apply Z.eqb_eq in Hx; exact Hx
  end.

Ltac isolated1 :=
  lazymatch goal with
  | |- Isolated _ (bind _ _) => apply Isolated_bind; [|intros ?]
  | |- Isolated _ (forRange _ _ _) => apply Isolated_forRange; intros ? ?
  | |- Isolated _ (SuccessResponse _) => apply Isolated_SuccessResponse
  | |- Isolated _ (ErrorResponse _ _ _) => apply Isolated_ErrorResponse
  | |- Isolated ?o (CountTasks ?cond) =>
      apply (Isolated_tasks o (scoped tasks.deleted_at cond) (@SQL.COUNT Task.t));
      [reflexivity|own_cond]
  | |- Isolated ?o (RawSelectTasks ?cond) =>
      apply (Isolated_tasks o (fun r => SQL.holds (cond r)) (fun l => l));
      [reflexivity|own_cond]
  | |- Isolated ?o (CountProjects ?cond) =>
      apply (Isolated_projects o (scoped projects.deleted_at cond) (@SQL.COUNT Project.t));
      [reflexivity|own_cond]
  | |- Isolated ?o (FindProjects ?cond) =>
      apply (Isolated_projects o (scoped projects.deleted_at cond) (fun l => l));
      [reflexivity|own_cond]
  | |- Isolated ?o (CountCategories ?cond) =>
      apply (Isolated_categories o (scoped categories.deleted_at cond)
               (@SQL.COUNT Category.t));
      [reflexivity|own_cond]
  | |- Isolated ?o (FindCategories ?cond) =>
      apply (Isolated_categories o (scoped categories.deleted_at cond) (fun l => l));
      [reflexivity|own_cond]
  | |- Isolated _ Now => apply Isolated_Now
  | |- Isolated _ (ret _) => apply Isolated_ret
  end.

Ltac isolated := repeat isolated1.

Lemma GetOverview_Isolated c : Isolated (GetUserID c) (GetOverview c).
Proof. unfold GetOverview. cbv zeta. isolated. Qed.

Lemma GetDailyStats_Isolated c : Isolated (GetUserID c) (GetDailyStats c).
Proof. unfold GetDailyStats. cbv zeta. isolated. Qed.

Lemma GetWeeklyStats_Isolated c : Isolated (GetUserID c) (GetWeeklyStats c).
Proof. unfold GetWeeklyStats. cbv zeta. isolated. Qed.

Lemma GetProductivityStats_Isolated c : Isolated (GetUserID c) (GetProductivityStats c).
Proof. unfold GetProductivityStats. cbv zeta. isolated. Qed.

Lemma GetMonthlyReport_Isolated c : Isolated (GetUserID c) (GetMonthlyReport c).
Proof.
  unfold GetMonthlyReport. cbv zeta. apply Isolated_bind; [apply Isolated_Now|].
  intros t. destruct (ParseMonth _); isolated.
Qed.

(** Every report is a function of the rows of its caller: two stores
    that hold the same tasks, projects and categories of the caller, in
    the same order, give the same reply whatever rows of other users they
    hold. *)
Theorem reports_see_own_rows_only (c : Context) (w1 w2 : World) :
  ownView (GetUserID c) w1 w2 ->
  forall handler,
    In handler [GetOverview; GetDailyStats; GetWeeklyStats;
                GetProductivityStats; GetMonthlyReport] ->
    fst (handler c w1) = fst (handler c w2).
Proof.
  intros Hv handler Hin.
  assert (H : Isolated (GetUserID c) (handler c)).
  { cbn in Hin.
    destruct Hin as [<-|[<-|[<-|[<-|[<-|[]]]]]];
      auto using GetOverview_Isolated, GetDailyStats_Isolated, GetWeeklyStats_Isolated,
        GetProductivityStats_Isolated, GetMonthlyReport_Isolated. }
  now destruct (H w1 w2 Hv).
Qed.

(** * The productivity report, field by field *)

Lemma productivity_fields (c : Context) (w : World) :
  let uid := GetUserID c in
  let rows := tasks (store w) in
  exists p,
    fst (GetProductivityStats c w)
    = Response.mk StatusOK "success" (Some (ProductivityData p)) None
        (clock w (ticks w + 8)%nat)
    /\ ProductivityStats.priority_completion_rates p
       = map (fun pr => (pr, priorityRateOf rows uid pr))
           ["low"; "medium"; "high"; "urgent"]%string
    /\ ProductivityStats.recent_productivity p
       = withClock (productivityDayOf rows uid) (clock w) (ticks w) (downTo0 6)
    /\ ProductivityStats.category_efficiency p
       = map (categoryEfficiencyOf rows uid)
           (filter (scoped categories.deleted_at
                      (fun r => categories.user_id r == uid)%sql)
              (categories (store w)))
    /\ (ProductivityStats.priority_distribution_low p,
        ProductivityStats.priority_distribution_medium p,
        ProductivityStats.priority_distribution_high p,
        ProductivityStats.priority_distribution_urgent p)
       = (countWhere rows (fun r => tasks.user_id r == uid
                                    AND tasks.priority r == "low"%string)%sql,
          countWhere rows (fun r => tasks.user_id r == uid
                                    AND tasks.priority r == "medium"%string)%sql,
          countWhere rows (fun r => tasks.user_id r == uid
                                    AND tasks.priority r == "high"%string)%sql,
          countWhere rows (fun r => tasks.user_id r == uid
                                    AND tasks.priority r == "urgent"%string)%sql)
    /\ ProductivityStats.today_total_tasks p
       = countOn rows uid tasks.due_date (FormatDate (clock w (ticks w + 7)%nat))
    /\ ProductivityStats.today_completed_tasks p
       = countWhere rows
           (fun r => tasks.user_id r == uid
                     AND SQL.DATE (tasks.due_date r) == FormatDate (clock w (ticks w + 7)%nat)
                     AND tasks.status r == "completed"%string)%sql
    /\ ProductivityStats.today_completion_rate p
       = completionRate (ProductivityStats.today_completed_tasks p)
           (ProductivityStats.today_total_tasks p).
Proof.
  cbv zeta.
  assert (H : post (GetProductivityStats c) w (fun r w' =>
    exists p,
      r = Response.mk StatusOK "success" (Some (ProductivityData p)) None
            (clock w (ticks w + 8)%nat)
      /\ ProductivityStats.priority_completion_rates p
         = map (fun pr => (pr, priorityRateOf (tasks (store w)) (GetUserID c) pr))
             ["low"; "medium"; "high"; "urgent"]%string
      /\ ProductivityStats.recent_productivity p
         = withClock (productivityDayOf (tasks (store w)) (GetUserID c))
             (clock w) (ticks w) (downTo0 6)
      /\ ProductivityStats.category_efficiency p
         = map (categoryEfficiencyOf (tasks (store w)) (GetUserID c))
             (filter (scoped categories.deleted_at
                        (fun r => categories.user_id r == GetUserID c)%sql)
                (categories (store w)))
      /\ (ProductivityStats.priority_distribution_low p,
          ProductivityStats.priority_distribution_medium p,
          ProductivityStats.priority_distribution_high p,
          ProductivityStats.priority_distribution_urgent p)
         = (countWhere (tasks (store w))
              (fun r => tasks.user_id r == GetUserID c
                        AND tasks.priority r == "low"%string)%sql,
            countWhere (tasks (store w))
              (fun r => tasks.user_id r == GetUserID c
                        AND tasks.priority r == "medium"%string)%sql,
            countWhere (tasks (store w))
              (fun r => tasks.user_id r == GetUserID c
                        AND tasks.priority r == "high"%string)%sql,
            countWhere (tasks (store w))
              (fun r => tasks.user_id r == GetUserID c
                        AND tasks.priority r == "urgent"%string)%sql)
      /\ ProductivityStats.today_total_tasks p
         = countOn (tasks (store w)) (GetUserID c) tasks.due_date
             (FormatDate (clock w (ticks w + 7)%nat))
      /\ ProductivityStats.today_completed_tasks p
         = countWhere (tasks (store w))
             (fun r => tasks.user_id r == GetUserID c
                       AND SQL.DATE (tasks.due_date r)
                           == FormatDate (clock w (ticks w + 7)%nat)
                       AND tasks.status r == "completed"%string)%sql
      /\ ProductivityStats.today_completion_rate p
         = completionRate (ProductivityStats.today_completed_tasks p)
             (ProductivityStats.today_total_tasks p))).
  { unfold GetProductivityStats. cbv zeta. run.
    (* the priorities *)
    loop (fun (done : list string) (m : list (string * Q)) w' =>
            w' = w
            /\ (In done [[]; ["low"]; ["low"; "medium"]; ["low"; "medium"; "high"];
                         ["low"; "medium"; "high"; "urgent"]]%string ->
                m = map (fun pr => (pr, priorityRateOf (tasks (store w)) (GetUserID c) pr))
                      done)).
    2:{ split; [reflexivity|]. intros _. reflexivity. }
    2:{ intros done' pr m w' [-> Hm]. run. split; [reflexivity|].
        intros Hin. cbn [In] in Hin.
        destruct Hin as [Hd|[Hd|[Hd|[Hd|[Hd|[]]]]]].
        - destruct done'; discriminate Hd.
        - destruct done' as [|x [|y done']]; try discriminate Hd.
          injection Hd as <-. rewrite Hm by (cbn; auto). reflexivity.
        - destruct done' as [|x [|y [|z done']]]; try discriminate Hd.
          injection Hd as <- <-. rewrite Hm by (cbn; auto). reflexivity.
        - destruct done' as [|x [|y [|z [|u done']]]]; try discriminate Hd.
          injection Hd as <- <- <-. rewrite Hm by (cbn; auto). reflexivity.
        - destruct done' as [|x [|y [|z [|u [|v done']]]]]; try discriminate Hd.
          injection Hd as <- <- <- <-. rewrite Hm by (cbn; auto 6). reflexivity. }
    intros rates w1 [-> Hrates]. cbv beta. run.
    specialize (Hrates (or_intror (or_intror (or_intror (or_intror (or_introl eq_refl)))))).
    (* the last seven days *)
    loop (fun (done : list Z) (acc : list ProductivityDay.t) w' =>
            after w (List.length done) w'
            /\ acc = withClock (productivityDayOf (tasks (store w)) (GetUserID c))
                       (clock w) (ticks w) done).
    2:{ split; [apply after_0|reflexivity]. }
    2:{ intros done' i acc w' ((Hst & Hcl & Htk) & ->). run. split.
        - unfold after. cbn [store clock ticks]. rewrite length_app. cbn.
          repeat split; auto; lia.
        - rewrite withClock_app. cbn [withClock]. f_equal.
          unfold productivityDayOf, countOn. cbv zeta. rewrite Hst, Hcl, Htk. reflexivity. }
    intros recent w2 ((Hst & Hcl & Htk) & ->). cbv beta. cbn [app] in *. run.
    change (List.length (downTo0 6)) with 7%nat in Htk.
    (* the categories *)
    loop (fun (done : list Category.t) (acc : list CategoryEfficiency.t) w' =>
            w' = w2
            /\ acc = map (categoryEfficiencyOf (tasks (store w)) (GetUserID c)) done).
    2:{ split; reflexivity. }
    2:{ intros done' cat acc w' [-> ->]. run. split; [reflexivity|].
        rewrite map_app. cbn [map]. f_equal.
        unfold categoryEfficiencyOf, countWhere. cbv zeta. rewrite Hst. reflexivity. }
    intros cats w3 [-> ->]. cbv beta. cbn [app] in *. run.
    eexists. split.
    { rewrite Hcl, Htk. replace (ticks w + 8)%nat with (S (ticks w + 7)) by lia.
      reflexivity. }
    cbn [ProductivityStats.priority_completion_rates ProductivityStats.recent_productivity
         ProductivityStats.category_efficiency ProductivityStats.priority_distribution_low
         ProductivityStats.priority_distribution_medium
         ProductivityStats.priority_distribution_high
         ProductivityStats.priority_distribution_urgent
         ProductivityStats.today_total_tasks ProductivityStats.today_completed_tasks
         ProductivityStats.today_completion_rate].
    rewrite ?Hst, ?Hcl, ?Htk.
    split; [exact Hrates|]. split; [reflexivity|]. split; [reflexivity|].
    split; [reflexivity|]. split; [reflexivity|]. split; reflexivity. }
  exact H.
Qed.

(** * What the conditions of the statements select *)

Lemma liveTask_eq r :
  liveTask r = match Task.DeletedAt r with None => true | Some _ => false end.
Proof. reflexivity. Qed.

Lemma countWhere_tasksWhere rows owner cond p :
  (forall r, scoped tasks.deleted_at cond r
             = (Task.UserID r =? owner) && liveTask r && p r) ->
  countWhere rows cond = tasksWhere rows owner p.
Proof.
  intros H. unfold countWhere, tasksWhere, SQL.COUNT. do 2 f_equal.
  apply filter_ext. exact H.
Qed.

Lemma FormatDate_on_day t day : String.eqb (FormatDate t) (isoDate day) = (absDay t =? day).
Proof.
  rewrite FormatDate_isoDate.
  destruct (String.eqb_spec (isoDate (absDay t)) (isoDate day)) as [E|N];
    destruct (Z.eqb_spec (absDay t) day) as [E'|N']; try reflexivity.
  - now apply isoDate_inj in E.
  - now rewrite E' in N.
Qed.

Lemma holds_DATE col day :
  SQL.holds (SQL.eq (SQL.DATE col) (isoDate day)) = onDay day col.
Proof.
  destruct col as [t|]; [|reflexivity]. cbn [SQL.DATE option_map onDay].
  rewrite holds_eq. apply FormatDate_on_day.
Qed.

Lemma countOn_day rows owner col day :
  countOn rows owner col (isoDate day) = tasksOnDay rows owner col day.
Proof.
  unfold countOn, tasksOnDay, SQL.COUNT. do 2 f_equal. apply filter_ext. intros r.
  rewrite scoped_tasks, holds_and, holds_DATE. unfold tasks.user_id. rewrite holds_eq.
  rewrite liveTask_eq. unfold SQL.eqb, SQL.Eqb_Z.
  destruct (Task.UserID r =? owner), (onDay day (col r)), (Task.DeletedAt r); reflexivity.
Qed.

Lemma priority_condition owner priority r :
  scoped tasks.deleted_at
    (fun r => tasks.user_id r == owner AND tasks.priority r == priority)%sql r
  = (Task.UserID r =? owner) && liveTask r && hasPriority priority r.
Proof.
  rewrite scoped_tasks, holds_and. unfold tasks.user_id, tasks.priority.
  rewrite !holds_eq, liveTask_eq. unfold SQL.eqb, SQL.Eqb_Z, SQL.Eqb_string, hasPriority.
  destruct (Task.UserID r =? owner), (Task.Priority r =? priority)%string,
    (Task.DeletedAt r); reflexivity.
Qed.

Lemma priority_completed_condition owner priority r :
  scoped tasks.deleted_at
    (fun r => tasks.user_id r == owner AND tasks.priority r == priority
              AND tasks.status r == "completed"%string)%sql r
  = (Task.UserID r =? owner) && liveTask r && (hasPriority priority r && isCompleted r).
Proof.
  rewrite scoped_tasks, !holds_and. unfold tasks.user_id, tasks.priority, tasks.status.
  rewrite !holds_eq, liveTask_eq.
  unfold SQL.eqb, SQL.Eqb_Z, SQL.Eqb_string, hasPriority, isCompleted.
  destruct (Task.UserID r =? owner), (Task.Priority r =? priority)%string,
    (Task.Status r =? "completed")%string, (Task.DeletedAt r); reflexivity.
Qed.

Lemma holds_eq_option (col : option Z) v :
  SQL.holds (SQL.eq col v) = match col with Some k => k =? v | None => false end.
Proof. destruct col as [k|]; [apply holds_eq|reflexivity]. Qed.

Lemma category_condition owner category r :
  scoped tasks.deleted_at
    (fun r => tasks.user_id r == owner AND tasks.category_id r == category)%sql r
  = (Task.UserID r =? owner) && liveTask r && inCategory category r.
Proof.
  rewrite scoped_tasks, holds_and. unfold tasks.user_id, tasks.category_id.
  rewrite holds_eq, holds_eq_option, liveTask_eq. unfold SQL.eqb, SQL.Eqb_Z, inCategory.
  destruct (Task.UserID r =? owner), (Task.CategoryID r) as [k|], (Task.DeletedAt r);
    try destruct (k =? category); reflexivity.
Qed.

Lemma category_completed_condition owner category r :
  scoped tasks.deleted_at
    (fun r => tasks.user_id r == owner AND tasks.category_id r == category
              AND tasks.status r == "completed"%string)%sql r
  = (Task.UserID r =? owner) && liveTask r && (inCategory category r && isCompleted r).
Proof.
  rewrite scoped_tasks, !holds_and. unfold tasks.user_id, tasks.category_id, tasks.status.
  rewrite !holds_eq, holds_eq_option, liveTask_eq.
  unfold SQL.eqb, SQL.Eqb_Z, SQL.Eqb_string, inCategory, isCompleted.
  destruct (Task.UserID r =? owner), (Task.CategoryID r) as [k|],
    (Task.Status r =? "completed")%string, (Task.DeletedAt r);
    try destruct (k =? category); reflexivity.
Qed.

Lemma live_category_condition owner r :
  scoped categories.deleted_at (fun r => categories.user_id r == owner)%sql r
  = (Category.UserID r =? owner)
    && match Category.DeletedAt r with None => true | Some _ => false end.
Proof.
  unfold scoped. rewrite holds_and, holds_is_null. unfold categories.user_id.
  rewrite holds_eq. reflexivity.
Qed.

Lemma AddDate_isoDate now i :
  FormatDate (AddDate now 0 0 (- i)) = isoDate (absDay now - i).
Proof. rewrite FormatDate_isoDate, AddDate_days, absDay_add_days. reflexivity. Qed.

(** * The daily report and the trend, day by day *)

(** The [k]-th entry of the daily report is taken at the [k]-th reading
    of the clock of the request: it is labelled with the calendar day
    [n - 1 - k] days before the day of that reading, and counts the live
    tasks of the caller created on that day and those completed on it. *)
Theorem daily_report_counts (c : Context) (w : World) :
  let n := daysParam c in
  let uid := GetUserID c in
  let rows := tasks (store w) in
  exists l,
    Response.Data (fst (GetDailyStats c w)) = Some (DailyData l)
    /\ List.length l = Z.to_nat n
    /\ forall k, (k < Z.to_nat n)%nat ->
         let day := absDay (clock w (ticks w + k)%nat) - (n - 1 - Z.of_nat k) in
         nth_error l k
         = Some (DailyStats.mk (isoDate day)
                   (tasksOnDay rows uid tasks.created_at day)
                   (tasksOnDay rows uid tasks.completed_at day)).
Proof.
  cbv zeta. pose proof (daysParam_range c) as Hr.
  pose proof (daily_run c w) as H. cbv zeta in H. unfold post in H. destruct H as [_ H].
  eexists. split; [rewrite H; reflexivity|]. split.
  - rewrite withClock_length. apply downTo0_length. lia.
  - intros k Hk. rewrite withClock_nth_error, downTo0_nth_error by exact Hk.
    cbn [option_map]. unfold dailyStatsOf. cbv zeta.
    rewrite AddDate_isoDate, !countOn_day. reflexivity.
Qed.

(** The same for the seven entries of the productivity trend, with the
    efficiency of the two counts. *)
Theorem productivity_trend_entries (c : Context) (w : World) :
  let uid := GetUserID c in
  let rows := tasks (store w) in
  exists p,
    Response.Data (fst (GetProductivityStats c w)) = Some (ProductivityData p)
    /\ List.length (ProductivityStats.recent_productivity p) = 7%nat
    /\ forall k, (k < 7)%nat ->
         let day := absDay (clock w (ticks w + k)%nat) - (6 - Z.of_nat k) in
         let created := tasksOnDay rows uid tasks.created_at day in
         let completed := tasksOnDay rows uid tasks.completed_at day in
         nth_error (ProductivityStats.recent_productivity p) k
         = Some (ProductivityDay.mk (isoDate day) created completed
                   (efficiencyOf created completed)).
Proof.
  cbv zeta. destruct (productivity_fields c w) as (p & Hp & _ & Hrecent & _).
  cbv zeta in Hrecent.
  exists p. split; [rewrite Hp; reflexivity|]. rewrite Hrecent. split.
  - rewrite withClock_length. reflexivity.
  - intros k Hk. rewrite withClock_nth_error.
    change (downTo0 6) with (downTo0 (7 - 1)).
    rewrite (downTo0_nth_error 7 k) by (cbn; lia).
    cbn [option_map]. change (7 - 1) with 6. unfold productivityDayOf. cbv zeta.
    rewrite AddDate_isoDate, !countOn_day. reflexivity.
Qed.

(** * Priorities, categories and today's tasks in the productivity report *)

Lemma valid_priorities pr :
  In pr ["low"; "medium"; "high"; "urgent"]%string <-> IsValidTaskPriority pr = true.
Proof.
  unfold IsValidTaskPriority, Contains. rewrite existsb_exists. split.
  - intros H. exists pr. split; [exact H|apply String.eqb_refl].
  - intros (s & Hin & E). apply String.eqb_eq in E. now subst s.
Qed.

(** The map of completion rates has one entry for each priority that
    [IsValidTaskPriority] accepts and no other key; the rate stored under a
    priority is the completion rate of the caller's live tasks of that
    priority, and the priority distribution holds the totals of the same
    four rates. *)
Theorem priority_rates_by_priority (c : Context) (w : World) :
  let uid := GetUserID c in
  let rows := tasks (store w) in
  exists p,
    Response.Data (fst (GetProductivityStats c w)) = Some (ProductivityData p)
    /\ NoDup (map fst (ProductivityStats.priority_completion_rates p))
    /\ (forall pr, In pr (map fst (ProductivityStats.priority_completion_rates p))
                   <-> IsValidTaskPriority pr = true)
    /\ (forall pr rate,
          In (pr, rate) (ProductivityStats.priority_completion_rates p) ->
          rate = completionRate
                   (tasksWhere rows uid (fun t => hasPriority pr t && isCompleted t))
                   (tasksWhere rows uid (hasPriority pr)))
    /\ ProductivityStats.priority_distribution_low p
       = tasksWhere rows uid (hasPriority "low")
    /\ ProductivityStats.priority_distribution_medium p
       = tasksWhere rows uid (hasPriority "medium")
    /\ ProductivityStats.priority_distribution_high p
       = tasksWhere rows uid (hasPriority "high")
    /\ ProductivityStats.priority_distribution_urgent p
       = tasksWhere rows uid (hasPriority "urgent").
Proof.
  cbv zeta. destruct (productivity_fields c w) as (p & Hp & Hrates & _ & _ & Hdist & _).
  cbv zeta in Hrates, Hdist.
  exists p. split; [rewrite Hp; reflexivity|]. rewrite Hrates.
  split; [|split; [|split]].
  - cbn. repeat constructor; cbn; intuition discriminate.
  - intros pr. rewrite map_map. cbn [map fst]. apply valid_priorities.
  - intros pr rate Hin. apply in_map_iff in Hin. destruct Hin as (pr' & E & _).
    injection E as -> <-. unfold priorityRateOf.
    rewrite (countWhere_tasksWhere _ (GetUserID c) _ _
               (priority_completed_condition (GetUserID c) pr)).
    rewrite (countWhere_tasksWhere _ (GetUserID c) _ _
               (priority_condition (GetUserID c) pr)).
    reflexivity.
  - injection Hdist as H1 H2 H3 H4. rewrite H1, H2, H3, H4.
    repeat split; apply countWhere_tasksWhere; apply priority_condition.
Qed.

(** The category efficiency has one entry for each live category of the
    caller, in the order of the table, with the caller's live tasks of that
    category, the completed ones among them and their completion rate. *)
Theorem category_efficiency_entries (c : Context) (w : World) :
  let uid := GetUserID c in
  let rows := tasks (store w) in
  exists p,
    Response.Data (fst (GetProductivityStats c w)) = Some (ProductivityData p)
    /\ ProductivityStats.category_efficiency p
       = map (fun k =>
                let total := tasksWhere rows uid (inCategory (Category.ID k)) in
                let completed :=
                  tasksWhere rows uid
                    (fun t => inCategory (Category.ID k) t && isCompleted t) in
                CategoryEfficiency.mk (Category.Name k) total completed
                  (completionRate completed total))
           (filter (fun k => (Category.UserID k =? uid)
                             && match Category.DeletedAt k with
                                | None => true
                                | Some _ => false
                                end)
              (categories (store w))).
Proof.
  cbv zeta. destruct (productivity_fields c w) as (p & Hp & _ & _ & Hcats & _).
  cbv zeta in Hcats.
  exists p. split; [rewrite Hp; reflexivity|]. rewrite Hcats.
  rewrite (filter_ext _ _ (live_category_condition (GetUserID c))).
  apply map_ext. intros k. unfold categoryEfficiencyOf. cbv zeta.
  rewrite (countWhere_tasksWhere _ (GetUserID c) _ _
             (category_completed_condition (GetUserID c) (Category.ID k))).
  rewrite (countWhere_tasksWhere _ (GetUserID c) _ _
             (category_condition (GetUserID c) (Category.ID k))).
  reflexivity.
Qed.

Lemma due_completed_condition owner day r :
  scoped tasks.deleted_at
    (fun r => tasks.user_id r == owner
              AND SQL.DATE (tasks.due_date r) == isoDate day
              AND tasks.status r == "completed"%string)%sql r
  = (Task.UserID r =? owner) && liveTask r
    && (onDay day (Task.DueDate r) && isCompleted r).
Proof.
  rewrite scoped_tasks, !holds_and, holds_DATE. unfold tasks.user_id, tasks.status.
  rewrite !holds_eq, liveTask_eq. unfold tasks.due_date.
  unfold SQL.eqb, SQL.Eqb_Z, SQL.Eqb_string, isCompleted.
  destruct (Task.UserID r =? owner), (onDay day (Task.DueDate r)),
    (Task.Status r =? "completed")%string, (Task.DeletedAt r); reflexivity.
Qed.

(** Today's tasks of the productivity report are the caller's live tasks
    due on the calendar day of the reading of the clock taken for the
    overdue count, whatever their status, and the completed ones among
    them; their rate is a percentage. *)
Theorem today_counts_tasks_due_today (c : Context) (w : World) :
  let uid := GetUserID c in
  let rows := tasks (store w) in
  let today := absDay (clock w (ticks w + 7)%nat) in
  exists p,
    Response.Data (fst (GetProductivityStats c w)) = Some (ProductivityData p)
    /\ ProductivityStats.today_total_tasks p = tasksOnDay rows uid tasks.due_date today
    /\ ProductivityStats.today_completed_tasks p
       = tasksWhere rows uid (fun t => onDay today (Task.DueDate t) && isCompleted t)
    /\ ProductivityStats.today_completion_rate p
       = completionRate (ProductivityStats.today_completed_tasks p)
           (ProductivityStats.today_total_tasks p)
    /\ percentage (ProductivityStats.today_completion_rate p).
Proof.
  cbv zeta.
  destruct (productivity_fields c w) as (p & Hp & _ & _ & _ & _ & Htotal & Hdone & Hrate).
  cbv zeta in Htotal, Hdone, Hrate.
  destruct (productivity_report c w) as (p' & Hp' & Hof).
  assert (p' = p) by congruence. subst p'.
  destruct Hof as (_ & _ & _ & _ & _ & _ & _ & Htoday).
  exists p. split; [rewrite Hp; reflexivity|].
  rewrite FormatDate_isoDate in Htotal, Hdone.
  split; [|split; [|split]].
  - rewrite Htotal. apply countOn_day.
  - rewrite Hdone. apply countWhere_tasksWhere. apply due_completed_condition.
  - exact Hrate.
  - now apply (soundRate_percentage _ _ _ Htoday).
Qed.

(** * The monthly report without a [month] parameter *)

Lemma year_digits_ok : allFrom yearDigitsOk (Z.to_nat 10000) 0 = true.
Proof. vm_cast_no_check (eq_refl true). Qed.

Lemma month_digits_ok : allFrom monthDigitsOk 12 1 = true.
Proof. vm_cast_no_check (eq_refl true). Qed.

Lemma ParseMonth_written y m :
  0 <= y <= 9999 -> 1 <= m <= 12 ->
  ParseMonth (appendInt y 4 ++ "-" ++ appendInt m 2)%string = inl (Date y m 1 0 0 0 0).
Proof.
  intros Hy Hm.
  pose proof (allFrom_spec _ _ _ year_digits_ok y) as HY.
  rewrite Z2Nat.id in HY by discriminate. specialize (HY ltac:(lia)).
  pose proof (allFrom_spec _ _ _ month_digits_ok m) as HM.
  change (Z.of_nat 12) with 12 in HM. specialize (HM ltac:(lia)).
  unfold yearDigitsOk in HY. unfold monthDigitsOk in HM.
  destruct (appendInt y 4) as [|y1 [|y2 [|y3 [|y4 [|? ?]]]]]; try discriminate HY.
  destruct (appendInt m 2) as [|m1 [|m2 [|? ?]]]; try discriminate HM.
  apply andb_prop in HY. destruct HY as [HY Ey].
  apply andb_prop in HM. destruct HM as [HM Em].
  apply Z.eqb_eq in Ey, Em.
  cbn [String.append]. unfold ParseMonth. rewrite HY, HM, Ey, Em.
  destruct (Z.leb_spec m 0); [lia|]. destruct (Z.ltb_spec 12 m); [lia|].
  reflexivity.
Qed.

Lemma ParseMonth_FormatMonth t :
  0 <= Year t <= 9999 ->
  ParseMonth (FormatMonth t) = inl (Date (Year t) (Month t) 1 0 0 0 0).
Proof.
  intros Hy. apply ParseMonth_written; [exact Hy|apply Month_range].
Qed.

Lemma monthly_fields (c : Context) (w : World) (month : Time) :
  let uid := GetUserID c in
  let rows := tasks (store w) in
  let monthStr := DefaultQuery c "month" (FormatMonth (clock w (ticks w))) in
  ParseMonth monthStr = inl month ->
  exists rep,
    fst (GetMonthlyReport c w)
    = Response.mk StatusOK "success" (Some (MonthlyData rep)) None
        (clock w (ticks w + 1)%nat)
    /\ monthlyOf c w monthStr month rep
    /\ MonthlyReport.summary_tasks_in_progress rep
       = countWhere rows
           (fun r => tasks.user_id r == uid AND tasks.status r == "in_progress"%string
                     AND tasks.created_at r >= monthStartOf month
                     AND tasks.created_at r <= monthEndOf month)%sql
    /\ MonthlyReport.project_progress rep
       = map (projectProgressOf rows uid)
           (filter (scoped projects.deleted_at (fun r => projects.user_id r == uid)%sql)
              (projects (store w))).
Proof.
  cbv zeta. intros Hparse.
  assert (H : post (GetMonthlyReport c) w (fun r w' =>
    exists rep,
      r = Response.mk StatusOK "success" (Some (MonthlyData rep)) None
            (clock w (ticks w + 1)%nat)
      /\ MonthlyReport.summary_tasks_in_progress rep
         = countWhere (tasks (store w))
             (fun r => tasks.user_id r == GetUserID c
                       AND tasks.status r == "in_progress"%string
                       AND tasks.created_at r >= monthStartOf month
                       AND tasks.created_at r <= monthEndOf month)%sql
      /\ MonthlyReport.project_progress rep
         = map (projectProgressOf (tasks (store w)) (GetUserID c))
             (filter (scoped projects.deleted_at
                        (fun r => projects.user_id r == GetUserID c)%sql)
                (projects (store w))))).
  { unfold GetMonthlyReport. cbv zeta. run.
    replace (S (ticks w)) with (ticks w + 1)%nat by lia.
    rewrite Hparse.
    set (w1 := {| store := store w; clock := clock w; ticks := (ticks w + 1)%nat |}).
    run.
    loop (fun (done : list Z) (acc : list DailyTrend.t) w' => w' = w1).
    2:{ reflexivity. }
    2:{ intros done' day acc w' ->. run. reflexivity. }
    intros trends w2 ->. cbv beta. run.
    loop (fun (done : list Project.t) (acc : list ProjectProgress.t) w' =>
            w' = w1
            /\ acc = map (projectProgressOf (tasks (store w)) (GetUserID c)) done).
    2:{ split; reflexivity. }
    2:{ intros done' pr acc w' [-> ->]. run. split; [reflexivity|].
        rewrite map_app. cbn [map].
        unfold projectProgressOf, countWhere. cbv zeta. unfold w1. cbn [store].
        reflexivity. }
    intros progress w3 [-> ->]. cbv beta. cbn [app]. run.
    eexists. split; [reflexivity|].
    cbn [MonthlyReport.summary_tasks_in_progress MonthlyReport.project_progress].
    unfold countWhere, monthStartOf, monthEndOf, monthStartOf. unfold w1. cbn [store].
    split; reflexivity. }
  unfold post in H. destruct H as (rep & Hrep & Hin & Hproj).
  pose proof (monthly_run c w) as H. cbv zeta in H. unfold post in H.
  destruct H as [_ H]. rewrite Hparse in H. destruct H as (rep' & Hrep' & Hof).
  assert (rep' = rep) by congruence. subst rep'.
  exists rep. auto.
Qed.

Lemma monthStartOf_unfold t : monthStartOf t = Date (Year t) (Month t) 1 0 0 0 0.
Proof. unfold monthStartOf. reflexivity. Qed.

Lemma first_instant_fields t :
  Year (Date (Year t) (Month t) 1 0 0 0 0) = Year t
  /\ Month (Date (Year t) (Month t) 1 0 0 0 0) = Month t.
Proof.
  destruct (monthStartOf_fields t) as (E1 & E2 & _).
  rewrite monthStartOf_unfold in E1, E2. split; assumption.
Qed.

Lemma monthStartOf_same month t :
  Year month = Year t -> Month month = Month t -> monthStartOf month = monthStartOf t.
Proof. unfold monthStartOf. now intros -> ->. Qed.

Lemma monthEndOf_same month t :
  Year month = Year t -> Month month = Month t -> monthEndOf month = monthEndOf t.
Proof. unfold monthEndOf, monthStartOf. now intros -> ->. Qed.

Lemma DefaultQuery_absent (c : Context) key def :
  GetQuery (query c) key = None -> DefaultQuery c key def = def.
Proof. unfold DefaultQuery. now intros ->. Qed.

Lemma monthly_default_run (c : Context) (w : World) :
  GetQuery (query c) "month" = None ->
  0 <= Year (clock w (ticks w)) <= 9999 ->
  exists r,
    fst (GetMonthlyReport c w)
    = Response.mk StatusOK "success" (Some (MonthlyData r)) None
        (clock w (ticks w + 1)%nat)
    /\ monthlyOf c w (FormatMonth (clock w (ticks w)))
         (Date (Year (clock w (ticks w))) (Month (clock w (ticks w))) 1 0 0 0 0) r.
Proof.
  intros Hq Hy.
  pose proof (monthly_fields c w
    (Date (Year (clock w (ticks w))) (Month (clock w (ticks w))) 1 0 0 0 0)) as H.
  cbv zeta in H. rewrite (DefaultQuery_absent c _ _ Hq) in H.
  specialize (H (ParseMonth_FormatMonth _ Hy)).
  destruct H as (r & Hr & Hof & _). exists r. split; assumption.
Qed.

(** Without a [month] parameter the monthly report is that of the current
    month: the month the handler writes with the layout ["2006-01"] parses
    back, so the reply is never the format error, its window is the month
    of the clock reading and its trend has one entry per day of that
    month. The year has to fit the four digits of the layout. *)
Theorem monthly_default_is_current_month (c : Context) (w : World) :
  let now := clock w (ticks w) in
  let uid := GetUserID c in
  let rows := tasks (store w) in
  GetQuery (query c) "month" = None ->
  0 <= Year now <= 9999 ->
  exists r,
    Response.Code (fst (GetMonthlyReport c w)) = StatusOK
    /\ Response.Data (fst (GetMonthlyReport c w)) = Some (MonthlyData r)
    /\ MonthlyReport.month r = FormatMonth now
    /\ MonthlyReport.summary_tasks_created r
       = countBetween rows uid tasks.created_at (monthStartOf now) (monthEndOf now)
    /\ MonthlyReport.summary_tasks_completed r
       = countBetween rows uid tasks.completed_at (monthStartOf now) (monthEndOf now)
    /\ map DailyTrend.Day (MonthlyReport.daily_trends r)
       = upTo 1 (daysIn (Month now) (Year now)).
Proof.
  cbv zeta. intros Hq Hy.
  destruct (monthly_default_run c w Hq Hy) as (r & Hr & Hof).
  destruct (first_instant_fields (clock w (ticks w))) as [EY EM].
  destruct Hof as (Hmonth & Hcreated & Hcompleted & _ & Htrend & _).
  rewrite (monthStartOf_same _ _ EY EM), (monthEndOf_same _ _ EY EM)
    in Hcreated, Hcompleted.
  rewrite monthEndOf_Day, EY, EM in Htrend.
  exists r. rewrite Hr. split; [reflexivity|]. split; [reflexivity|].
  split; [exact Hmonth|]. split; [exact Hcreated|]. split; [exact Hcompleted|].
  rewrite Htrend, map_map. apply map_id.
Qed.

(** * Ranges of time, projects and the overview *)

Lemma holds_within (col : option Time) from to :
  SQL.holds (SQL.and (SQL.ge col from) (SQL.le col to)) = within from to col.
Proof.
  destruct col as [t|]; [|reflexivity]. cbn.
  destruct (from <=? t), (t <=? to); reflexivity.
Qed.

Lemma range_condition owner (col : Task.t -> option Time) from to r :
  scoped tasks.deleted_at
    (fun r => tasks.user_id r == owner AND col r >= from AND col r <= to)%sql r
  = (Task.UserID r =? owner) && liveTask r && within from to (col r).
Proof.
  rewrite scoped_tasks, liveTask_eq.
  assert (E : SQL.holds (tasks.user_id r == owner AND col r >= from AND col r <= to)%sql
              = (Task.UserID r =? owner) && within from to (col r)).
  { rewrite <- holds_within. unfold tasks.user_id.
    rewrite !holds_and, holds_eq. unfold SQL.eqb, SQL.Eqb_Z.
    destruct (Task.UserID r =? owner), (SQL.holds (col r >= from)%sql),
      (SQL.holds (col r <= to)%sql); reflexivity. }
  rewrite E.
  destruct (Task.UserID r =? owner), (within from to (col r)), (Task.DeletedAt r);
    reflexivity.
Qed.

Lemma status_range_condition owner status (col : Task.t -> option Time) from to r :
  scoped tasks.deleted_at
    (fun r => tasks.user_id r == owner AND tasks.status r == status
              AND col r >= from AND col r <= to)%sql r
  = (Task.UserID r =? owner) && liveTask r
    && (hasStatus status r && within from to (col r)).
Proof.
  rewrite scoped_tasks, liveTask_eq, <- holds_within, !holds_and.
  unfold tasks.user_id, tasks.status. rewrite !holds_eq.
  unfold SQL.eqb, SQL.Eqb_Z, SQL.Eqb_string, hasStatus.
  destruct (Task.UserID r =? owner), (Task.Status r =? status)%string,
    (SQL.holds (col r >= from)%sql), (SQL.holds (col r <= to)%sql), (Task.DeletedAt r);
    reflexivity.
Qed.

Lemma countBetween_within rows owner col from to :
  countBetween rows owner col from to
  = tasksWhere rows owner (fun t => within from to (col t)).
Proof.
  unfold countBetween. apply (countWhere_tasksWhere rows owner). intros r.
  apply range_condition.
Qed.

(** The [k]-th entry of the weekly report counts the live tasks of the
    caller created, and those completed, in the closed range of seven
    times 24 hours that starts at [weekStart]: the instant
    [weekday - 1 + 7 * i] days before the [k]-th reading of the clock, at
    the time of day of that reading. The report has between 1 and 12
    entries. *)
Theorem weekly_report_counts (c : Context) (w : World) :
  let n := weeksParam c in
  let uid := GetUserID c in
  let rows := tasks (store w) in
  exists l,
    Response.Data (fst (GetWeeklyStats c w)) = Some (WeeklyData l)
    /\ List.length l = Z.to_nat n
    /\ 1 <= n <= 12
    /\ forall k, (k < Z.to_nat n)%nat ->
         let now := clock w (ticks w + k)%nat in
         let weekStart := now - (Weekday now - 1 + 7 * (n - 1 - Z.of_nat k)) * nsPerDay in
         option_map WeeklyStats.TasksCreated (nth_error l k)
           = Some (tasksWhere rows uid
                     (fun t => within weekStart (weekStart + 7 * nsPerDay)
                                 (tasks.created_at t)))
         /\ option_map WeeklyStats.TasksCompleted (nth_error l k)
           = Some (tasksWhere rows uid
                     (fun t => within weekStart (weekStart + 7 * nsPerDay)
                                 (tasks.completed_at t))).
Proof.
  cbv zeta. destruct (weekly_entries c w) as (l & Hl & Hlen & Hnth).
  exists l. rewrite Hl. split; [reflexivity|]. split; [exact Hlen|].
  split; [apply weeksParam_range|].
  intros k Hk. rewrite (Hnth k Hk). cbn [option_map].
  unfold weeklyStatsOf. cbv zeta.
  cbn [WeeklyStats.TasksCreated WeeklyStats.TasksCompleted].
  assert (E : Add (weekEndOf (weekStartOf (clock w (ticks w + k)%nat)
                               (weeksParam c - 1 - Z.of_nat k))) (24 * Hour)
              = clock w (ticks w + k)%nat
                - (Weekday (clock w (ticks w + k)%nat) - 1
                   + 7 * (weeksParam c - 1 - Z.of_nat k)) * nsPerDay
                + 7 * nsPerDay).
  { unfold Add. rewrite weekEndOf_eq, weekStartOf_eq.
    unfold nsPerDay, secondsPerDay, Hour, Minute, Second. ring. }
  rewrite E, weekStartOf_eq.
  split; apply f_equal;
    apply (countWhere_tasksWhere (tasks (store w)) (GetUserID c));
    intros r; apply range_condition.
Qed.

Lemma project_condition owner project r :
  scoped tasks.deleted_at
    (fun r => tasks.project_id r == project AND tasks.user_id r == owner)%sql r
  = (Task.UserID r =? owner) && liveTask r && inProject project r.
Proof.
  rewrite scoped_tasks, holds_and. unfold tasks.user_id, tasks.project_id.
  rewrite holds_eq, holds_eq_option, liveTask_eq. unfold SQL.eqb, SQL.Eqb_Z, inProject.
  destruct (Task.UserID r =? owner), (Task.ProjectID r) as [k|], (Task.DeletedAt r);
    try destruct (k =? project); reflexivity.
Qed.

Lemma project_completed_condition owner project r :
  scoped tasks.deleted_at
    (fun r => tasks.project_id r == project AND tasks.user_id r == owner
              AND tasks.status r == "completed"%string)%sql r
  = (Task.UserID r =? owner) && liveTask r && (inProject project r && isCompleted r).
Proof.
  rewrite scoped_tasks, !holds_and. unfold tasks.user_id, tasks.project_id, tasks.status.
  rewrite !holds_eq, holds_eq_option, liveTask_eq.
  unfold SQL.eqb, SQL.Eqb_Z, SQL.Eqb_string, inProject, isCompleted.
  destruct (Task.UserID r =? owner), (Task.ProjectID r) as [k|],
    (Task.Status r =? "completed")%string, (Task.DeletedAt r);
    try destruct (k =? project); reflexivity.
Qed.

Lemma live_project_condition owner r :
  scoped projects.deleted_at (fun r => projects.user_id r == owner)%sql r
  = (Project.UserID r =? owner)
    && match Project.DeletedAt r with None => true | Some _ => false end.
Proof.
  unfold scoped. rewrite holds_and, holds_is_null. unfold projects.user_id.
  rewrite holds_eq. reflexivity.
Qed.

Lemma tasksWhere_le rows owner (p q : Task.t -> bool) :
  (forall t, p t = true -> q t = true) ->
  0 <= tasksWhere rows owner p <= tasksWhere rows owner q.
Proof.
  intros H. unfold tasksWhere. split; [lia|]. apply inj_le.
  induction rows as [|r rows IH]; [constructor|]. cbn [filter].
  destruct (Task.UserID r =? owner), (liveTask r); cbn [andb]; try exact IH.
  destruct (p r) eqn:Hp.
  - rewrite (H r Hp). cbn [List.length]. lia.
  - destruct (q r); cbn [List.length]; lia.
Qed.

(** The project progress of the monthly report has one entry for each
    live project of the caller, in the order of the table, with the
    caller's live tasks of that project, the completed ones among them
    and their rate, a percentage; the tasks in progress of the summary are
    among the tasks created in the window. *)
Theorem monthly_project_progress (c : Context) (w : World) (month : Time) :
  let uid := GetUserID c in
  let rows := tasks (store w) in
  ParseMonth (DefaultQuery c "month" (FormatMonth (clock w (ticks w)))) = inl month ->
  exists r,
    Response.Data (fst (GetMonthlyReport c w)) = Some (MonthlyData r)
    /\ MonthlyReport.project_progress r
       = map (fun p =>
                let total := tasksWhere rows uid (inProject (Project.ID p)) in
                let completed :=
                  tasksWhere rows uid
                    (fun t => inProject (Project.ID p) t && isCompleted t) in
                ProjectProgress.mk (Project.Name p) total completed
                  (completionRate completed total))
           (filter (fun p => (Project.UserID p =? uid)
                             && match Project.DeletedAt p with
                                | None => true
                                | Some _ => false
                                end)
              (projects (store w)))
    /\ Forall (fun e => percentage (ProjectProgress.progress e))
         (MonthlyReport.project_progress r)
    /\ MonthlyReport.summary_tasks_in_progress r
       = tasksWhere rows uid
           (fun t => hasStatus "in_progress" t
                     && within (monthStartOf month) (monthEndOf month)
                          (tasks.created_at t))
    /\ 0 <= MonthlyReport.summary_tasks_in_progress r
         <= MonthlyReport.summary_tasks_created r.
Proof.
  cbv zeta. intros Hparse.
  destruct (monthly_fields c w month Hparse) as (r & Hr & Hof & Hin & Hproj).
  cbv zeta in Hin, Hproj.
  destruct Hof as (_ & Hcreated & _ & _ & _ & Hsound).
  exists r. rewrite Hr. split; [reflexivity|].
  assert (Ein : MonthlyReport.summary_tasks_in_progress r
                = tasksWhere (tasks (store w)) (GetUserID c)
                    (fun t => hasStatus "in_progress" t
                              && within (monthStartOf month) (monthEndOf month)
                                   (tasks.created_at t))).
  { rewrite Hin. apply countWhere_tasksWhere. intros t.
    apply (status_range_condition (GetUserID c) "in_progress" tasks.created_at). }
  split; [|split; [|split]].
  - rewrite Hproj.
    rewrite (filter_ext _ _ (live_project_condition (GetUserID c))).
    apply map_ext. intros p. unfold projectProgressOf. cbv zeta.
    rewrite (countWhere_tasksWhere _ (GetUserID c) _ _
               (project_completed_condition (GetUserID c) (Project.ID p))).
    rewrite (countWhere_tasksWhere _ (GetUserID c) _ _
               (project_condition (GetUserID c) (Project.ID p))).
    reflexivity.
  - eapply Forall_impl; [|exact Hsound].
    intros e He. exact (proj1 (soundRate_percentage _ _ _ He)).
  - exact Ein.
  - rewrite Ein, Hcreated, countBetween_within.
    apply tasksWhere_le. intros t Ht. apply andb_prop in Ht.
    destruct Ht as [_ Ht]. exact Ht.
Qed.

(** * The overview *)

Lemma owner_condition owner r :
  scoped tasks.deleted_at (fun r => tasks.user_id r == owner)%sql r
  = (Task.UserID r =? owner) && liveTask r && true.
Proof.
  rewrite scoped_tasks, liveTask_eq. unfold tasks.user_id. rewrite holds_eq.
  unfold SQL.eqb, SQL.Eqb_Z. now rewrite andb_true_r.
Qed.

Lemma status_condition owner status r :
  scoped tasks.deleted_at
    (fun r => tasks.user_id r == owner AND tasks.status r == status)%sql r
  = (Task.UserID r =? owner) && liveTask r && hasStatus status r.
Proof.
  rewrite scoped_tasks, holds_and. unfold tasks.user_id, tasks.status.
  rewrite !holds_eq, liveTask_eq. unfold SQL.eqb, SQL.Eqb_Z, SQL.Eqb_string, hasStatus.
  destruct (Task.UserID r =? owner), (Task.Status r =? status)%string,
    (Task.DeletedAt r); reflexivity.
Qed.

Lemma filter_length_le {A} (p q : A -> bool) (l : list A) :
  (forall x, p x = true -> q x = true) ->
  (List.length (filter p l) <= List.length (filter q l))%nat.
Proof.
  intros H. induction l as [|x l IH]; [constructor|]. cbn [filter].
  destruct (p x) eqn:Hp.
  - rewrite (H x Hp). cbn [List.length]. lia.
  - destruct (q x); cbn [List.length]; lia.
Qed.

Lemma statuses_apart rows owner :
  tasksWhere rows owner (hasStatus "pending")
  + tasksWhere rows owner (hasStatus "in_progress")
  + tasksWhere rows owner (hasStatus "completed")
  <= tasksWhere rows owner (fun _ => true).
Proof.
  unfold tasksWhere. induction rows as [|r rows IH]; [cbn; lia|].
  cbn [filter]. unfold hasStatus in *.
  destruct (Task.UserID r =? owner), (liveTask r); cbn [andb]; try exact IH.
  destruct (String.eqb_spec (Task.Status r) "pending") as [E|N1].
  { rewrite E. cbn [String.eqb Ascii.eqb Bool.eqb List.length]. cbn [List.length]. lia. }
  destruct (String.eqb_spec (Task.Status r) "in_progress") as [E|N2].
  { rewrite E. cbn [String.eqb Ascii.eqb Bool.eqb List.length]. lia. }
  destruct (String.eqb (Task.Status r) "completed"); cbn [List.length]; lia.
Qed.

(** The overview counts the live rows of the caller: its tasks in all and
    by status, its projects in all and the active ones, and its
    categories. The three status counts together never exceed the total,
    whatever the statuses of the rows are, and the active projects are
    among the projects. *)
Theorem overview_counts_live_rows (c : Context) (w : World) :
  let uid := GetUserID c in
  let st := store w in
  exists o,
    fst (GetOverview c w)
    = Response.mk StatusOK "success" (Some (OverviewData o)) None (clock w (ticks w))
    /\ StatsOverview.TotalTasks o = tasksWhere (tasks st) uid (fun _ => true)
    /\ StatsOverview.PendingTasks o = tasksWhere (tasks st) uid (hasStatus "pending")
    /\ StatsOverview.InProgressTasks o
       = tasksWhere (tasks st) uid (hasStatus "in_progress")
    /\ StatsOverview.CompletedTasks o = tasksWhere (tasks st) uid (hasStatus "completed")
    /\ StatsOverview.TotalProjects o = projectsWhere (projects st) uid (fun _ => true)
    /\ StatsOverview.ActiveProjects o
       = projectsWhere (projects st) uid
           (fun p => String.eqb (Project.Status p) "active")
    /\ StatsOverview.TotalCategories o = liveCategories (categories st) uid
    /\ StatsOverview.PendingTasks o + StatsOverview.InProgressTasks o
       + StatsOverview.CompletedTasks o <= StatsOverview.TotalTasks o
    /\ 0 <= StatsOverview.ActiveProjects o <= StatsOverview.TotalProjects o.
Proof.
  cbv zeta. eexists. split; [reflexivity|].
  cbn [StatsOverview.TotalTasks StatsOverview.PendingTasks StatsOverview.InProgressTasks
       StatsOverview.CompletedTasks StatsOverview.TotalProjects
       StatsOverview.ActiveProjects StatsOverview.TotalCategories].
  assert (Et : SQL.COUNT (filter (scoped tasks.deleted_at
                 (fun r => tasks.user_id r == GetUserID c)%sql) (tasks (store w)))
               = tasksWhere (tasks (store w)) (GetUserID c) (fun _ => true)).
  { apply (countWhere_tasksWhere _ (GetUserID c)). intros r. apply owner_condition. }
  assert (Es : forall s,
            SQL.COUNT (filter (scoped tasks.deleted_at
              (fun r => tasks.user_id r == GetUserID c AND tasks.status r == s)%sql)
              (tasks (store w)))
            = tasksWhere (tasks (store w)) (GetUserID c) (hasStatus s)).
  { intros s. apply (countWhere_tasksWhere _ (GetUserID c)). intros r.
    apply status_condition. }
  rewrite Et, !Es.
  assert (Ep : SQL.COUNT (filter (scoped projects.deleted_at
                 (fun r => projects.user_id r == GetUserID c)%sql) (projects (store w)))
               = projectsWhere (projects (store w)) (GetUserID c) (fun _ => true)).
  { unfold projectsWhere, SQL.COUNT. do 2 f_equal. apply filter_ext. intros r.
    rewrite live_project_condition. now rewrite andb_true_r. }
  assert (Ea : SQL.COUNT (filter (scoped projects.deleted_at
                 (fun r => projects.user_id r == GetUserID c
                           AND projects.status r == "active"%string)%sql)
                 (projects (store w)))
               = projectsWhere (projects (store w)) (GetUserID c)
                   (fun p => String.eqb (Project.Status p) "active")).
  { unfold projectsWhere, SQL.COUNT. do 2 f_equal. apply filter_ext. intros r.
    unfold scoped. rewrite !holds_and, holds_is_null.
    unfold projects.user_id, projects.status. rewrite !holds_eq.
    unfold SQL.eqb, SQL.Eqb_Z, SQL.Eqb_string, projects.deleted_at.
    destruct (Project.UserID r =? GetUserID c), (Project.Status r =? "active")%string,
      (Project.DeletedAt r); reflexivity. }
  assert (Ek : SQL.COUNT (filter (scoped categories.deleted_at
                 (fun r => categories.user_id r == GetUserID c)%sql)
                 (categories (store w)))
               = liveCategories (categories (store w)) (GetUserID c)).
  { unfold liveCategories, SQL.COUNT. do 2 f_equal. apply filter_ext. intros r.
    apply live_category_condition. }
  rewrite Ep, Ea, Ek.
  repeat (split; [reflexivity|]). split; [apply statuses_apart|].
  unfold projectsWhere. split; [lia|]. apply inj_le, filter_length_le.
  intros r Hr. apply andb_prop in Hr. destruct Hr as [Hr _].
  now rewrite Hr.
Qed.

(** * The daily trend against the summary of the month *)

Lemma upTo_snoc (n : nat) : upTo 1 (Z.of_nat (S n)) = upTo 1 (Z.of_nat n) ++ [Z.of_nat n + 1].
Proof.
  unfold upTo.
  replace (Z.to_nat (Z.of_nat (S n) - 1 + 1)) with (S n) by lia.
  replace (Z.to_nat (Z.of_nat n - 1 + 1)) with n by lia.
  rewrite seq_S, map_app. cbn [map Nat.add]. do 2 f_equal. lia.
Qed.

Lemma sum_app l1 l2 : SQL.sum (l1 ++ l2) = SQL.sum l1 + SQL.sum l2.
Proof.
  unfold SQL.sum. induction l1 as [|x l1 IH]; cbn [app fold_right]; [reflexivity|].
  rewrite IH. ring.
Qed.

Lemma sum_map_add {A} (f g : A -> Z) (l : list A) :
  SQL.sum (map (fun d => f d + g d) l) = SQL.sum (map f l) + SQL.sum (map g l).
Proof.
  unfold SQL.sum. induction l as [|x l IH]; cbn [map fold_right]; [reflexivity|].
  rewrite IH. ring.
Qed.

Lemma sum_map_zero {A} (l : list A) : SQL.sum (map (fun _ => 0) l) = 0.
Proof.
  unfold SQL.sum. induction l as [|x l IH]; cbn [map fold_right]; [reflexivity|].
  now rewrite IH.
Qed.

(** An instant is in at most one of the first [n] days of a window that
    starts at [ms], and then it is in the window of the [n] days; an
    instant of the window on a whole second is in one of its days. *)
Lemma day_hits (ms : Time) (col : option Time) (n : nat) :
  let hits :=
    SQL.sum (map (fun d => Z.b2z (within (ms + (d - 1) * nsPerDay)
                                    (ms + (d - 1) * nsPerDay + (24 * Hour - Second)) col))
               (upTo 1 (Z.of_nat n))) in
  let inWindow := Z.b2z (within ms (ms + Z.of_nat n * nsPerDay - Second) col) in
  0 <= hits <= inWindow
  /\ (ms mod Second = 0 -> (forall t, col = Some t -> t mod Second = 0) ->
      hits = inWindow).
Proof.
  cbv zeta. destruct col as [t|].
  2:{ cbn [within Z.b2z]. rewrite sum_map_zero. split; [lia|reflexivity]. }
  cbn [within].
  induction n as [|n IH].
  - cbn [upTo]. change (upTo 1 (Z.of_nat 0)) with (@nil Z). cbn [map SQL.sum fold_right].
    split.
    + split; [lia|]. destruct ((ms <=? t) && (t <=? ms + Z.of_nat 0 * nsPerDay - Second));
        cbn; lia.
    + intros _ _.
      destruct (Z.leb_spec ms t), (Z.leb_spec t (ms + Z.of_nat 0 * nsPerDay - Second));
        cbn [andb Z.b2z]; try reflexivity.
      unfold nsPerDay, secondsPerDay, Second in *. lia.
  - rewrite upTo_snoc, map_app, sum_app. cbn [map SQL.sum fold_right].
    replace (Z.of_nat n + 1 - 1) with (Z.of_nat n) by ring.
    destruct IH as [IH1 IH2].
    set (hits := SQL.sum (map _ (upTo 1 (Z.of_nat n)))) in *.
    clearbody hits.
    replace (Z.of_nat (S n)) with (Z.of_nat n + 1) by lia.
    unfold nsPerDay, secondsPerDay, Hour, Minute, Second in *.
    split.
    + destruct (Z.leb_spec ms t), (Z.leb_spec t (ms + Z.of_nat n * (86400 * 1000000000)
                                                 - 1000000000)),
        (Z.leb_spec (ms + Z.of_nat n * (86400 * 1000000000)) t),
        (Z.leb_spec t (ms + Z.of_nat n * (86400 * 1000000000)
                       + (24 * (60 * (60 * 1000000000)) - 1000000000))),
        (Z.leb_spec t (ms + (Z.of_nat n + 1) * (86400 * 1000000000) - 1000000000));
        cbn [andb Z.b2z] in *; lia.
    + intros Hms Ht. specialize (IH2 Hms Ht). specialize (Ht t eq_refl).
      apply Z.mod_divide in Hms, Ht; try discriminate.
      destruct Hms as [a Ha], Ht as [b Hb].
      destruct (Z.leb_spec ms t), (Z.leb_spec t (ms + Z.of_nat n * (86400 * 1000000000)
                                                 - 1000000000)),
        (Z.leb_spec (ms + Z.of_nat n * (86400 * 1000000000)) t),
        (Z.leb_spec t (ms + Z.of_nat n * (86400 * 1000000000)
                       + (24 * (60 * (60 * 1000000000)) - 1000000000))),
        (Z.leb_spec t (ms + (Z.of_nat n + 1) * (86400 * 1000000000) - 1000000000));
        cbn [andb Z.b2z] in *; lia.
Qed.

Lemma tasksWhere_cons r rows owner p :
  tasksWhere (r :: rows) owner p
  = Z.b2z ((Task.UserID r =? owner) && liveTask r && p r) + tasksWhere rows owner p.
Proof.
  unfold tasksWhere. cbn [filter].
  destruct ((Task.UserID r =? owner) && liveTask r && p r); cbn [List.length Z.b2z]; lia.
Qed.

Lemma window_counts rows owner (col : Task.t -> option Time) (ms : Time) (n : nat) :
  let days :=
    SQL.sum (map (fun d =>
                    tasksWhere rows owner
                      (fun t => within (ms + (d - 1) * nsPerDay)
                                  (ms + (d - 1) * nsPerDay + (24 * Hour - Second)) (col t)))
               (upTo 1 (Z.of_nat n))) in
  let all :=
    tasksWhere rows owner
      (fun t => within ms (ms + Z.of_nat n * nsPerDay - Second) (col t)) in
  days <= all
  /\ (ms mod Second = 0 ->
      (forall r t, In r rows -> col r = Some t -> t mod Second = 0) ->
      days = all).
Proof.
  cbv zeta. induction rows as [|r rows IH].
  - unfold tasksWhere. cbn [filter List.length Z.of_nat]. rewrite sum_map_zero.
    split; [lia|reflexivity].
  - rewrite tasksWhere_cons.
    rewrite (map_ext _ (fun d =>
      Z.b2z ((Task.UserID r =? owner) && liveTask r
             && within (ms + (d - 1) * nsPerDay)
                  (ms + (d - 1) * nsPerDay + (24 * Hour - Second)) (col r))
      + tasksWhere rows owner
          (fun t => within (ms + (d - 1) * nsPerDay)
                      (ms + (d - 1) * nsPerDay + (24 * Hour - Second)) (col t))))
      by (intros d; apply tasksWhere_cons).
    rewrite sum_map_add.
    destruct IH as [IH1 IH2].
    destruct (day_hits ms (col r) n) as [[H0 H1] H2]. cbv zeta in H0, H1, H2.
    destruct ((Task.UserID r =? owner) && liveTask r); cbn [andb].
    + split; [lia|]. intros Hms Hall.
      rewrite IH2, H2; auto.
      * intros t Ht. apply (Hall r t); [now left|exact Ht].
      * intros r' t Hin. apply Hall. now right.
    + cbn [Z.b2z]. rewrite sum_map_zero. split; [lia|]. intros Hms Hall.
      rewrite IH2; auto. intros r' t Hin. apply Hall. now right.
Qed.

Lemma absDays_day y m d : absDays y m d = absDays y m 1 + (d - 1).
Proof. unfold absDays. cbv zeta. ring. Qed.

Lemma dayStartOf_eq month d :
  dayStartOf month d = monthStartOf month + (d - 1) * nsPerDay.
Proof.
  pose proof (Month_range month) as Hm.
  rewrite monthStartOf_eq. unfold dayStartOf.
  rewrite Date_midnight, Z.div_small, Z.mod_small, Z.add_0_r by lia.
  replace (Month month - 1 + 1) with (Month month) by ring.
  rewrite (absDays_day _ _ d). ring.
Qed.

Lemma monthStartOf_whole_second month : monthStartOf month mod Second = 0.
Proof.
  rewrite monthStartOf_eq. unfold nsPerDay, secondsPerDay.
  rewrite Z.mul_assoc. apply Z.mod_mul. discriminate.
Qed.

Lemma monthly_window_counts rows owner col month :
  let N := daysIn (Month month) (Year month) in
  let days :=
    SQL.sum (map (fun d => countBetween rows owner col
                             (dayStartOf month d) (dayEndOf month d))
               (upTo 1 N)) in
  let all := countBetween rows owner col (monthStartOf month) (monthEndOf month) in
  days <= all
  /\ ((forall r t, In r rows -> col r = Some t -> t mod Second = 0) -> days = all).
Proof.
  cbv zeta.
  pose proof (daysIn_bounds _ (Year month) (Month_range month)) as HN.
  destruct (window_counts rows owner col (monthStartOf month)
              (Z.to_nat (daysIn (Month month) (Year month)))) as [H1 H2].
  cbv zeta in H1, H2. rewrite Z2Nat.id in H1, H2 by lia.
  assert (Eall : countBetween rows owner col (monthStartOf month) (monthEndOf month)
                 = tasksWhere rows owner
                     (fun t => within (monthStartOf month)
                                 (monthStartOf month
                                  + daysIn (Month month) (Year month) * nsPerDay - Second)
                                 (col t))).
  { assert (E : monthEndOf month
                 = monthStartOf month
                   + daysIn (Month month) (Year month) * nsPerDay - Second)
      by (rewrite monthEndOf_eq, monthStartOf_eq; ring).
    rewrite countBetween_within, E. reflexivity. }
  assert (Edays : map (fun d => countBetween rows owner col
                                  (dayStartOf month d) (dayEndOf month d))
                    (upTo 1 (daysIn (Month month) (Year month)))
                  = map (fun d =>
                           tasksWhere rows owner
                             (fun t => within (monthStartOf month + (d - 1) * nsPerDay)
                                         (monthStartOf month + (d - 1) * nsPerDay
                                          + (24 * Hour - Second)) (col t)))
                      (upTo 1 (daysIn (Month month) (Year month)))).
  { apply map_ext. intros d. rewrite countBetween_within.
    unfold dayEndOf, Add. now rewrite dayStartOf_eq. }
  rewrite Eall, Edays. split; [exact H1|].
  intros Hall. apply H2; [apply monthStartOf_whole_second|exact Hall].
Qed.

(** The counts of the daily trend add up to at most the count of the
    summary, for the tasks created and for the tasks completed: the days
    of the trend lie apart from each other inside the window of the month.
    They add up to exactly the summary when the timestamps of the rows
    are on whole seconds. *)
Theorem monthly_trend_sums (c : Context) (w : World) (month : Time) :
  let rows := tasks (store w) in
  ParseMonth (DefaultQuery c "month" (FormatMonth (clock w (ticks w)))) = inl month ->
  exists r,
    Response.Data (fst (GetMonthlyReport c w)) = Some (MonthlyData r)
    /\ SQL.sum (map DailyTrend.Created (MonthlyReport.daily_trends r))
       <= MonthlyReport.summary_tasks_created r
    /\ SQL.sum (map DailyTrend.Completed (MonthlyReport.daily_trends r))
       <= MonthlyReport.summary_tasks_completed r
    /\ ((forall t, In t rows -> Task.CreatedAt t mod Second = 0) ->
        SQL.sum (map DailyTrend.Created (MonthlyReport.daily_trends r))
        = MonthlyReport.summary_tasks_created r)
    /\ ((forall t done, In t rows -> Task.CompletedAt t = Some done ->
                        done mod Second = 0) ->
        SQL.sum (map DailyTrend.Completed (MonthlyReport.daily_trends r))
        = MonthlyReport.summary_tasks_completed r).
Proof.
  cbv zeta. intros Hparse.
  destruct (monthly_fields c w month Hparse) as (r & Hr & Hof & _).
  destruct Hof as (_ & Hcreated & Hcompleted & _ & Htrend & _).
  exists r. rewrite Hr. split; [reflexivity|].
  rewrite Htrend, monthEndOf_Day, !map_map, Hcreated, Hcompleted.
  cbn [dailyTrendOf DailyTrend.Created DailyTrend.Completed].
  destruct (monthly_window_counts (tasks (store w)) (GetUserID c) tasks.created_at month)
    as [A1 A2].
  destruct (monthly_window_counts (tasks (store w)) (GetUserID c) tasks.completed_at month)
    as [B1 B2].
  cbv zeta in A1, A2, B1, B2.
  split; [exact A1|]. split; [exact B1|]. split.
  - intros Hall. apply A2. intros t x Hin E. unfold tasks.created_at in E.
    injection E as <-. now apply Hall.
  - intros Hall. apply B2. intros t x Hin E. now apply (Hall t x).
Qed.

(** * The daily report across midnight *)

(** The daily report reads the clock in every iteration: when midnight
    passes between the readings of two consecutive entries, their labels
    are two days apart and the date between them has no entry. *)
Theorem daily_labels_skip_a_day (c : Context) (w : World) (k : nat) :
  (S k < Z.to_nat (daysParam c))%nat ->
  absDay (clock w (ticks w + S k)%nat) = absDay (clock w (ticks w + k)%nat) + 1 ->
  exists l d,
    Response.Data (fst (GetDailyStats c w)) = Some (DailyData l)
    /\ nth_error (map DailyStats.Date l) k = Some (isoDate d)
    /\ nth_error (map DailyStats.Date l) (S k) = Some (isoDate (d + 2)).
Proof.
  intros Hk Hday. destruct (daily_report_counts c w) as (l & Hl & _ & Hnth).
  cbv zeta in Hnth.
  exists l, (absDay (clock w (ticks w + k)%nat) - (daysParam c - 1 - Z.of_nat k)).
  split; [exact Hl|].
  rewrite !nth_error_map, (Hnth k), (Hnth (S k)) by lia. cbn [option_map DailyStats.Date].
  split; [reflexivity|]. rewrite Hday. do 2 f_equal. lia.
Qed.

(** * The theorems at sample inputs *)

Lemma daily_labels_skip_a_day_witness :
  exists l d,
    Response.Data
      (fst (GetDailyStats (Examples.request [("days", "2")]%string) Examples.midnightWorld))
      = Some (DailyData l)
    /\ nth_error (map DailyStats.Date l) 0 = Some (isoDate d)
    /\ nth_error (map DailyStats.Date l) 1 = Some (isoDate (d + 2)).
Proof.
  apply (daily_labels_skip_a_day (Examples.request [("days", "2")]%string)
           Examples.midnightWorld 0).
  - vm_compute. lia.
  - vm_compute. reflexivity.
Defined.

Lemma reports_see_own_rows_only_witness :
  fst (GetOverview (Examples.request []) Examples.busyWorld)
  = fst (GetOverview (Examples.request []) Samples.sharedWorld).
Proof.
  apply (reports_see_own_rows_only (Examples.request [])
           Examples.busyWorld Samples.sharedWorld).
  - split; [vm_compute; reflexivity|]. split; [vm_compute; reflexivity|].
    split; [vm_compute; reflexivity|]. intros k. reflexivity.
  - cbn. auto.
Defined.

Lemma monthly_default_is_current_month_witness :
  exists r,
    Response.Data (fst (GetMonthlyReport (Examples.request []) Examples.busyWorld))
      = Some (MonthlyData r)
    /\ MonthlyReport.month r = "2024-03"%string
    /\ List.length (MonthlyReport.daily_trends r) = 31%nat.
Proof.
  destruct (monthly_default_is_current_month (Examples.request []) Examples.busyWorld)
    as (r & _ & Hr & Hm & _ & _ & Hdays).
  - reflexivity.
  - vm_compute. split; discriminate.
  - exists r. split; [exact Hr|]. split.
    + rewrite Hm. vm_compute. reflexivity.
    + rewrite <- (length_map DailyTrend.Day), Hdays. vm_compute. reflexivity.
Defined.

Lemma monthly_project_progress_witness :
  exists r,
    Response.Data
      (fst (GetMonthlyReport (Examples.request [("month", "2024-03")]%string)
              Samples.projectWorld))
      = Some (MonthlyData r)
    /\ map ProjectProgress.project_name (MonthlyReport.project_progress r)
       = ["site"]%string
    /\ map ProjectProgress.total_tasks (MonthlyReport.project_progress r) = [3]
    /\ MonthlyReport.summary_tasks_in_progress r = 1.
Proof.
  destruct (monthly_project_progress (Examples.request [("month", "2024-03")]%string)
              Samples.projectWorld (Examples.at_ 2024 3 1 0 0 0))
    as (r & Hr & Hp & _ & Hin & _).
  - vm_compute. reflexivity.
  - exists r. split; [exact Hr|]. rewrite Hp, Hin.
    split; [vm_compute; reflexivity|]. split; vm_compute; reflexivity.
Defined.

Lemma monthly_trend_sums_witness :
  exists r,
    Response.Data
      (fst (GetMonthlyReport (Examples.request [("month", "2024-03")]%string)
              Samples.projectWorld))
      = Some (MonthlyData r)
    /\ SQL.sum (map DailyTrend.Created (MonthlyReport.daily_trends r))
       = MonthlyReport.summary_tasks_created r.
Proof.
  destruct (monthly_trend_sums (Examples.request [("month", "2024-03")]%string)
              Samples.projectWorld (Examples.at_ 2024 3 1 0 0 0))
    as (r & Hr & _ & _ & Hsum & _).
  - vm_compute. reflexivity.
  - exists r. split; [exact Hr|]. apply Hsum. intros t Hin. cbn in Hin.
    destruct Hin as [<-|[<-|[<-|[]]]]; vm_compute; reflexivity.
Defined.
